(** * AI_notes: the provider abstraction and request layer

    A shallow embedding of
    - [src/types/AIProvider.ts]           (AIProviderType, AIProvider, AIResponse),
    - [src/services/ai/OpenAIService.ts]  (makeRequest and the three task methods),
    - [src/services/ai/GeminiService.ts],
    - [src/services/ai/AnthropicService.ts],
    - [src/services/ai/AIService.ts]      (the dispatch facade),
    - [src/components/ai/WordSuggestions.tsx] (fetchSuggestions),
    - [src/screens/AISettingsScreen.tsx]  (the handlers that store the
      active provider),
    - the note editor, the note card, the hard words analyzer, the home,
      note editor and settings screens, and
      [src/services/storage/DatabaseService.ts],
    followed by the properties of that code.

    Strings are sequences of code units below 256 (one [ascii] per unit).
    An [async] function is a computation over the log of outbound HTTP
    calls that either completes normally or throws; [axios.post] and the
    text of the engine's TypeError are supplied by the host. *)

From Stdlib Require Import Ascii.
From stdpp Require Import strings list gmap pretty.

Local Open Scope string_scope.
Local Open Scope list_scope.
Local Set Warnings "-register-all".

(** ** JavaScript values, as far as the layer touches them *)

Module JS.

(** A parsed JSON body or any other runtime value.  A number is the exact
    decimal [mantissa * 10 ^ exponent]; the layer never computes with it.
    An object lists its own properties; should a name occur twice, [assoc]
    reads the first. *)
Inductive value : Type :=
| VUndefined
| VNull
| VBool (b : bool)
| VNum (mantissa exponent : Z)
| VStr (s : string)
| VArr (items : list value)
| VObj (fields : list (string * value)).

(** What a [throw] carries: an [Error] instance with its message, or
    anything else. *)
Inductive thrown : Type :=
| ErrorInstance (message : string)
| NonError (v : value).

Inductive completion (A : Type) : Type :=
| Normal (a : A)
| Throw (e : thrown).
Arguments Normal {A} a.
Arguments Throw {A} e.

(** The property read [v.name] or [v[index]]. *)
Inductive key : Type :=
| KName (name : string)
| KIndex (index : nat).

Fixpoint assoc (k : string) (fields : list (string * value)) : option value :=
  match fields with
  | [] => None
  | (k', v) :: rest => if String.eqb k k' then Some v else assoc k rest
  end.

Definition charAt (s : string) (i : nat) : value :=
  match String.get i s with
  | Some c => VStr (String c EmptyString)
  | None => VUndefined
  end.

(** [get v k] is [Some] of the value read, and [None] when the read throws
    a TypeError (the base is [undefined] or [null]).  A missing property
    reads as [undefined].  [KName] stands for the identifier names the
    adapters read, none of which is a built-in member of arrays, strings,
    numbers or booleans. *)
Definition get (v : value) (k : key) : option value :=
  match v, k with
  | VUndefined, _ | VNull, _ => None
  | VObj fields, KName name => Some (default VUndefined (assoc name fields))
  | VObj fields, KIndex i => Some (default VUndefined (assoc (pretty i) fields))
  | VArr items, KIndex i => Some (default VUndefined (items !! i))
  | VArr _, KName _ => Some VUndefined
  | VStr s, KIndex i => Some (charAt s i)
  | VStr _, KName _ => Some VUndefined
  | VBool _, _ | VNum _ _, _ => Some VUndefined
  end.

(** ToBoolean. *)
Definition truthy (v : value) : bool :=
  match v with
  | VUndefined | VNull => false
  | VBool b => b
  | VNum m _ => negb (m =? 0)%Z
  | VStr s => negb (String.eqb s EmptyString)
  | VArr _ | VObj _ => true
  end.

(** [a || b] on strings: the empty string is the only falsy one. *)
Definition or_else (a b : string) : string :=
  if String.eqb a EmptyString then b else a.

(** White space and line terminators among the code units below 256:
    TAB, LF, VT, FF, CR, SPACE and NBSP. *)
Definition isWhiteSpace (c : ascii) : bool :=
  match nat_of_ascii c with
  | 9 | 10 | 11 | 12 | 13 | 32 | 160 => true
  | _ => false
  end.

Fixpoint trimStart (s : string) : string :=
  match s with
  | EmptyString => EmptyString
  | String c rest => if isWhiteSpace c then trimStart rest else s
  end.

Fixpoint trimEnd (s : string) : string :=
  match s with
  | EmptyString => EmptyString
  | String c rest =>
      match trimEnd rest with
      | EmptyString => if isWhiteSpace c then EmptyString else String c EmptyString
      | kept => String c kept
      end
  end.

(** [String.prototype.trim]. *)
Definition trim (s : string) : string := trimEnd (trimStart s).

(** [s.split(sep)] for a one-unit separator: always at least one piece. *)
Fixpoint split (sep : ascii) (s : string) : list string :=
  match s with
  | EmptyString => [EmptyString]
  | String c rest =>
      if Ascii.eqb c sep then EmptyString :: split sep rest
      else match split sep rest with
           | [] => [String c EmptyString]
           | piece :: pieces => String c piece :: pieces
           end
  end.

(** [pieces.join(sep)]. *)
Fixpoint join (sep : ascii) (pieces : list string) : string :=
  match pieces with
  | [] => EmptyString
  | [piece] => piece
  | piece :: rest => piece +:+ String sep (join sep rest)
  end.

(** [s.substring(n)] and [s.substring(0, n)] for a non-negative integer
    [n]: the units of [s] from index [n] on, and its first [n] units. *)
Fixpoint tailFrom (n : nat) (s : string) : string :=
  match n, s with
  | 0, _ => s
  | S _, EmptyString => EmptyString
  | S n', String _ rest => tailFrom n' rest
  end.

Fixpoint headTo (n : nat) (s : string) : string :=
  match n, s with
  | 0, _ => EmptyString
  | S _, EmptyString => EmptyString
  | S n', String c rest => String c (headTo n' rest)
  end.

(** [s.substring(start, end)] for non-negative integers: each index is
    clamped to the length and the two are swapped when [start > end]. *)
Definition substring (s : string) (start finish : nat) : string :=
  headTo (Nat.max start finish - Nat.min start finish)
         (tailFrom (Nat.min start finish) s).

(** [s.indexOf(needle)] for a string [needle], counting from [from]: the
    first index at which [needle] starts, or -1. *)
Fixpoint indexOfFrom (needle s : string) (from : nat) : Z :=
  if String.prefix needle s then Z.of_nat from
  else match s with
       | EmptyString => (-1)%Z
       | String _ rest => indexOfFrom needle rest (S from)
       end.

Definition indexOf (s needle : string) : Z := indexOfFrom needle s 0.

(** GetSubstitution for a search by string, which has no captures: in
    the replacement text [$$] stands for a dollar sign, [$&] for the matched
    text, [$`] for what precedes the match and [$'] for what follows it;
    every other dollar sign stands for itself. *)
Fixpoint getSubstitution (matched before after template : string) : string :=
  match template with
  | EmptyString => EmptyString
  | String c rest =>
      if Ascii.eqb c "$" then
        match rest with
        | String d rest' =>
            if Ascii.eqb d "$" then String "$" (getSubstitution matched before after rest')
            else if Ascii.eqb d "&" then matched +:+ getSubstitution matched before after rest'
            else if Ascii.eqb d "`" then before +:+ getSubstitution matched before after rest'
            else if Ascii.eqb d "'" then after +:+ getSubstitution matched before after rest'
            else String c (getSubstitution matched before after rest)
        | EmptyString => String c EmptyString
        end
      else String c (getSubstitution matched before after rest)
  end.

(** The loop of [replaceAll] from index [pos] on, [s] being the units of
    [whole] from there; [skip] units of [s] still belong to the last match.
    Matches are taken leftmost first and do not overlap; an empty search
    matches before every unit and at the end. *)
Fixpoint replaceAllFrom (search replacement whole : string)
    (s : string) (pos skip : nat) : string :=
  match skip with
  | S skip' =>
      match s with
      | EmptyString => EmptyString
      | String _ rest => replaceAllFrom search replacement whole rest (S pos) skip'
      end
  | 0 =>
      if String.prefix search s then
        getSubstitution search (headTo pos whole)
          (tailFrom (pos + String.length search) whole) replacement
        +:+ match s with
            | EmptyString => EmptyString
            | String c rest =>
                match String.length search with
                | 0 => String c (replaceAllFrom search replacement whole rest (S pos) 0)
                | S inside => replaceAllFrom search replacement whole rest (S pos) inside
                end
            end
      else
        match s with
        | EmptyString => EmptyString
        | String c rest => String c (replaceAllFrom search replacement whole rest (S pos) 0)
        end
  end.

(** [s.replaceAll(search, replacement)] for strings. *)
Definition replaceAll (s search replacement : string) : string :=
  replaceAllFrom search replacement s s 0 0.

End JS.

Import JS.

(** ** src/types/AIProvider.ts *)

(** The string enum [AIProviderType]: at run time a tag is a string (the
    provider record comes out of [JSON.parse]), of which three are members. *)
Definition AIProviderType : Type := string.

Module AIProviderType.
Definition OPENAI : AIProviderType := "openai".
Definition GEMINI : AIProviderType := "gemini".
Definition ANTHROPIC : AIProviderType := "anthropic".
End AIProviderType.

Record AIProvider : Type := {
  type : AIProviderType;
  apiKey : string;
  model : string;
  isActive : bool
}.

(** [AIResponse]: [data] and [error] are optional properties, [None] when the
    object literal has no such key.  [data] holds whatever the vendor body
    has at the vendor's path. *)
Record AIResponse : Type := {
  success : bool;
  data : option value;
  error : option string
}.

(** ** The host: HTTP client and engine *)

(** One [axios.post(url, body, {headers})]. *)
Record Request : Type := {
  url : string;
  body : value;
  headers : list (string * string)
}.

(** [axios_post r] is [Normal d] when the promise resolves with a response
    whose [data] is [d], and [Throw e] when it rejects (no connection, a
    status outside 2xx, ...).  [typeErrorMessage v k] is the message of the
    TypeError the engine raises on reading [k] of [v]. *)
Record Host : Type := {
  axios_post : Request -> completion value;
  typeErrorMessage : value -> key -> string
}.

(** The outbound calls issued so far, oldest first. *)
Definition Network : Type := list Request.

Definition Async (A : Type) : Type := Host -> Network -> completion A * Network.

Definition ret {A : Type} (a : A) : Async A :=
  fun _ net => (Normal a, net).

Definition bind {A B : Type} (m : Async A) (k : A -> Async B) : Async B :=
  fun host net =>
    match m host net with
    | (Normal a, net') => k a host net'
    | (Throw e, net') => (Throw e, net')
    end.

Notation "'await' x ':=' m 'in' k" := (bind m (fun x => k))
  (at level 10, x name, m at level 100, k at level 200).

(** [try { body } catch (error) { handler }]. *)
Definition try_catch {A : Type} (body : Async A) (handler : thrown -> Async A) : Async A :=
  fun host net =>
    match body host net with
    | (Normal a, net') => (Normal a, net')
    | (Throw e, net') => handler e host net'
    end.

Definition post (r : Request) : Async value :=
  fun host net => (axios_post host r, net ++ [r]).

Definition read (v : value) (k : key) : Async value :=
  fun host net =>
    match JS.get v k with
    | Some v' => (Normal v', net)
    | None => (Throw (ErrorInstance (typeErrorMessage host v k)), net)
    end.

(** [error instanceof Error ? error.message : 'Unknown error occurred']. *)
Definition errorMessage (e : thrown) : string :=
  match e with
  | ErrorInstance message => message
  | NonError _ => "Unknown error occurred"
  end.

Definition failure (e : thrown) : AIResponse :=
  {| success := false; data := None; error := Some (errorMessage e) |}.

(** ** The prompts (the same template literals in the three adapters) *)

Definition dq : string := String (ascii_of_nat 34) EmptyString.
Definition nl : string := String (ascii_of_nat 10) EmptyString.

Definition simplifyPrompt (text : string) : string :=
  "Please simplify the following text while maintaining its meaning and context. Make it easier to understand without losing important information:"
  +:+ nl +:+ nl +:+ text.

Definition similarWordsPrompt (word context : string) : string :=
  "Find 3-5 simpler alternative words for " +:+ dq +:+ word +:+ dq
  +:+ " that would fit perfectly in this context: " +:+ dq +:+ context +:+ dq
  +:+ ". Provide only the words separated by commas, no explanations.".

Definition analyzePrompt (text : string) : string :=
  "Analyze this text and identify words that might be difficult to understand. For each hard word, provide simpler alternatives that fit the context. Format your response as JSON with this structure:" +:+ nl
  +:+ "    {" +:+ nl
  +:+ "      " +:+ dq +:+ "hardWords" +:+ dq +:+ ": [" +:+ nl
  +:+ "        {" +:+ nl
  +:+ "          " +:+ dq +:+ "word" +:+ dq +:+ ": " +:+ dq +:+ "original word" +:+ dq +:+ "," +:+ nl
  +:+ "          " +:+ dq +:+ "alternatives" +:+ dq +:+ ": [" +:+ dq +:+ "simpler word 1" +:+ dq
        +:+ ", " +:+ dq +:+ "simpler word 2" +:+ dq +:+ "]," +:+ nl
  +:+ "          " +:+ dq +:+ "context" +:+ dq +:+ ": " +:+ dq +:+ "sentence containing the word" +:+ dq +:+ nl
  +:+ "        }" +:+ nl
  +:+ "      ]" +:+ nl
  +:+ "    }" +:+ nl
  +:+ nl
  +:+ "    Text to analyze: " +:+ text.

Definition userMessage (prompt : string) : value :=
  VObj [("role", VStr "user"); ("content", VStr prompt)].

(** ** src/services/ai/OpenAIService.ts *)

Module OpenAIService.

Definition baseURL : string := "https://api.openai.com/v1/chat/completions".

Definition request (prompt : string) (provider : AIProvider) : Request :=
  {| url := baseURL;
     body := VObj [("model", VStr (or_else (model provider) "gpt-3.5-turbo"));
                   ("messages", VArr [userMessage prompt]);
                   ("temperature", VNum 7 (-1));
                   ("max_tokens", VNum 1000 0)];
     headers := [("Authorization", "Bearer " +:+ apiKey provider);
                 ("Content-Type", "application/json")] |}.

Definition makeRequest (prompt : string) (provider : AIProvider) : Async AIResponse :=
  try_catch
    (await response_data := post (request prompt provider) in
     await choices := read response_data (KName "choices") in
     await choice := read choices (KIndex 0) in
     await message := read choice (KName "message") in
     await content := read message (KName "content") in
     ret {| success := true; data := Some content; error := None |})
    (fun e => ret (failure e)).

Definition simplifyText (text : string) (provider : AIProvider) : Async AIResponse :=
  makeRequest (simplifyPrompt text) provider.

Definition findSimilarWords (word context : string) (provider : AIProvider)
  : Async AIResponse :=
  makeRequest (similarWordsPrompt word context) provider.

Definition analyzeHardWords (text : string) (provider : AIProvider) : Async AIResponse :=
  makeRequest (analyzePrompt text) provider.

End OpenAIService.

(** ** src/services/ai/GeminiService.ts *)

Module GeminiService.

Definition baseURL : string := "https://generativelanguage.googleapis.com/v1beta/models".

Definition request (prompt : string) (provider : AIProvider) : Request :=
  let model := or_else (model provider) "gemini-pro" in
  {| url := baseURL +:+ "/" +:+ model +:+ ":generateContent?key=" +:+ apiKey provider;
     body := VObj [("contents", VArr [VObj [("parts", VArr [VObj [("text", VStr prompt)]])]]);
                   ("generationConfig",
                    VObj [("temperature", VNum 7 (-1));
                          ("topK", VNum 40 0);
                          ("topP", VNum 95 (-2));
                          ("maxOutputTokens", VNum 1000 0)])];
     headers := [("Content-Type", "application/json")] |}.

Definition makeRequest (prompt : string) (provider : AIProvider) : Async AIResponse :=
  try_catch
    (await response_data := post (request prompt provider) in
     await candidates := read response_data (KName "candidates") in
     await candidate := read candidates (KIndex 0) in
     await content := read candidate (KName "content") in
     await parts := read content (KName "parts") in
     await part := read parts (KIndex 0) in
     await text := read part (KName "text") in
     ret {| success := true; data := Some text; error := None |})
    (fun e => ret (failure e)).

Definition simplifyText (text : string) (provider : AIProvider) : Async AIResponse :=
  makeRequest (simplifyPrompt text) provider.

Definition findSimilarWords (word context : string) (provider : AIProvider)
  : Async AIResponse :=
  makeRequest (similarWordsPrompt word context) provider.

Definition analyzeHardWords (text : string) (provider : AIProvider) : Async AIResponse :=
  makeRequest (analyzePrompt text) provider.

End GeminiService.

(** ** src/services/ai/AnthropicService.ts *)

Module AnthropicService.

Definition baseURL : string := "https://api.anthropic.com/v1/messages".

Definition request (prompt : string) (provider : AIProvider) : Request :=
  {| url := baseURL;
     body := VObj [("model", VStr (or_else (model provider) "claude-3-sonnet-20240229"));
                   ("max_tokens", VNum 1000 0);
                   ("messages", VArr [userMessage prompt])];
     headers := [("x-api-key", apiKey provider);
                 ("Content-Type", "application/json");
                 ("anthropic-version", "2023-06-01")] |}.

Definition makeRequest (prompt : string) (provider : AIProvider) : Async AIResponse :=
  try_catch
    (await response_data := post (request prompt provider) in
     await content := read response_data (KName "content") in
     await block := read content (KIndex 0) in
     await text := read block (KName "text") in
     ret {| success := true; data := Some text; error := None |})
    (fun e => ret (failure e)).

Definition simplifyText (text : string) (provider : AIProvider) : Async AIResponse :=
  makeRequest (simplifyPrompt text) provider.

Definition findSimilarWords (word context : string) (provider : AIProvider)
  : Async AIResponse :=
  makeRequest (similarWordsPrompt word context) provider.

Definition analyzeHardWords (text : string) (provider : AIProvider) : Async AIResponse :=
  makeRequest (analyzePrompt text) provider.

End AnthropicService.

(** ** src/services/ai/AIService.ts *)

(** What the facade calls on a registered service (the map's values are
    typed [any]; these are the three methods it invokes). *)
Module Service.
Record t : Type := {
  simplifyText : string -> AIProvider -> Async AIResponse;
  findSimilarWords : string -> string -> AIProvider -> Async AIResponse;
  analyzeHardWords : string -> AIProvider -> Async AIResponse
}.
End Service.

Definition OpenAI : Service.t :=
  {| Service.simplifyText := OpenAIService.simplifyText;
     Service.findSimilarWords := OpenAIService.findSimilarWords;
     Service.analyzeHardWords := OpenAIService.analyzeHardWords |}.

Definition Gemini : Service.t :=
  {| Service.simplifyText := GeminiService.simplifyText;
     Service.findSimilarWords := GeminiService.findSimilarWords;
     Service.analyzeHardWords := GeminiService.analyzeHardWords |}.

Definition Anthropic : Service.t :=
  {| Service.simplifyText := AnthropicService.simplifyText;
     Service.findSimilarWords := AnthropicService.findSimilarWords;
     Service.analyzeHardWords := AnthropicService.analyzeHardWords |}.

Module AIService.

(** The map the constructor fills; nothing writes to it afterwards. *)
Definition providers : gmap string Service.t :=
  <[AIProviderType.ANTHROPIC := Anthropic]>
    (<[AIProviderType.GEMINI := Gemini]>
       (<[AIProviderType.OPENAI := OpenAI]> ∅)).

Definition notSupported : AIResponse :=
  {| success := false; data := None; error := Some "Provider not supported" |}.

Definition simplifyText (text : string) (provider : AIProvider) : Async AIResponse :=
  match providers !! type provider with
  | None => ret notSupported
  | Some service => Service.simplifyText service text provider
  end.

Definition findSimilarWords (word context : string) (provider : AIProvider)
  : Async AIResponse :=
  match providers !! type provider with
  | None => ret notSupported
  | Some service => Service.findSimilarWords service word context provider
  end.

Definition analyzeHardWords (text : string) (provider : AIProvider) : Async AIResponse :=
  match providers !! type provider with
  | None => ret notSupported
  | Some service => Service.analyzeHardWords service text provider
  end.

End AIService.

(** The three task kinds, and the facade seen as one operation on them. *)
Inductive Task : Type :=
| Simplify (text : string)
| FindAlternatives (word context : string)
| AnalyzeHardWords (text : string).

Definition dispatch (task : Task) (provider : AIProvider) : Async AIResponse :=
  match task with
  | Simplify text => AIService.simplifyText text provider
  | FindAlternatives word context => AIService.findSimilarWords word context provider
  | AnalyzeHardWords text => AIService.analyzeHardWords text provider
  end.

Definition promptOf (task : Task) : string :=
  match task with
  | Simplify text => simplifyPrompt text
  | FindAlternatives word context => similarWordsPrompt word context
  | AnalyzeHardWords text => analyzePrompt text
  end.

(** The three registered vendors, for statements that range over them. *)
Inductive Vendor : Type := VendorOpenAI | VendorGemini | VendorAnthropic.

Definition tagOf (v : Vendor) : AIProviderType :=
  match v with
  | VendorOpenAI => AIProviderType.OPENAI
  | VendorGemini => AIProviderType.GEMINI
  | VendorAnthropic => AIProviderType.ANTHROPIC
  end.

Definition serviceOf (v : Vendor) : Service.t :=
  match v with
  | VendorOpenAI => OpenAI
  | VendorGemini => Gemini
  | VendorAnthropic => Anthropic
  end.

Definition makeRequestOf (v : Vendor) : string -> AIProvider -> Async AIResponse :=
  match v with
  | VendorOpenAI => OpenAIService.makeRequest
  | VendorGemini => GeminiService.makeRequest
  | VendorAnthropic => AnthropicService.makeRequest
  end.

Definition requestOf (v : Vendor) : string -> AIProvider -> Request :=
  match v with
  | VendorOpenAI => OpenAIService.request
  | VendorGemini => GeminiService.request
  | VendorAnthropic => AnthropicService.request
  end.

Definition defaultModel (v : Vendor) : string :=
  match v with
  | VendorOpenAI => "gpt-3.5-turbo"
  | VendorGemini => "gemini-pro"
  | VendorAnthropic => "claude-3-sonnet-20240229"
  end.

(** The reads that lead to the text, in the order the adapter performs them. *)
Definition textPath (v : Vendor) : list key :=
  match v with
  | VendorOpenAI => [KName "choices"; KIndex 0; KName "message"; KName "content"]
  | VendorGemini => [KName "candidates"; KIndex 0; KName "content"; KName "parts";
                     KIndex 0; KName "text"]
  | VendorAnthropic => [KName "content"; KIndex 0; KName "text"]
  end.

(** Following a path from a value: [None] at the first read that throws. *)
Fixpoint follow (v : value) (path : list key) : option value :=
  match path with
  | [] => Some v
  | k :: rest => match JS.get v k with
                 | Some v' => follow v' rest
                 | None => None
                 end
  end.

(** The base and key of the first read on [path] that throws, if any. *)
Fixpoint firstFault (v : value) (path : list key) : option (value * key) :=
  match path with
  | [] => None
  | k :: rest => match JS.get v k with
                 | Some v' => firstFault v' rest
                 | None => Some (v, k)
                 end
  end.

(** ** The instances and their fields

    [AIService.ts] and the three adapter files each export one instance of
    their class, and every call goes through it: a facade method reads
    [this.providers], an adapter's [makeRequest] reads [this.baseURL].
    Below, the same methods are written once more over those fields: as
    computations that receive the fields as they are when the call is made,
    may read and assign them, and hand them on, with the log, to whatever
    is called next; and against vendors whose answer to a request may
    depend on everything that was sent before. *)

Module Instances.

(** The fields of the four instances.  The values of the map are the
    adapter instances, named by their vendor. *)
Record Fields : Type := {
  providers : gmap AIProviderType Vendor;
  baseURL : Vendor -> string
}.

(** [respond sent r] is how [axios.post] settles for the request [r] when
    the requests [sent] went out before it. *)
Record World : Type := {
  respond : Network -> Request -> completion value;
  typeErrorOf : value -> key -> string
}.

Definition Call (A : Type) : Type :=
  World -> Fields -> Network -> completion A * Fields * Network.

Definition ret {A : Type} (a : A) : Call A :=
  fun _ fields net => (Normal a, fields, net).

Definition bind {A B : Type} (m : Call A) (k : A -> Call B) : Call B :=
  fun world fields net =>
    match m world fields net with
    | (Normal a, fields', net') => k a world fields' net'
    | (Throw e, fields', net') => (Throw e, fields', net')
    end.

Definition try_catch {A : Type} (body : Call A) (handler : thrown -> Call A) : Call A :=
  fun world fields net =>
    match body world fields net with
    | (Normal a, fields', net') => (Normal a, fields', net')
    | (Throw e, fields', net') => handler e world fields' net'
    end.

(** [this.providers] and [this.baseURL] of the instance of [v]'s class. *)
Definition this_providers : Call (gmap AIProviderType Vendor) :=
  fun _ fields net => (Normal (providers fields), fields, net).

Definition this_baseURL (v : Vendor) : Call string :=
  fun _ fields net => (Normal (baseURL fields v), fields, net).

(** [this.providers.set(tag, service)]. *)
Definition providers_set (tag : AIProviderType) (service : Vendor) : Call unit :=
  fun _ fields net =>
    (Normal tt,
     {| providers := <[tag := service]> (providers fields); baseURL := baseURL fields |},
     net).

Definition post (r : Request) : Call value :=
  fun world fields net => (respond world net r, fields, net ++ [r]).

Definition read (v : value) (k : key) : Call value :=
  fun world fields net =>
    match JS.get v k with
    | Some v' => (Normal v', fields, net)
    | None => (Throw (ErrorInstance (typeErrorOf world v k)), fields, net)
    end.

(** The fields when the four classes are instantiated, the field
    initialisers done and the constructor of [AIService] not yet run. *)
Definition initialised : Fields :=
  {| providers := ∅;
     baseURL := fun v =>
       match v with
       | VendorOpenAI => OpenAIService.baseURL
       | VendorGemini => GeminiService.baseURL
       | VendorAnthropic => AnthropicService.baseURL
       end |}.

(** The constructor of [AIService]. *)
Definition constructor : Call unit :=
  bind (providers_set AIProviderType.OPENAI VendorOpenAI) (fun _ =>
  bind (providers_set AIProviderType.GEMINI VendorGemini) (fun _ =>
  providers_set AIProviderType.ANTHROPIC VendorAnthropic)).

(** The fields once the four modules are loaded. *)
Definition loaded : Fields :=
  {| providers :=
       <[AIProviderType.ANTHROPIC := VendorAnthropic]>
         (<[AIProviderType.GEMINI := VendorGemini]>
            (<[AIProviderType.OPENAI := VendorOpenAI]> ∅));
     baseURL := baseURL initialised |}.

(** The request an adapter sends when its [baseURL] field holds [base]:
    body and headers do not involve the field. *)
Definition requestTo (v : Vendor) (base prompt : string) (provider : AIProvider) : Request :=
  {| url :=
       match v with
       | VendorOpenAI | VendorAnthropic => base
       | VendorGemini =>
           base +:+ "/" +:+ or_else (model provider) "gemini-pro"
           +:+ ":generateContent?key=" +:+ apiKey provider
       end;
     body := body (requestOf v prompt provider);
     headers := headers (requestOf v prompt provider) |}.

Module Adapter.

(** [makeRequest] of the three classes. *)
Definition makeRequest (v : Vendor) (prompt : string) (provider : AIProvider)
  : Call AIResponse :=
  match v with
  | VendorOpenAI =>
      try_catch
        (bind (this_baseURL VendorOpenAI) (fun base =>
         bind (post (requestTo VendorOpenAI base prompt provider)) (fun response_data =>
         bind (read response_data (KName "choices")) (fun choices =>
         bind (read choices (KIndex 0)) (fun choice =>
         bind (read choice (KName "message")) (fun message =>
         bind (read message (KName "content")) (fun content =>
         ret {| success := true; data := Some content; error := None |})))))))
        (fun e => ret (failure e))
  | VendorGemini =>
      try_catch
        (bind (this_baseURL VendorGemini) (fun base =>
         bind (post (requestTo VendorGemini base prompt provider)) (fun response_data =>
         bind (read response_data (KName "candidates")) (fun candidates =>
         bind (read candidates (KIndex 0)) (fun candidate =>
         bind (read candidate (KName "content")) (fun content =>
         bind (read content (KName "parts")) (fun parts =>
         bind (read parts (KIndex 0)) (fun part =>
         bind (read part (KName "text")) (fun text =>
         ret {| success := true; data := Some text; error := None |})))))))))
        (fun e => ret (failure e))
  | VendorAnthropic =>
      try_catch
        (bind (this_baseURL VendorAnthropic) (fun base =>
         bind (post (requestTo VendorAnthropic base prompt provider)) (fun response_data =>
         bind (read response_data (KName "content")) (fun content =>
         bind (read content (KIndex 0)) (fun block =>
         bind (read block (KName "text")) (fun text =>
         ret {| success := true; data := Some text; error := None |}))))))
        (fun e => ret (failure e))
  end.

(** The three task methods: [this.makeRequest(prompt, provider)]. *)
Definition simplifyText (v : Vendor) (text : string) (provider : AIProvider)
  : Call AIResponse :=
  makeRequest v (simplifyPrompt text) provider.

Definition findSimilarWords (v : Vendor) (word context : string) (provider : AIProvider)
  : Call AIResponse :=
  makeRequest v (similarWordsPrompt word context) provider.

Definition analyzeHardWords (v : Vendor) (text : string) (provider : AIProvider)
  : Call AIResponse :=
  makeRequest v (analyzePrompt text) provider.

End Adapter.

(** The facade: [this.providers.get(provider.type)], then the method of the
    same name on the instance found. *)
Module Facade.

Definition simplifyText (text : string) (provider : AIProvider) : Call AIResponse :=
  bind this_providers (fun registered =>
    match registered !! type provider with
    | None => ret AIService.notSupported
    | Some service => Adapter.simplifyText service text provider
    end).

Definition findSimilarWords (word context : string) (provider : AIProvider)
  : Call AIResponse :=
  bind this_providers (fun registered =>
    match registered !! type provider with
    | None => ret AIService.notSupported
    | Some service => Adapter.findSimilarWords service word context provider
    end).

Definition analyzeHardWords (text : string) (provider : AIProvider) : Call AIResponse :=
  bind this_providers (fun registered =>
    match registered !! type provider with
    | None => ret AIService.notSupported
    | Some service => Adapter.analyzeHardWords service text provider
    end).

End Facade.

Definition dispatch (task : Task) (provider : AIProvider) : Call AIResponse :=
  match task with
  | Simplify text => Facade.simplifyText text provider
  | FindAlternatives word context => Facade.findSimilarWords word context provider
  | AnalyzeHardWords text => Facade.analyzeHardWords text provider
  end.

(** Calls of the facade made one after the other, each over the fields and
    the log the one before it left; the responses in order. *)
Fixpoint sequence (calls : list (Task * AIProvider)) : Call (list AIResponse) :=
  match calls with
  | [] => ret []
  | (task, provider) :: rest =>
      bind (dispatch task provider) (fun r =>
      bind (sequence rest) (fun rs =>
      ret (r :: rs)))
  end.

(** The host a call meets when [sent] went out before it. *)
Definition host (world : World) (sent : Network) : Host :=
  {| axios_post := respond world sent; typeErrorMessage := typeErrorOf world |}.

(** The response of a run, the fields and the log it leaves. *)
Definition response {A : Type} (run : completion A * Fields * Network) : completion A :=
  fst (fst run).

Definition fieldsAfter {A : Type} (run : completion A * Fields * Network) : Fields :=
  snd (fst run).

Definition sentAfter {A : Type} (run : completion A * Fields * Network) : Network :=
  snd run.

End Instances.

(** ** src/components/ai/WordSuggestions.tsx *)

Module WordSuggestions.

Local Abbreviation response_error := error.

(** The component's three [useState] cells. *)
Record State : Type := {
  suggestions : list string;
  loading : bool;
  error : option string
}.

(** [data.split(',').map(w => w.trim()).filter(w => w)]. *)
Definition parseWords (data : string) : list string :=
  filter (fun w => w ≠ EmptyString) (JS.trim <$> JS.split "," data).

(** [response.error || 'Failed to get suggestions']. *)
Definition errorOr (e : option string) (fallback : string) : string :=
  match e with
  | Some message => JS.or_else message fallback
  | None => fallback
  end.

(** The body of [fetchSuggestions] from the facade call on; [provider] is
    the stored item [activeAIProvider], already parsed, [None] when the
    item is missing.  The [finally] clause clears [loading] on every path. *)
Definition fetchSuggestions (word context : string) (provider : option AIProvider)
    (st : State) : Host -> Network -> State * Network :=
  fun host net =>
    match provider with
    | None =>
        ({| suggestions := suggestions st; loading := false;
            error := Some "No AI provider configured" |}, net)
    | Some provider =>
        match AIService.findSimilarWords word context provider host net with
        | (Normal response, net') =>
            if success response && JS.truthy (default VUndefined (data response)) then
              match data response with
              | Some (VStr reply) =>
                  ({| suggestions := parseWords reply; loading := false;
                      error := None |}, net')
              | _ =>
                  ({| suggestions := suggestions st; loading := false;
                      error := Some "An error occurred while fetching suggestions" |}, net')
              end
            else
              ({| suggestions := suggestions st; loading := false;
                  error := Some (errorOr (response_error response)
                                   "Failed to get suggestions") |}, net')
        | (Throw _, net') =>
            ({| suggestions := suggestions st; loading := false;
                error := Some "An error occurred while fetching suggestions" |}, net')
        end
    end.

End WordSuggestions.

(** ** src/screens/AISettingsScreen.tsx

    The screen through which a provider becomes the stored item
    [activeAIProvider] that the consumers hand to the facade.  A handler is
    taken as one step: no other event falls between the writes of
    [saveProviders].  Each call of [AsyncStorage.getItem] and
    [AsyncStorage.setItem] may be rejected; whether it is comes with the
    event.  What [JSON.parse] gives back of a stored item is what
    [JSON.stringify] was given. *)

Module AISettingsScreen.

Record State : Type := {
  providers : list AIProvider;
  editingProvider : option AIProvider;
  showEditModal : bool;
  (** The AsyncStorage items [aiProviders] and [activeAIProvider]. *)
  aiProviders : option (list AIProvider);
  activeAIProvider : option AIProvider;
  (** The alerts shown so far, title and message. *)
  alerts : list (string * string)
}.

(** The initial value of the [providers] cell. *)
Definition defaultProviders : list AIProvider :=
  [ {| type := AIProviderType.OPENAI; apiKey := EmptyString;
       model := "gpt-3.5-turbo"; isActive := false |};
    {| type := AIProviderType.GEMINI; apiKey := EmptyString;
       model := "gemini-pro"; isActive := false |};
    {| type := AIProviderType.ANTHROPIC; apiKey := EmptyString;
       model := "claude-3-sonnet-20240229"; isActive := false |} ].

(** The screen as first created, over an empty storage. *)
Definition initialState : State :=
  {| providers := defaultProviders;
     editingProvider := None;
     showEditModal := false;
     aiProviders := None;
     activeAIProvider := None;
     alerts := [] |}.

(** A screen created anew: the three [useState] cells take their initial
    values, whatever a screen shown before held; the storage stays. *)
Definition created (st : State) : State :=
  {| providers := defaultProviders;
     editingProvider := None;
     showEditModal := false;
     aiProviders := aiProviders st;
     activeAIProvider := activeAIProvider st;
     alerts := alerts st |}.

(** [!apiKey.trim()]. *)
Definition blank (key : string) : bool := String.eqb (JS.trim key) EmptyString.

Definition alert (title message : string) (st : State) : State :=
  {| providers := providers st; editingProvider := editingProvider st;
     showEditModal := showEditModal st; aiProviders := aiProviders st;
     activeAIProvider := activeAIProvider st;
     alerts := alerts st ++ [(title, message)] |}.

(** [got] tells whether [getItem] resolves; a rejection is caught and
    logged. *)
Definition loadProviders (got : bool) (st : State) : State :=
  if got then
    match aiProviders st with
    | Some saved =>
        {| providers := saved; editingProvider := editingProvider st;
           showEditModal := showEditModal st; aiProviders := aiProviders st;
           activeAIProvider := activeAIProvider st; alerts := alerts st |}
    | None => st
    end
  else st.

(** [listStored] and [activeStored] tell whether the first and the second
    [setItem] resolve.  A rejected first write leaves everything as it was;
    a rejected second one comes after [setProviders] and the first write.
    Either rejection is caught and logged. *)
Definition saveProviders (updatedProviders : list AIProvider)
    (listStored activeStored : bool) (st : State) : State :=
  if listStored then
    {| providers := updatedProviders;
       editingProvider := editingProvider st;
       showEditModal := showEditModal st;
       aiProviders := Some updatedProviders;
       activeAIProvider :=
         match List.find isActive updatedProviders with
         | Some activeProvider =>
             if activeStored then Some activeProvider else activeAIProvider st
         | None => activeAIProvider st
         end;
       alerts := alerts st |}
  else st.

Definition handleProviderEdit (provider : AIProvider) (st : State) : State :=
  {| providers := providers st; editingProvider := Some provider;
     showEditModal := true; aiProviders := aiProviders st;
     activeAIProvider := activeAIProvider st; alerts := alerts st |}.

(** The two text inputs and the Cancel button of the modal. *)
Definition setEditingProvider (update : AIProvider -> AIProvider) (st : State) : State :=
  {| providers := providers st; editingProvider := update <$> editingProvider st;
     showEditModal := showEditModal st; aiProviders := aiProviders st;
     activeAIProvider := activeAIProvider st; alerts := alerts st |}.

Definition changeApiKey (text : string) : State -> State :=
  setEditingProvider (fun prev =>
    {| type := type prev; apiKey := text; model := model prev; isActive := isActive prev |}).

Definition changeModel (text : string) : State -> State :=
  setEditingProvider (fun prev =>
    {| type := type prev; apiKey := apiKey prev; model := text; isActive := isActive prev |}).

Definition setShowEditModal (shown : bool) (st : State) : State :=
  {| providers := providers st; editingProvider := editingProvider st;
     showEditModal := shown; aiProviders := aiProviders st;
     activeAIProvider := activeAIProvider st; alerts := alerts st |}.

Definition handleProviderSave (listStored activeStored : bool) (st : State) : State :=
  match editingProvider st with
  | None => st
  | Some edited =>
      if blank (apiKey edited) then alert "Error" "API Key is required" st
      else
        let updatedProviders :=
          (fun p => if String.eqb (type p) (type edited) then edited else p)
            <$> providers st in
        let saved := saveProviders updatedProviders listStored activeStored st in
        {| providers := providers saved; editingProvider := None;
           showEditModal := false; aiProviders := aiProviders saved;
           activeAIProvider := activeAIProvider saved; alerts := alerts saved |}
  end.

Definition handleSetActive (tag : AIProviderType) (listStored activeStored : bool)
    (st : State) : State :=
  match List.find (fun p => String.eqb (type p) tag) (providers st) with
  | Some provider =>
      if blank (apiKey provider)
      then alert "Error" "Please configure the API key first" st
      else
        saveProviders
          ((fun p => {| type := type p; apiKey := apiKey p; model := model p;
                        isActive := String.eqb (type p) tag |}) <$> providers st)
          listStored activeStored st
  | None => alert "Error" "Please configure the API key first" st
  end.

(** [AsyncStorage.clear()], issued from the general settings screen, once
    it has resolved.  The cells are those of the screen shown last; the
    next mount discards them. *)
Definition clearStorage (st : State) : State :=
  {| providers := providers st; editingProvider := editingProvider st;
     showEditModal := showEditModal st; aiProviders := None;
     activeAIProvider := None; alerts := alerts st |}.

(** The events that reach the cells and the storage.  [Mounted] is the
    screen being created and running its mount effect; the booleans are the
    outcomes of the storage calls the event leads to.  The Test button
    raises an alert and touches neither; it is left out. *)
Inductive Event : Type :=
| Mounted (got : bool)
| ConfigurePressed (provider : AIProvider)
| ApiKeyTyped (text : string)
| ModelTyped (text : string)
| CancelPressed
| SavePressed (listStored activeStored : bool)
| ActivatePressed (tag : AIProviderType) (listStored activeStored : bool)
| StorageCleared.

Definition handle (st : State) (ev : Event) : State :=
  match ev with
  | Mounted got => loadProviders got (created st)
  | ConfigurePressed provider => handleProviderEdit provider st
  | ApiKeyTyped text => changeApiKey text st
  | ModelTyped text => changeModel text st
  | CancelPressed => setShowEditModal false st
  | SavePressed listStored activeStored =>
      handleProviderSave listStored activeStored st
  | ActivatePressed tag listStored activeStored =>
      handleSetActive tag listStored activeStored st
  | StorageCleared => clearStorage st
  end.

Definition run (events : list Event) : State := fold_left handle events initialState.

(** An active entry of [l] has a key that is not blank, and no two entries
    of [l] share a tag. *)
Definition consistent (l : list AIProvider) : Prop :=
  NoDup (type <$> l) /\
  forall p, p ∈ l -> isActive p = true -> blank (apiKey p) = false.

Definition invariant (st : State) : Prop :=
  consistent (providers st)
  /\ (forall saved, aiProviders st = Some saved -> consistent saved)
  /\ (forall p, activeAIProvider st = Some p -> blank (apiKey p) = false).









(** The three tags of the initial list. *)
Definition knownTags : list AIProviderType :=
  [AIProviderType.OPENAI; AIProviderType.GEMINI; AIProviderType.ANTHROPIC].

(** No handler changes a tag: lists keep the three tags and the stored
    provider bears one of them. *)
Definition tagged (st : State) : Prop :=
  type <$> providers st = knownTags
  /\ (forall saved, aiProviders st = Some saved -> type <$> saved = knownTags)
  /\ (forall a, activeAIProvider st = Some a -> type a ∈ knownTags).

End AISettingsScreen.

(** ** src/types/Note.ts and src/types/TextAnalysis.ts *)

(** A [Date] is its time value. *)
Module Note.
Record t : Type := {
  id : string;
  title : string;
  content : string;
  createdAt : Z;
  updatedAt : Z;
  hardWords : list value;
  tags : list string
}.
End Note.

(** The fields an analyzer fills from the vendor's JSON hold whatever value
    the JSON has there. *)
Module HardWord.
Record t : Type := {
  word : value;
  position : Z;
  context : value;
  suggestions : value;
  difficulty : Z
}.
End HardWord.

(** ** src/components/notes/NoteCard.tsx *)

Module NoteCard.

(** [maxLength] defaults to 150 at the one call site. *)
Definition getPreviewText (content : string) (maxLength : nat) : string :=
  if (String.length content <=? maxLength)%nat then content
  else JS.substring content 0 maxLength +:+ "...".

End NoteCard.

(** ** src/components/notes/NoteEditor.tsx *)

Module NoteEditor.

Record State : Type := {
  title : string;
  content : string;
  selectedText : string;
  selectionStart : nat;
  selectionEnd : nat;
  showWordSuggestions : bool;
  hardWords : list HardWord.t;
  showHardWordsAnalysis : bool
}.

(** What [handleSave] does besides returning: the alert it raises or the
    note it hands to [onSave]. *)
Inductive Saving : Type :=
| Alerted (heading message : string)
| Saved (note : Note.t).

(** [generatedId] is what [generateId()] would return, [firstDate] and
    [secondDate] what the first and the second [new Date()] would. *)
Definition handleSave (note : option Note.t) (generatedId : string)
    (firstDate secondDate : Z) (st : State) : Saving :=
  if String.eqb (JS.trim (title st)) EmptyString
  then Alerted "Error" "Please enter a title"
  else
    Saved
      match note with
      | Some old =>
          {| Note.id := JS.or_else (Note.id old) generatedId;
             Note.title := JS.trim (title st);
             Note.content := content st;
             Note.createdAt := Note.createdAt old;
             Note.updatedAt := firstDate;
             Note.hardWords := HardWord.word <$> hardWords st;
             Note.tags := Note.tags old |}
      | None =>
          {| Note.id := generatedId;
             Note.title := JS.trim (title st);
             Note.content := content st;
             Note.createdAt := firstDate;
             Note.updatedAt := secondDate;
             Note.hardWords := HardWord.word <$> hardWords st;
             Note.tags := [] |}
      end.

(** [event.nativeEvent.selection] is [{start, end}]. *)
Definition handleTextSelection (start finish : nat) (st : State) : State :=
  if (start =? finish)%nat then
    {| title := title st; content := content st; selectedText := EmptyString;
       selectionStart := start; selectionEnd := finish;
       showWordSuggestions := false;
       hardWords := hardWords st; showHardWordsAnalysis := showHardWordsAnalysis st |}
  else
    let selected := JS.substring (content st) start finish in
    {| title := title st; content := content st; selectedText := selected;
       selectionStart := start; selectionEnd := finish;
       showWordSuggestions :=
         if (length (JS.split " " (JS.trim selected)) =? 1)%nat then true
         else showWordSuggestions st;
       hardWords := hardWords st; showHardWordsAnalysis := showHardWordsAnalysis st |}.

Definition replaceSelectedText (newText : string) (st : State) : State :=
  {| title := title st;
     content := JS.substring (content st) 0 (selectionStart st)
                +:+ newText
                +:+ JS.tailFrom (selectionEnd st) (content st);
     selectedText := EmptyString;
     selectionStart := selectionStart st; selectionEnd := selectionEnd st;
     showWordSuggestions := false;
     hardWords := hardWords st; showHardWordsAnalysis := showHardWordsAnalysis st |}.

(** The [onWordReplace] handed to the analyzer. *)
Definition onWordReplace (original replacement : string) (st : State) : State :=
  {| title := title st;
     content := JS.replaceAll (content st) original replacement;
     selectedText := selectedText st;
     selectionStart := selectionStart st; selectionEnd := selectionEnd st;
     showWordSuggestions := showWordSuggestions st;
     hardWords := hardWords st; showHardWordsAnalysis := showHardWordsAnalysis st |}.

End NoteEditor.

(** ** The device: SQLite, AsyncStorage and the JSON built-ins *)

Inductive SQLiteDatabase : Type := Connection.

(** One [executeSql(sql, params)]. *)
Record Statement : Type := {
  sql : string;
  params : list value
}.

(** What the device answers.  [SQLite_openDatabase] and [SQLite_executeSql]
    see the statements executed before; [Normal rows] carries the rows of
    the first result set.  [Number_toString] is the conversion of the
    number [mantissa * 10 ^ exponent] to a string, [typeErrorText] the
    message of the TypeError raised on reading or calling a property of
    [undefined] or [null]. *)
Record Device : Type := {
  SQLite_openDatabase : list Statement -> completion SQLiteDatabase;
  SQLite_executeSql : list Statement -> Statement -> completion (list value);
  AsyncStorage_clear : completion unit;
  JSON_parse : value -> completion value;
  JSON_stringify : value -> string;
  Number_toString : Z -> Z -> string;
  typeErrorText : value -> key -> string
}.

(** ToString of a value that [JSON.parse] or SQLite has built, [None] when
    the conversion throws a TypeError.  Such an object has data properties
    only and [Object.prototype] above it: were [toString] among its own
    properties, that property is not callable, [valueOf] (its own, not
    callable, or the inherited one, which returns the object) gives no
    primitive either, and the conversion throws; without it the inherited
    [toString] answers.  An array is converted by [join], where [undefined]
    and [null] count as the empty string. *)
Fixpoint toString (device : Device) (v : value) : option string :=
  match v with
  | VStr s => Some s
  | VUndefined => Some "undefined"
  | VNull => Some "null"
  | VBool true => Some "true"
  | VBool false => Some "false"
  | VNum mantissa exponent => Some (Number_toString device mantissa exponent)
  | VArr items =>
      match
        (fix each (elements : list value) : option (list string) :=
           match elements with
           | [] => Some []
           | element :: rest =>
               match
                 match element with
                 | VUndefined | VNull => Some EmptyString
                 | _ => toString device element
                 end,
                 each rest
               with
               | Some piece, Some pieces => Some (piece :: pieces)
               | _, _ => None
               end
           end) items
      with
      | Some pieces => Some (JS.join "," pieces)
      | None => None
      end
  | VObj fields =>
      match JS.assoc "toString" fields with
      | Some _ => None
      | None => Some "[object Object]"
      end
  end.

(** [a || b] on values. *)
Definition valueOr (a b : value) : value := if JS.truthy a then a else b.

(** A property read that may throw, outside the [Async] computations. *)
Definition readOn (device : Device) (v : value) (k : key) : completion value :=
  match JS.get v k with
  | Some v' => Normal v'
  | None => Throw (ErrorInstance (typeErrorText device v k))
  end.

(** ** src/services/storage/DatabaseService.ts *)

(** A note as [getAllNotes] builds it from a row: each field holds what the
    row holds there (a [Date] is the value it was constructed from, the two
    lists what [JSON.parse] made of the column). *)
Module StoredNote.
Record t : Type := {
  id : value;
  title : value;
  content : value;
  createdAt : value;
  updatedAt : value;
  hardWords : value;
  tags : value
}.
End StoredNote.

Module HistoryEntry.
Record t : Type := {
  word : value;
  replacement : value;
  context : value
}.
End HistoryEntry.

Module DatabaseService.

(** [db] is the field of the singleton; [executed] lists the statements
    handed to SQLite so far, oldest first. *)
Record State : Type := {
  db : option SQLiteDatabase;
  executed : list Statement
}.

(** The service as the module creates it. *)
Definition fresh : State := {| db := None; executed := [] |}.

Definition Sql (A : Type) : Type := Device -> State -> completion A * State.

Definition pure {A : Type} (a : A) : Sql A := fun _ st => (Normal a, st).

Definition raise {A : Type} (e : thrown) : Sql A := fun _ st => (Throw e, st).

Definition andThen {A B : Type} (m : Sql A) (k : A -> Sql B) : Sql B :=
  fun device st =>
    match m device st with
    | (Normal a, st') => k a device st'
    | (Throw e, st') => (Throw e, st')
    end.

Notation "'wait' x ':=' m 'in' k" := (andThen m (fun x => k))
  (at level 10, x name, m at level 100, k at level 200).

Definition tryCatch {A : Type} (body : Sql A) (handler : thrown -> Sql A) : Sql A :=
  fun device st =>
    match body device st with
    | (Normal a, st') => (Normal a, st')
    | (Throw e, st') => handler e device st'
    end.

(** A computation that touches neither [db] nor SQLite. *)
Definition lift {A : Type} (c : Device -> completion A) : Sql A :=
  fun device st => (c device, st).

(** [this.db!.executeSql(sql, params)]: the assertion [!] does nothing at
    run time, so a null [db] throws before anything reaches SQLite. *)
Definition executeSql (statement : Statement) : Sql (list value) :=
  fun device st =>
    match db st with
    | None => (Throw (ErrorInstance (typeErrorText device VNull (KName "executeSql"))), st)
    | Some _ =>
        (SQLite_executeSql device (executed st) statement,
         {| db := db st; executed := executed st ++ [statement] |})
    end.

(** [this.db = await SQLite.openDatabase({...})]. *)
Definition openDatabase : Sql unit :=
  fun device st =>
    match SQLite_openDatabase device (executed st) with
    | Normal connection => (Normal tt, {| db := Some connection; executed := executed st |})
    | Throw e => (Throw e, st)
    end.

Definition createNotes : string :=
  "CREATE TABLE IF NOT EXISTS notes (" +:+
  nl +:+
  "        id TEXT PRIMARY KEY," +:+
  nl +:+
  "        title TEXT NOT NULL," +:+
  nl +:+
  "        content TEXT NOT NULL," +:+
  nl +:+
  "        created_at INTEGER NOT NULL," +:+
  nl +:+
  "        updated_at INTEGER NOT NULL," +:+
  nl +:+
  "        hard_words TEXT," +:+
  nl +:+
  "        tags TEXT" +:+
  nl +:+
  "      )".

Definition createHardWordsHistory : string :=
  "CREATE TABLE IF NOT EXISTS hard_words_history (" +:+
  nl +:+
  "        id INTEGER PRIMARY KEY AUTOINCREMENT," +:+
  nl +:+
  "        word TEXT NOT NULL," +:+
  nl +:+
  "        replacement TEXT NOT NULL," +:+
  nl +:+
  "        context TEXT," +:+
  nl +:+
  "        created_at INTEGER NOT NULL" +:+
  nl +:+
  "      )".

Definition createAIProviders : string :=
  "CREATE TABLE IF NOT EXISTS ai_providers (" +:+
  nl +:+
  "        id INTEGER PRIMARY KEY AUTOINCREMENT," +:+
  nl +:+
  "        type TEXT NOT NULL," +:+
  nl +:+
  "        api_key TEXT NOT NULL," +:+
  nl +:+
  "        model TEXT NOT NULL," +:+
  nl +:+
  "        is_active INTEGER DEFAULT 0" +:+
  nl +:+
  "      )".

Definition insertNote : string :=
  nl +:+
  "      INSERT OR REPLACE INTO notes" +:+
  nl +:+
  "      (id, title, content, created_at, updated_at, hard_words, tags)" +:+
  nl +:+
  "      VALUES (?, ?, ?, ?, ?, ?, ?)" +:+
  nl +:+
  "    ".

Definition insertReplacement : string :=
  nl +:+
  "      INSERT INTO hard_words_history (word, replacement, context, created_at)" +:+
  nl +:+
  "      VALUES (?, ?, ?, ?)" +:+
  nl +:+
  "    ".

(** The [for ... of] loop of [createTables]. *)
Fixpoint executeEach (queries : list string) : Sql unit :=
  match queries with
  | [] => pure tt
  | query :: rest =>
      wait _ := executeSql {| sql := query; params := [] |} in
      executeEach rest
  end.

Definition createTables : Sql unit :=
  executeEach [createNotes; createHardWordsHistory; createAIProviders].

(** The [catch] logs the error and throws it again. *)
Definition initializeDatabase : Sql unit :=
  tryCatch
    (wait _ := openDatabase in
     createTables)
    (fun e => raise e).

Definition saveNote (note : Note.t) : Sql unit :=
  fun device =>
    (wait _ := executeSql
                 {| sql := insertNote;
                    params :=
                      [VStr (Note.id note); VStr (Note.title note);
                       VStr (Note.content note);
                       VNum (Note.createdAt note) 0; VNum (Note.updatedAt note) 0;
                       VStr (JSON_stringify device (VArr (Note.hardWords note)));
                       VStr (JSON_stringify device (VArr (VStr <$> Note.tags note)))] |} in
     pure tt) device.

Definition field (row : value) (name : string) : Sql value :=
  lift (fun device => readOn device row (KName name)).

(** The object pushed for one row, its properties evaluated in order. *)
Definition noteOfRow (row : value) : Sql StoredNote.t :=
  wait id := field row "id" in
  wait title := field row "title" in
  wait content := field row "content" in
  wait created_at := field row "created_at" in
  wait updated_at := field row "updated_at" in
  wait hard_words := field row "hard_words" in
  wait hardWords := lift (fun device => JSON_parse device (valueOr hard_words (VStr "[]"))) in
  wait tags_text := field row "tags" in
  wait tags := lift (fun device => JSON_parse device (valueOr tags_text (VStr "[]"))) in
  pure {| StoredNote.id := id; StoredNote.title := title; StoredNote.content := content;
          StoredNote.createdAt := created_at; StoredNote.updatedAt := updated_at;
          StoredNote.hardWords := hardWords; StoredNote.tags := tags |}.

(** The [for] loop over [results.rows]. *)
Fixpoint eachRow {A : Type} (build : value -> Sql A) (rows : list value) : Sql (list A) :=
  match rows with
  | [] => pure []
  | row :: rest =>
      wait built := build row in
      wait others := eachRow build rest in
      pure (built :: others)
  end.

Definition selectNotes : Statement :=
  {| sql := "SELECT * FROM notes ORDER BY updated_at DESC"; params := [] |}.

Definition getAllNotes : Sql (list StoredNote.t) :=
  wait rows := executeSql selectNotes in
  eachRow noteOfRow rows.

Definition deleteNote (id : value) : Sql unit :=
  wait _ := executeSql {| sql := "DELETE FROM notes WHERE id = ?"; params := [id] |} in
  pure tt.

(** [now] is what [Date.now()] returns. *)
Definition saveHardWordReplacement (word replacement context : string) (now : Z) : Sql unit :=
  wait _ := executeSql
              {| sql := insertReplacement;
                 params := [VStr word; VStr replacement; VStr context; VNum now 0] |} in
  pure tt.

Definition entryOfRow (row : value) : Sql HistoryEntry.t :=
  wait word := field row "word" in
  wait replacement := field row "replacement" in
  wait context := field row "context" in
  pure {| HistoryEntry.word := word; HistoryEntry.replacement := replacement;
          HistoryEntry.context := context |}.

Definition selectHistory : Statement :=
  {| sql := "SELECT * FROM hard_words_history ORDER BY created_at DESC"; params := [] |}.

Definition getHardWordsHistory : Sql (list HistoryEntry.t) :=
  wait rows := executeSql selectHistory in
  eachRow entryOfRow rows.

(** A computation that leaves the service as it found it and whose result
    does not depend on the service. *)
Definition stateless {A : Type} (device : Device) (m : Sql A) : Prop :=
  exists c, forall st, m device st = (c, st).

End DatabaseService.

(** ** src/screens/HomeScreen.tsx *)

Module HomeScreen.

Record State : Type := {
  notes : list StoredNote.t;
  loading : bool;
  (** The alerts raised so far, title and message. *)
  alerts : list (string * string)
}.

Definition initialState : State := {| notes := []; loading := true; alerts := [] |}.

Definition loadNotes (device : Device) (st : State) (service : DatabaseService.State)
  : State * DatabaseService.State :=
  match DatabaseService.getAllNotes device service with
  | (Normal loadedNotes, service') =>
      ({| notes := loadedNotes; loading := false; alerts := alerts st |}, service')
  | (Throw _, service') =>
      ({| notes := notes st; loading := false;
          alerts := alerts st ++ [("Error", "Failed to load notes")] |}, service')
  end.

Definition initializeDatabase (device : Device) (st : State)
    (service : DatabaseService.State) : State * DatabaseService.State :=
  match DatabaseService.initializeDatabase device service with
  | (Normal _, service') => (st, service')
  | (Throw _, service') =>
      ({| notes := notes st; loading := loading st;
          alerts := alerts st ++ [("Error", "Failed to initialize database")] |}, service')
  end.

(** The mount effect: [loadNotes(); initializeDatabase();].  [loadNotes] has
    handed its query to the service before [initializeDatabase] is called;
    its outcome is taken to settle first. *)
Definition mount (device : Device) (st : State) (service : DatabaseService.State)
  : State * DatabaseService.State :=
  let (loaded, service') := loadNotes device st service in
  initializeDatabase device loaded service'.

(** The Delete button of the confirmation [handleDeleteNote] shows. *)
Definition confirmDelete (noteId : value) (device : Device) (st : State)
    (service : DatabaseService.State) : State * DatabaseService.State :=
  match DatabaseService.deleteNote noteId device service with
  | (Normal _, service') => loadNotes device st service'
  | (Throw _, service') =>
      ({| notes := notes st; loading := loading st;
          alerts := alerts st ++ [("Error", "Failed to delete note")] |}, service')
  end.

End HomeScreen.

(** ** src/screens/NoteEditorScreen.tsx *)

Module NoteEditorScreen.

Record State : Type := {
  saving : bool;
  (** The alerts raised so far, by the screen or by the editor it renders,
      title and message. *)
  alerts : list (string * string);
  (** Whether [navigation.goBack()] has been called. *)
  wentBack : bool
}.

Definition handleSave (note : Note.t) (device : Device) (st : State)
    (service : DatabaseService.State) : State * DatabaseService.State :=
  match DatabaseService.saveNote note device service with
  | (Normal _, service') =>
      ({| saving := false; alerts := alerts st; wentBack := true |}, service')
  | (Throw _, service') =>
      ({| saving := false;
          alerts := alerts st ++ [("Error", "Failed to save note")];
          wentBack := wentBack st |}, service')
  end.

(** The Save button of the editor the screen renders: [NoteEditor]'s
    [handleSave] with the screen's [handleSave] as [onSave].  On a blank
    title the editor raises its alert and [onSave] is not called. *)
Definition pressSave (note : option Note.t) (generatedId : string)
    (firstDate secondDate : Z) (editor : NoteEditor.State) (device : Device)
    (st : State) (service : DatabaseService.State) : State * DatabaseService.State :=
  match NoteEditor.handleSave note generatedId firstDate secondDate editor with
  | NoteEditor.Alerted heading message =>
      ({| saving := saving st; alerts := alerts st ++ [(heading, message)];
          wentBack := wentBack st |}, service)
  | NoteEditor.Saved noteToSave => handleSave noteToSave device st service
  end.

End NoteEditorScreen.

(** ** src/screens/SettingsScreen.tsx *)

Module SettingsScreen.

(** What the Delete All button of [clearAllData] can reach: the alerts,
    whether [AsyncStorage.clear()] has been called, and whether the screen
    has navigated back. *)
Record State : Type := {
  alerts : list (string * string);
  clearCalled : bool;
  wentBack : bool
}.

Definition confirmClearAllData (device : Device) (st : State)
    (service : DatabaseService.State) : State * DatabaseService.State :=
  match DatabaseService.initializeDatabase device service with
  | (Normal _, service') =>
      match AsyncStorage_clear device with
      | Normal _ =>
          ({| alerts := alerts st ++ [("Success", "All data has been cleared")];
              clearCalled := true; wentBack := true |}, service')
      | Throw _ =>
          ({| alerts := alerts st ++ [("Error", "Failed to clear data")];
              clearCalled := true; wentBack := wentBack st |}, service')
      end
  | (Throw _, service') =>
      ({| alerts := alerts st ++ [("Error", "Failed to clear data")];
          clearCalled := clearCalled st; wentBack := wentBack st |}, service')
  end.

End SettingsScreen.

(** ** src/components/ai/HardWordsAnalyzer.tsx *)

Module HardWordsAnalyzer.

Local Abbreviation response_error := error.

(** The cells [loading], [error] and [analyzedWords]; what the component
    has told its parent through [onHardWordsFound] and [onWordReplace]; the
    alerts it raised; and whether a state update threw while rendering. *)
Record State : Type := {
  loading : bool;
  error : option string;
  analyzedWords : list value;
  found : list (list HardWord.t);
  replaced : list (string * string);
  alerts : list (string * string);
  faulted : bool
}.

Definition withError (message : string) (st : State) : State :=
  {| loading := false; error := Some message; analyzedWords := analyzedWords st;
     found := found st; replaced := replaced st; alerts := alerts st;
     faulted := faulted st |}.

(** The callback of [parsed.hardWords.map]: [None] when it throws, on
    reading [word.word] or on converting it to the string [indexOf]
    searches for. *)
Definition hardWordOf (device : Device) (text : string) (word : value)
  : option HardWord.t :=
  match JS.get word (KName "word") with
  | None => None
  | Some w =>
      match toString device w with
      | None => None
      | Some searchString =>
          Some {| HardWord.word := w;
                  HardWord.position := JS.indexOf text searchString;
                  HardWord.context := default VUndefined (JS.get word (KName "context"));
                  HardWord.suggestions :=
                    valueOr (default VUndefined (JS.get word (KName "alternatives")))
                            (VArr []);
                  HardWord.difficulty := 1 |}
      end
  end.

Fixpoint hardWordsOf (device : Device) (text : string) (words : list value)
  : option (list HardWord.t) :=
  match words with
  | [] => Some []
  | word :: rest =>
      match hardWordOf device text word with
      | None => None
      | Some first =>
          match hardWordsOf device text rest with
          | None => None
          | Some others => Some (first :: others)
          end
      end
  end.

(** The inner [try] of [analyzeText], entered with the reply. *)
Definition useReply (device : Device) (text : string) (reply : value) (st : State) : State :=
  match JSON_parse device reply with
  | Throw _ => withError "Failed to parse AI response" st
  | Normal parsed =>
      match JS.get parsed (KName "hardWords") with
      | None => withError "Failed to parse AI response" st
      | Some (VArr words) =>
          match hardWordsOf device text words with
          | Some hardWords =>
              {| loading := false; error := None; analyzedWords := words;
                 found := found st ++ [hardWords]; replaced := replaced st;
                 alerts := alerts st; faulted := faulted st |}
          | None =>
              {| loading := false; error := Some "Failed to parse AI response";
                 analyzedWords := words;
                 found := found st; replaced := replaced st;
                 alerts := alerts st; faulted := faulted st |}
          end
      | Some _ =>
          {| loading := false; error := None; analyzedWords := analyzedWords st;
             found := found st; replaced := replaced st;
             alerts := alerts st; faulted := faulted st |}
      end
  end.

(** [provider] is the stored item [activeAIProvider], already parsed,
    [None] when the item is missing. *)
Definition analyzeText (text : string) (provider : option AIProvider) (device : Device)
    (st : State) : Host -> Network -> State * Network :=
  fun host net =>
    match provider with
    | None => (withError "No AI provider configured" st, net)
    | Some provider =>
        match AIService.analyzeHardWords text provider host net with
        | (Normal response, net') =>
            if success response && JS.truthy (default VUndefined (data response)) then
              (useReply device text (default VUndefined (data response)) st, net')
            else
              (withError (WordSuggestions.errorOr (response_error response)
                            "Failed to analyze text") st, net')
        | (Throw _, net') => (withError "An error occurred during analysis" st, net')
        end
    end.

(** [v === s] for a string [s]. *)
Definition isString (v : value) (s : string) : bool :=
  match v with
  | VStr s' => String.eqb s' s
  | _ => false
  end.

(** [prev.filter(word => word.word !== original)]: [None] when reading
    [word.word] throws. *)
Fixpoint withoutWord (original : string) (words : list value) : option (list value) :=
  match words with
  | [] => Some []
  | word :: rest =>
      match JS.get word (KName "word"), withoutWord original rest with
      | Some w, Some kept =>
          Some (if isString w original then kept else word :: kept)
      | _, _ => None
      end
  end.

(** [original], [replacement] and [context] are strings, as the list items
    pass them; [now] is what [Date.now()] returns.  The updater given to
    [setAnalyzedWords] runs when the component renders again. *)
Definition handleWordReplace (original replacement context : string) (now : Z)
    (device : Device) (st : State) (service : DatabaseService.State)
  : State * DatabaseService.State :=
  match DatabaseService.saveHardWordReplacement original replacement context now
          device service with
  | (Normal _, service') =>
      ({| loading := loading st; error := error st;
          analyzedWords := default (analyzedWords st)
                                   (withoutWord original (analyzedWords st));
          found := found st;
          replaced := replaced st ++ [(original, replacement)];
          alerts := alerts st
                    ++ [("Success",
                         "Replaced " +:+ dq +:+ original +:+ dq +:+ " with "
                         +:+ dq +:+ replacement +:+ dq)];
          faulted := match withoutWord original (analyzedWords st) with
                     | Some _ => faulted st
                     | None => true
                     end |},
       service')
  | (Throw _, service') =>
      ({| loading := loading st; error := error st; analyzedWords := analyzedWords st;
          found := found st; replaced := replaced st;
          alerts := alerts st ++ [("Error", "Failed to save word replacement")];
          faulted := faulted st |}, service')
  end.

End HardWordsAnalyzer.

(** ** How an adapter call settles

    The reads of [makeRequest] taken together: walking the vendor's path in
    the resolved body, and the response the [try]/[catch] turns that into. *)

Fixpoint walk (host : Host) (v : value) (path : list key) : completion value :=
  match path with
  | [] => Normal v
  | k :: rest =>
      match JS.get v k with
      | Some v' => walk host v' rest
      | None => Throw (ErrorInstance (typeErrorMessage host v k))
      end
  end.

Definition settle (v : Vendor) (host : Host) (posted : completion value) : AIResponse :=
  match posted with
  | Throw e => failure e
  | Normal d =>
      match walk host d (textPath v) with
      | Normal text => {| success := true; data := Some text; error := None |}
      | Throw e => failure e
      end
  end.

(** ** The vendor envelopes, as the interface description words them

    URL, JSON body and required headers of the one POST per vendor, for a
    model name, a prompt and a key.  The adapters' own requests are
    [OpenAIService.request], [GeminiService.request] and
    [AnthropicService.request] above. *)

Definition envelopeUrl (v : Vendor) (modelName key : string) : string :=
  match v with
  | VendorOpenAI => "https://api.openai.com/v1/chat/completions"
  | VendorGemini =>
      "https://generativelanguage.googleapis.com/v1beta/models/" +:+ modelName
      +:+ ":generateContent?key=" +:+ key
  | VendorAnthropic => "https://api.anthropic.com/v1/messages"
  end.

Definition envelopeBody (v : Vendor) (modelName prompt : string) : value :=
  match v with
  | VendorOpenAI =>
      VObj [("model", VStr modelName);
            ("messages", VArr [VObj [("role", VStr "user"); ("content", VStr prompt)]]);
            ("temperature", VNum 7 (-1));
            ("max_tokens", VNum 1000 0)]
  | VendorGemini =>
      VObj [("contents", VArr [VObj [("parts", VArr [VObj [("text", VStr prompt)]])]]);
            ("generationConfig",
             VObj [("temperature", VNum 7 (-1)); ("topK", VNum 40 0);
                   ("topP", VNum 95 (-2)); ("maxOutputTokens", VNum 1000 0)])]
  | VendorAnthropic =>
      VObj [("model", VStr modelName);
            ("max_tokens", VNum 1000 0);
            ("messages", VArr [VObj [("role", VStr "user"); ("content", VStr prompt)]])]
  end.

Definition requiredHeaders (v : Vendor) (key : string) : list (string * string) :=
  match v with
  | VendorOpenAI => [("Authorization", "Bearer " +:+ key)]
  | VendorGemini => []
  | VendorAnthropic => [("x-api-key", key); ("anthropic-version", "2023-06-01")]
  end.

(** A request fits the envelope of [v]. *)
Definition fitsEnvelope (v : Vendor) (modelName prompt key : string) (r : Request) : Prop :=
  url r = envelopeUrl v modelName key
  /\ body r = envelopeBody v modelName prompt
  /\ requiredHeaders v key ⊆ headers r.

(** The array each vendor's path indexes at 0. *)
Definition arrayKey (v : Vendor) : string :=
  match v with
  | VendorOpenAI => "choices"
  | VendorGemini => "candidates"
  | VendorAnthropic => "content"
  end.

(** ** Vocabulary for the parsed suggestions *)

(** The unit [c] occurs in [s]. *)
Fixpoint occurs (c : ascii) (s : string) : bool :=
  match s with
  | EmptyString => false
  | String x rest => Ascii.eqb x c || occurs c rest
  end.

Fixpoint allWhiteSpace (s : string) : bool :=
  match s with
  | EmptyString => true
  | String c rest => JS.isWhiteSpace c && allWhiteSpace rest
  end.

Definition firstUnit (s : string) : option ascii :=
  match s with
  | EmptyString => None
  | String c _ => Some c
  end.

Fixpoint lastUnit (s : string) : option ascii :=
  match s with
  | EmptyString => None
  | String c EmptyString => Some c
  | String _ rest => lastUnit rest
  end.

(** Neither the first nor the last unit of [w] is white space. *)
Definition trimmed (w : string) : Prop :=
  (forall c, firstUnit w = Some c -> JS.isWhiteSpace c = false) /\
  (forall c, lastUnit w = Some c -> JS.isWhiteSpace c = false).

(** [p] is [trim p] with white space before and after it. *)
Definition trimOf (p : string) : Prop :=
  exists before after,
    p = before +:+ JS.trim p +:+ after
    /\ allWhiteSpace before = true
    /\ allWhiteSpace after = true
    /\ trimmed (JS.trim p).

(** ** Hosts used in the examples *)

(** A TypeError text in the style of V8. *)
Definition v8Message (base : value) (k : key) : string :=
  "Cannot read properties of "
  +:+ match base with VNull => "null" | _ => "undefined" end
  +:+ " (reading '"
  +:+ match k with KName name => name | KIndex i => pretty i end
  +:+ "')".

(** Vendors that resolve every request with the body [d], and vendors
    that do so for the first request only and reject the later ones. *)
Definition steadyWorld (d : value) : Instances.World :=
  {| Instances.respond := fun _ _ => Normal d;
     Instances.typeErrorOf := v8Message |}.

Definition fickleWorld (d : value) : Instances.World :=
  {| Instances.respond := fun sent _ =>
       match sent with
       | [] => Normal d
       | _ :: _ => Throw (ErrorInstance "Request failed with status code 429")
       end;
     Instances.typeErrorOf := v8Message |}.

(** Every call resolves with the body [d]. *)
Definition respondingHost (d : value) : Host :=
  {| axios_post := fun _ => Normal d; typeErrorMessage := v8Message |}.

(** Every call rejects with [e]. *)
Definition rejectingHost (e : thrown) : Host :=
  {| axios_post := fun _ => Throw e; typeErrorMessage := v8Message |}.

Definition openaiReply (text : string) : value :=
  VObj [("id", VStr "chatcmpl-1");
        ("choices", VArr [VObj [("index", VNum 0 0);
                                ("message", VObj [("role", VStr "assistant");
                                                  ("content", VStr text)])]])].

Definition geminiReply (text : string) : value :=
  VObj [("candidates",
         VArr [VObj [("content", VObj [("parts", VArr [VObj [("text", VStr text)]]);
                                       ("role", VStr "model")])]])].

Definition anthropicReply (text : string) : value :=
  VObj [("role", VStr "assistant");
        ("content", VArr [VObj [("type", VStr "text"); ("text", VStr text)]])].

Definition sampleProvider (tag key modelName : string) : AIProvider :=
  {| type := tag; apiKey := key; model := modelName; isActive := true |}.

(** A parser that knows the empty array and the empty object and rejects
    everything else, and a device built on it: the database opens, every
    statement returns [rows], the storage clears. *)
Definition tinyParse (v : value) : completion value :=
  match v with
  | VStr "[]" => Normal (VArr [])
  | VStr "{}" => Normal (VObj [])
  | _ => Throw (ErrorInstance "Unexpected token")
  end.

Definition sampleDevice (rows : list value) : Device :=
  {| SQLite_openDatabase := fun _ => Normal Connection;
     SQLite_executeSql := fun _ _ => Normal rows;
     AsyncStorage_clear := Normal tt;
     JSON_parse := tinyParse;
     JSON_stringify := fun _ => "[]";
     Number_toString := fun mantissa _ => pretty mantissa;
     typeErrorText := v8Message |}.

(** The three statements of [createTables]. *)
Definition creates : list Statement :=
  [ {| sql := DatabaseService.createNotes; params := [] |};
    {| sql := DatabaseService.createHardWordsHistory; params := [] |};
    {| sql := DatabaseService.createAIProviders; params := [] |} ].

(** [needle] occurs in [s] at index [i]. *)
Definition occursAt (needle s : string) (i : nat) : Prop :=
  exists before after, s = before +:+ needle +:+ after /\ String.length before = i.

(** What [position] holds for a hard word whose word is the string [w]: the
    first index at which [w] occurs in the text, or -1 when it occurs
    nowhere. *)
Definition firstOccurrence (w text : string) (position : Z) : Prop :=
  (position = (-1)%Z /\ forall i, ~ occursAt w text i)
  \/ (exists i, position = Z.of_nat i /\ occursAt w text i
                 /\ forall j, j < i -> ~ occursAt w text j).

(** * Properties *)

(** ** The monad's reads and the vendor paths *)

Lemma bind_read {B : Type} (v : value) (k : key) (f : value -> Async B) host net :
  bind (read v k) f host net =
  match JS.get v k with
  | Some v' => f v' host net
  | None => (Throw (ErrorInstance (typeErrorMessage host v k)), net)
  end.
Proof. unfold bind, read. by destruct (JS.get v k). Qed.

Lemma walk_follow host v path text :
  follow v path = Some text -> walk host v path = Normal text.
Proof.
  revert v. induction path as [|k rest IH]; intros v; simpl.
  - by intros [= ->].
  - destruct (JS.get v k) as [v'|]; [apply IH | done].
Qed.

Lemma walk_firstFault host v path base k :
  firstFault v path = Some (base, k) ->
  walk host v path = Throw (ErrorInstance (typeErrorMessage host base k)).
Proof.
  revert v. induction path as [|k' rest IH]; intros v; simpl; [done|].
  destruct (JS.get v k') as [v'|]; [apply IH | by intros [= -> ->]].
Qed.

(** A walk either reaches a value or stops at the first faulting read. *)
Lemma follow_or_fault v path :
  (exists text, follow v path = Some text /\ firstFault v path = None) \/
  (exists base k, firstFault v path = Some (base, k) /\ follow v path = None
                  /\ JS.get base k = None).
Proof.
  revert v. induction path as [|k rest IH]; intros v; simpl.
  - left. by exists v.
  - destruct (JS.get v k) as [v'|] eqn:Hget; [apply IH|].
    right. by exists v, k.
Qed.

(** ** One adapter call *)

(** Resolve the next [read] of an adapter body against the same read of
    [walk], closing the branch in which it throws. *)
Ltac read_step :=
  rewrite bind_read;
  match goal with
  | |- context [JS.get ?v ?k] => destruct (JS.get v k) eqn:?; [|reflexivity]
  end.

Lemma makeRequestOf_settle (v : Vendor) prompt provider host net :
  makeRequestOf v prompt provider host net =
  (Normal (settle v host (axios_post host (requestOf v prompt provider))),
   net ++ [requestOf v prompt provider]).
Proof.
  destruct v; simpl;
    [unfold OpenAIService.makeRequest | unfold GeminiService.makeRequest
    | unfold AnthropicService.makeRequest];
    unfold try_catch, settle; unfold bind at 1; unfold post;
    destruct (axios_post host _) as [d|e]; try done;
    simpl walk; repeat read_step; done.
Qed.

(** ** The routing table *)

Lemma providers_lookup (v : Vendor) :
  AIService.providers !! tagOf v = Some (serviceOf v).
Proof.
  unfold AIService.providers.
  destruct v; simpl; by repeat (rewrite lookup_insert_ne; [|done]); rewrite ?lookup_insert_eq.
Qed.

Lemma providers_lookup_None (tag : string) :
  AIService.providers !! tag = None <->
  tag ≠ AIProviderType.OPENAI /\ tag ≠ AIProviderType.GEMINI /\ tag ≠ AIProviderType.ANTHROPIC.
Proof.
  unfold AIService.providers.
  rewrite !lookup_insert_None, lookup_empty. intuition congruence.
Qed.

Lemma dispatch_registered (v : Vendor) task provider :
  type provider = tagOf v ->
  dispatch task provider = makeRequestOf v (promptOf task) provider.
Proof.
  intros Htag.
  destruct task; simpl;
    [unfold AIService.simplifyText | unfold AIService.findSimilarWords
    | unfold AIService.analyzeHardWords];
    rewrite Htag, providers_lookup; by destruct v.
Qed.

Lemma dispatch_unregistered task provider :
  AIService.providers !! type provider = None ->
  dispatch task provider = ret AIService.notSupported.
Proof.
  intros Hnone.
  destruct task; simpl;
    [unfold AIService.simplifyText | unfold AIService.findSimilarWords
    | unfold AIService.analyzeHardWords];
    by rewrite Hnone.
Qed.

(** Every tag is either one of the three registered ones or has no service. *)
Lemma registered_or_not (tag : string) :
  (exists v, tag = tagOf v) \/ AIService.providers !! tag = None.
Proof.
  destruct (decide (tag = AIProviderType.OPENAI)) as [->|?]; [left; by exists VendorOpenAI|].
  destruct (decide (tag = AIProviderType.GEMINI)) as [->|?]; [left; by exists VendorGemini|].
  destruct (decide (tag = AIProviderType.ANTHROPIC)) as [->|?];
    [left; by exists VendorAnthropic|].
  right. by apply providers_lookup_None.
Qed.

(** What an adapter settles on: a failure with an [error] and no [data], or
    a success with no [error] and, as [data], what the body the client
    resolved with holds at the end of the vendor's path. *)
Lemma settle_shape v host posted :
  (success (settle v host posted) = false
   /\ data (settle v host posted) = None
   /\ is_Some (error (settle v host posted)))
  \/ (success (settle v host posted) = true
      /\ error (settle v host posted) = None
      /\ exists response_data,
           posted = Normal response_data
           /\ is_Some (data (settle v host posted))
           /\ data (settle v host posted) = follow response_data (textPath v)).
Proof.
  unfold settle. destruct posted as [d|e]; [|left; by eauto].
  destruct (follow_or_fault d (textPath v))
    as [(text & Hfollow & _)|(base & k & Hfault & _ & _)].
  - rewrite (walk_follow host d _ text Hfollow). right. simpl.
    split; [done|]. split; [done|]. exists d. rewrite Hfollow. by eauto.
  - rewrite (walk_firstFault host d _ base k Hfault). left. by eauto.
Qed.

(** A dispatch always completes normally: with the fixed reply and an
    untouched log, or with what the vendor's adapter settles on and a log
    one request longer. *)
Lemma dispatch_cases task provider host net :
  (AIService.providers !! type provider = None /\
   dispatch task provider host net = (Normal AIService.notSupported, net)) \/
  (exists v, type provider = tagOf v /\
     dispatch task provider host net =
     (Normal (settle v host (axios_post host (requestOf v (promptOf task) provider))),
      net ++ [requestOf v (promptOf task) provider])).
Proof.
  destruct (registered_or_not (type provider)) as [[v Hv]|Hnone].
  - right. exists v. split; [done|].
    by rewrite (dispatch_registered v), makeRequestOf_settle.
  - left. split; [done|]. by rewrite dispatch_unregistered.
Qed.

Lemma errorMessage_nonempty e : e ≠ ErrorInstance EmptyString -> errorMessage e ≠ EmptyString.
Proof. destruct e as [message|w]; simpl; [congruence | done]. Qed.

(** ** Configuration errors *)

(** C1 (as stated, refuted): a dispatch with an empty apiKey does not fail
    fast.  Simplify on an OpenAI config whose apiKey is the empty string
    posts one request, with the header value [Bearer ] and nothing after it,
    and returns the vendor's text as a success. *)
Lemma C1_empty_key_still_posts :
  apiKey (sampleProvider AIProviderType.OPENAI EmptyString "gpt-4") = EmptyString /\
  dispatch (Simplify "hi") (sampleProvider AIProviderType.OPENAI EmptyString "gpt-4")
           (respondingHost (openaiReply "ok")) [] =
  (Normal {| success := true; data := Some (VStr "ok"); error := None |},
   [ {| url := "https://api.openai.com/v1/chat/completions";
        body := VObj [("model", VStr "gpt-4");
                      ("messages", VArr [userMessage (simplifyPrompt "hi")]);
                      ("temperature", VNum 7 (-1));
                      ("max_tokens", VNum 1000 0)];
        headers := [("Authorization", "Bearer ");
                    ("Content-Type", "application/json")] |} ]).
Proof. split; reflexivity. Qed.

(** C1 (amended): for every task kind and every config of a registered
    vendor whose apiKey is the empty string, the dispatch layer performs no
    key check: it posts exactly one request, with the empty key in the
    vendor's credential position, and returns what the adapter settles on. *)
Theorem C1_empty_key_is_forwarded (v : Vendor) task provider host net :
  type provider = tagOf v ->
  apiKey provider = EmptyString ->
  dispatch task provider host net =
    (Normal (settle v host (axios_post host (requestOf v (promptOf task) provider))),
     net ++ [requestOf v (promptOf task) provider])
  /\ match v with
     | VendorOpenAI =>
         headers (requestOf v (promptOf task) provider) =
         [("Authorization", "Bearer "); ("Content-Type", "application/json")]
     | VendorGemini =>
         url (requestOf v (promptOf task) provider) =
         "https://generativelanguage.googleapis.com/v1beta/models/"
         +:+ JS.or_else (model provider) "gemini-pro" +:+ ":generateContent?key="
     | VendorAnthropic =>
         headers (requestOf v (promptOf task) provider) =
         [("x-api-key", EmptyString); ("Content-Type", "application/json");
          ("anthropic-version", "2023-06-01")]
     end.
Proof.
  intros Htag Hkey. split.
  - by rewrite (dispatch_registered v), makeRequestOf_settle.
  - destruct v; simpl; rewrite Hkey; reflexivity.
Qed.

Lemma C1_empty_key_is_forwarded_witness :
  dispatch (FindAlternatives "arduous" "an arduous climb")
           (sampleProvider AIProviderType.ANTHROPIC EmptyString EmptyString)
           (respondingHost (anthropicReply "hard, tough")) [] =
  (Normal {| success := true; data := Some (VStr "hard, tough"); error := None |},
   [requestOf VendorAnthropic (similarWordsPrompt "arduous" "an arduous climb")
              (sampleProvider AIProviderType.ANTHROPIC EmptyString EmptyString)]).
Proof.
  exact (proj1 (C1_empty_key_is_forwarded VendorAnthropic
                 (FindAlternatives "arduous" "an arduous climb")
                 (sampleProvider AIProviderType.ANTHROPIC EmptyString EmptyString)
                 (respondingHost (anthropicReply "hard, tough")) []
                 eq_refl eq_refl)).
Defined.

(** C2: for every task kind, a dispatch whose provider tag has no registered
    service returns exactly [{success:false, error:"Provider not supported"}]
    and leaves the log of outbound calls as it was. *)
Theorem C2_unsupported_provider task provider host net :
  AIService.providers !! type provider = None ->
  dispatch task provider host net =
  (Normal {| success := false; data := None; error := Some "Provider not supported" |},
   net).
Proof. intros Hnone. by rewrite dispatch_unregistered. Qed.

Lemma C2_unsupported_provider_witness :
  AIService.providers !! type (sampleProvider "mistral" "sk-1" "small") = None /\
  dispatch (AnalyzeHardWords "a perspicacious reader")
           (sampleProvider "mistral" "sk-1" "small")
           (respondingHost (openaiReply "ok")) [] =
  (Normal {| success := false; data := None; error := Some "Provider not supported" |},
   []).
Proof.
  assert (Hnone : AIService.providers !! type (sampleProvider "mistral" "sk-1" "small")
                  = None) by (vm_compute; reflexivity).
  split; [exact Hnone|].
  exact (C2_unsupported_provider (AnalyzeHardWords "a perspicacious reader")
           (sampleProvider "mistral" "sk-1" "small")
           (respondingHost (openaiReply "ok")) [] Hnone).
Defined.

(** ** Failures of the request *)

(** C3 (as stated, refuted): the returned error string can be empty.  When
    the HTTP client rejects with an [Error] whose message is the empty
    string, the adapter returns [{success:false, error:""}]. *)
Lemma C3_error_text_can_be_empty :
  dispatch (Simplify "hi") (sampleProvider AIProviderType.OPENAI "sk-1" "gpt-4")
           (rejectingHost (ErrorInstance EmptyString)) [] =
  (Normal {| success := false; data := None; error := Some EmptyString |},
   [requestOf VendorOpenAI (simplifyPrompt "hi")
              (sampleProvider AIProviderType.OPENAI "sk-1" "gpt-4")]).
Proof. reflexivity. Qed.

(** C3 (amended): a dispatch never throws, whatever the provider and the
    host; and for every adapter and task kind, when the HTTP client rejects
    with [e] the call returns [{success:false, error:m}] where [m] is the
    message of [e] if [e] is an [Error] and ['Unknown error occurred']
    otherwise, so [m] is non-empty unless [e] is an [Error] with an empty
    message. *)
Theorem C3_failures_are_returned (v : Vendor) task provider host net :
  (exists r, fst (dispatch task provider host net) = Normal r) /\
  (forall e,
     type provider = tagOf v ->
     axios_post host (requestOf v (promptOf task) provider) = Throw e ->
     dispatch task provider host net =
       (Normal {| success := false; data := None; error := Some (errorMessage e) |},
        net ++ [requestOf v (promptOf task) provider])
     /\ (e ≠ ErrorInstance EmptyString -> errorMessage e ≠ EmptyString)).
Proof.
  split.
  - destruct (dispatch_cases task provider host net) as [[_ ->]|(w & _ & ->)]; eauto.
  - intros e Htag Hpost. split; [|apply errorMessage_nonempty].
    by rewrite (dispatch_registered v), makeRequestOf_settle, Hpost.
Qed.

Lemma C3_failures_are_returned_witness :
  dispatch (AnalyzeHardWords "a perspicacious reader")
           (sampleProvider AIProviderType.GEMINI "key-1" "gemini-pro")
           (rejectingHost (ErrorInstance "Network Error")) [] =
  (Normal {| success := false; data := None; error := Some "Network Error" |},
   [requestOf VendorGemini (analyzePrompt "a perspicacious reader")
              (sampleProvider AIProviderType.GEMINI "key-1" "gemini-pro")])
  /\ errorMessage (ErrorInstance "Network Error") ≠ EmptyString.
Proof.
  destruct (proj2 (C3_failures_are_returned VendorGemini
                     (AnalyzeHardWords "a perspicacious reader")
                     (sampleProvider AIProviderType.GEMINI "key-1" "gemini-pro")
                     (rejectingHost (ErrorInstance "Network Error")) [])
                  (ErrorInstance "Network Error") eq_refl eq_refl) as [Hrun Hmsg].
  split; [exact Hrun|].
  apply Hmsg. discriminate.
Defined.

(** The request an adapter builds fits the vendor's envelope, with the
    provider's model or, when that is empty, the vendor's default. *)
Lemma request_fits (v : Vendor) prompt provider :
  fitsEnvelope v (JS.or_else (model provider) (defaultModel v)) prompt (apiKey provider)
               (requestOf v prompt provider).
Proof.
  unfold fitsEnvelope.
  destruct v; simpl; (split; [|split]); try reflexivity;
    intros h; rewrite ?elem_of_cons, ?elem_of_nil; tauto.
Qed.

Lemma dispatch_posts (v : Vendor) task provider host net :
  type provider = tagOf v ->
  snd (dispatch task provider host net) = net ++ [requestOf v (promptOf task) provider].
Proof. intros Htag. by rewrite (dispatch_registered v), makeRequestOf_settle. Qed.

(** ** Successful requests *)

(** C4: for all three task kinds and all three vendors, when the HTTP client
    resolves with a body that has the string [text] at the vendor's path
    ([choices[0].message.content] for OpenAI,
    [candidates[0].content.parts[0].text] for Gemini, [content[0].text] for
    Anthropic), the dispatch returns [{success:true, data:text}]. *)
Theorem C4_success_extracts_text (v : Vendor) task provider host net response_data text :
  type provider = tagOf v ->
  axios_post host (requestOf v (promptOf task) provider) = Normal response_data ->
  follow response_data
    match v with
    | VendorOpenAI => [KName "choices"; KIndex 0; KName "message"; KName "content"]
    | VendorGemini => [KName "candidates"; KIndex 0; KName "content"; KName "parts";
                       KIndex 0; KName "text"]
    | VendorAnthropic => [KName "content"; KIndex 0; KName "text"]
    end = Some (VStr text) ->
  dispatch task provider host net =
  (Normal {| success := true; data := Some (VStr text); error := None |},
   net ++ [requestOf v (promptOf task) provider]).
Proof.
  intros Htag Hpost Hpath.
  rewrite (dispatch_registered v), makeRequestOf_settle, Hpost by done.
  unfold settle. by rewrite (walk_follow host _ (textPath v) (VStr text)) by (by destruct v).
Qed.

Lemma C4_success_extracts_text_witness :
  dispatch (Simplify "The denouement was inscrutable.")
           (sampleProvider AIProviderType.GEMINI "key-1" "gemini-pro")
           (respondingHost (geminiReply "The ending was hard to understand.")) [] =
  (Normal {| success := true;
             data := Some (VStr "The ending was hard to understand.");
             error := None |},
   [requestOf VendorGemini (simplifyPrompt "The denouement was inscrutable.")
              (sampleProvider AIProviderType.GEMINI "key-1" "gemini-pro")]).
Proof.
  exact (C4_success_extracts_text VendorGemini
           (Simplify "The denouement was inscrutable.")
           (sampleProvider AIProviderType.GEMINI "key-1" "gemini-pro")
           (respondingHost (geminiReply "The ending was hard to understand.")) []
           (geminiReply "The ending was hard to understand.")
           "The ending was hard to understand." eq_refl eq_refl eq_refl).
Defined.

(** ** The outbound request *)

(** C5 (as stated, refuted): the model field is not always the config's
    model.  For an OpenAI config whose model is the empty string the posted
    body carries ["gpt-3.5-turbo"]. *)
Lemma C5_empty_model_is_not_sent :
  model (sampleProvider AIProviderType.OPENAI "sk-1" EmptyString) = EmptyString /\
  snd (dispatch (Simplify "hi") (sampleProvider AIProviderType.OPENAI "sk-1" EmptyString)
                (respondingHost (openaiReply "ok")) []) =
  [ {| url := "https://api.openai.com/v1/chat/completions";
       body := VObj [("model", VStr "gpt-3.5-turbo");
                     ("messages", VArr [VObj [("role", VStr "user");
                                              ("content", VStr (simplifyPrompt "hi"))]]);
                     ("temperature", VNum 7 (-1));
                     ("max_tokens", VNum 1000 0)];
       headers := [("Authorization", "Bearer sk-1");
                   ("Content-Type", "application/json")] |} ].
Proof. split; reflexivity. Qed.

(** C5 (amended): for every config of a registered vendor whose model is
    not the empty string, and every task kind, the dispatch posts exactly
    one request, and it fits the vendor's envelope (URL, body and required
    headers) with the config's model and apiKey. *)
Theorem C5_request_envelope (v : Vendor) task provider host net :
  type provider = tagOf v ->
  model provider ≠ EmptyString ->
  exists r,
    snd (dispatch task provider host net) = net ++ [r]
    /\ fitsEnvelope v (model provider) (promptOf task) (apiKey provider) r.
Proof.
  intros Htag Hmodel. exists (requestOf v (promptOf task) provider).
  split; [by apply dispatch_posts|].
  pose proof (request_fits v (promptOf task) provider) as Hfit.
  unfold JS.or_else in Hfit.
  destruct (String.eqb_spec (model provider) EmptyString); [done | exact Hfit].
Qed.

Lemma C5_request_envelope_witness :
  exists r,
    snd (dispatch (Simplify "hi") (sampleProvider AIProviderType.ANTHROPIC "sk-ant-1" "claude-3")
                  (respondingHost (anthropicReply "ok")) []) = [] ++ [r]
    /\ fitsEnvelope VendorAnthropic "claude-3" (simplifyPrompt "hi") "sk-ant-1" r.
Proof.
  refine (C5_request_envelope VendorAnthropic (Simplify "hi")
            (sampleProvider AIProviderType.ANTHROPIC "sk-ant-1" "claude-3")
            (respondingHost (anthropicReply "ok")) [] eq_refl _).
  simpl. discriminate.
Defined.

(** C10: for every config of a registered vendor whose model is the empty
    string, the request the dispatch posts carries the vendor's fixed
    default model in place of it: ['gpt-3.5-turbo'] for OpenAI,
    ['gemini-pro'] for Gemini, ['claude-3-sonnet-20240229'] for Anthropic. *)
Theorem C10_default_model (v : Vendor) task provider host net :
  type provider = tagOf v ->
  model provider = EmptyString ->
  exists r,
    snd (dispatch task provider host net) = net ++ [r]
    /\ fitsEnvelope v
         match v with
         | VendorOpenAI => "gpt-3.5-turbo"
         | VendorGemini => "gemini-pro"
         | VendorAnthropic => "claude-3-sonnet-20240229"
         end
         (promptOf task) (apiKey provider) r.
Proof.
  intros Htag Hmodel. exists (requestOf v (promptOf task) provider).
  split; [by apply dispatch_posts|].
  pose proof (request_fits v (promptOf task) provider) as Hfit.
  rewrite Hmodel in Hfit. by destruct v.
Qed.

Lemma C10_default_model_witness :
  exists r,
    snd (dispatch (Simplify "hi") (sampleProvider AIProviderType.GEMINI "key-1" EmptyString)
                  (respondingHost (geminiReply "ok")) []) = [] ++ [r]
    /\ fitsEnvelope VendorGemini "gemini-pro" (simplifyPrompt "hi") "key-1" r.
Proof.
  exact (C10_default_model VendorGemini (Simplify "hi")
           (sampleProvider AIProviderType.GEMINI "key-1" EmptyString)
           (respondingHost (geminiReply "ok")) [] eq_refl eq_refl).
Defined.

(** ** Malformed bodies *)

(** A body that is an object without the vendor's array, or with an empty
    one, makes a read on the path throw. *)
Lemma missing_or_empty_array_faults (v : Vendor) fields :
  JS.assoc (arrayKey v) fields = None \/ JS.assoc (arrayKey v) fields = Some (VArr []) ->
  exists base k, firstFault (VObj fields) (textPath v) = Some (base, k).
Proof.
  intros [Hmissing|Hempty]; destruct v; simpl in *;
    rewrite ?Hmissing, ?Hempty; simpl; eauto.
Qed.

(** C9 (as stated, refuted): a 2xx body that lacks the text at the end of
    the path can still give a success.  With an OpenAI body whose first
    choice has a message without [content], the last read yields
    [undefined] and the adapter returns [{success:true, data:undefined}]. *)
Lemma C9_missing_text_can_succeed :
  follow (VObj [("choices", VArr [VObj [("message", VObj [("role", VStr "assistant")])]])])
         (textPath VendorOpenAI) = Some VUndefined /\
  dispatch (Simplify "hi") (sampleProvider AIProviderType.OPENAI "sk-1" "gpt-4")
    (respondingHost
       (VObj [("choices", VArr [VObj [("message", VObj [("role", VStr "assistant")])]])]))
    [] =
  (Normal {| success := true; data := Some VUndefined; error := None |},
   [requestOf VendorOpenAI (simplifyPrompt "hi")
              (sampleProvider AIProviderType.OPENAI "sk-1" "gpt-4")]).
Proof. split; reflexivity. Qed.

(** C9 (amended): for every adapter, when the HTTP client resolves with a
    body in which a read on the vendor's path hits [undefined] or [null]
    before the path ends, the call returns [{success:false, error:m}] with
    [m] the message of the TypeError of that read; this is the case for an
    object body whose choices/candidates/content array is missing or empty.
    When every read goes through, the call returns [{success:true}] with
    the value at the end of the path as data. *)
Theorem C9_broken_envelope_is_reported (v : Vendor) task provider host net response_data :
  type provider = tagOf v ->
  axios_post host (requestOf v (promptOf task) provider) = Normal response_data ->
  (forall base k,
     firstFault response_data (textPath v) = Some (base, k) ->
     dispatch task provider host net =
     (Normal {| success := false; data := None;
                error := Some (typeErrorMessage host base k) |},
      net ++ [requestOf v (promptOf task) provider]))
  /\ (forall fields,
        response_data = VObj fields ->
        JS.assoc (arrayKey v) fields = None \/
        JS.assoc (arrayKey v) fields = Some (VArr []) ->
        exists m,
          dispatch task provider host net =
          (Normal {| success := false; data := None; error := Some m |},
           net ++ [requestOf v (promptOf task) provider]))
  /\ (forall last,
        follow response_data (textPath v) = Some last ->
        dispatch task provider host net =
        (Normal {| success := true; data := Some last; error := None |},
         net ++ [requestOf v (promptOf task) provider])).
Proof.
  intros Htag Hpost.
  assert (Hfault : forall base k,
             firstFault response_data (textPath v) = Some (base, k) ->
             dispatch task provider host net =
             (Normal {| success := false; data := None;
                        error := Some (typeErrorMessage host base k) |},
              net ++ [requestOf v (promptOf task) provider])).
  { intros base k Hk.
    rewrite (dispatch_registered v), makeRequestOf_settle, Hpost by done.
    unfold settle. by rewrite (walk_firstFault host _ _ base k Hk). }
  split; [exact Hfault|split].
  - intros fields -> Harray.
    destruct (missing_or_empty_array_faults v fields Harray) as (base & k & Hk).
    eauto.
  - intros last Hlast.
    rewrite (dispatch_registered v), makeRequestOf_settle, Hpost by done.
    unfold settle. by rewrite (walk_follow host _ _ last Hlast).
Qed.

Lemma C9_broken_envelope_is_reported_witness :
  dispatch (Simplify "hi") (sampleProvider AIProviderType.OPENAI "sk-1" "gpt-4")
           (respondingHost (VObj [("choices", VArr [])])) [] =
  (Normal {| success := false; data := None;
             error := Some "Cannot read properties of undefined (reading 'message')" |},
   [requestOf VendorOpenAI (simplifyPrompt "hi")
              (sampleProvider AIProviderType.OPENAI "sk-1" "gpt-4")]).
Proof.
  exact (proj1 (C9_broken_envelope_is_reported VendorOpenAI (Simplify "hi")
                  (sampleProvider AIProviderType.OPENAI "sk-1" "gpt-4")
                  (respondingHost (VObj [("choices", VArr [])])) []
                  (VObj [("choices", VArr [])]) eq_refl eq_refl)
               VUndefined (KName "message") eq_refl).
Defined.

(** ** Shape of the responses *)

(** C7 (as stated, refuted): a success need not carry a meaningful [data].
    With a Gemini body whose first part has no [text], the last read yields
    [undefined] and the facade returns [{success:true, data:undefined}]:
    neither [data] nor [error] holds anything. *)
Lemma C7_success_without_data :
  dispatch (AnalyzeHardWords "a lucid text")
    (sampleProvider AIProviderType.GEMINI "key-1" "gemini-pro")
    (respondingHost
       (VObj [("candidates",
               VArr [VObj [("content",
                            VObj [("parts", VArr [VObj []]); ("role", VStr "model")])]])]))
    [] =
  (Normal {| success := true; data := Some VUndefined; error := None |},
   [requestOf VendorGemini (analyzePrompt "a lucid text")
              (sampleProvider AIProviderType.GEMINI "key-1" "gemini-pro")]).
Proof. reflexivity. Qed.

(** C7 (amended): every call of the facade and of each adapter returns a
    response of one of two shapes.  A failure: [success] false, an [error]
    string and no [data] property.  Or a success: [success] true, no
    [error] property, and a [data] property holding what the body the
    client resolved with has at the end of the vendor's path, so [data] is
    a string exactly when the body holds a string there. *)
Theorem C7_one_property_by_success (v : Vendor) task prompt provider host net :
  (exists r,
     fst (dispatch task provider host net) = Normal r
     /\ ((success r = false /\ data r = None /\ is_Some (error r))
         \/ (success r = true /\ error r = None
             /\ exists w response_data,
                  type provider = tagOf w
                  /\ axios_post host (requestOf w (promptOf task) provider)
                     = Normal response_data
                  /\ is_Some (data r)
                  /\ data r = follow response_data (textPath w))))
  /\ (exists r,
        fst (makeRequestOf v prompt provider host net) = Normal r
        /\ ((success r = false /\ data r = None /\ is_Some (error r))
            \/ (success r = true /\ error r = None
                /\ exists response_data,
                     axios_post host (requestOf v prompt provider) = Normal response_data
                     /\ is_Some (data r)
                     /\ data r = follow response_data (textPath v)))).
Proof.
  split.
  - destruct (dispatch_cases task provider host net) as [[_ ->]|(w & Htag & ->)];
      eexists; (split; [reflexivity|]).
    + left. by eauto.
    + destruct (settle_shape w host
                  (axios_post host (requestOf w (promptOf task) provider)))
        as [?|(? & ? & response_data & ? & ? & ?)]; [by left|].
      right. split; [done|]. split; [done|]. by exists w, response_data.
  - rewrite makeRequestOf_settle. eexists; split; [reflexivity|].
    apply settle_shape.
Qed.

(** ** Repeated calls *)

Section Calls.

(** What is made of a body depends on the host only through the text of
    its TypeErrors. *)
Lemma settle_host (v : Vendor) (host host' : Host) (posted : completion value) :
  typeErrorMessage host = typeErrorMessage host' ->
  settle v host posted = settle v host' posted.
Proof.
  intros Hsame. unfold settle. destruct posted as [d|e]; [|done].
  replace (walk host' d (textPath v)) with (walk host d (textPath v)); [done|].
  generalize (textPath v). intros path. revert d.
  induction path as [|k rest IH]; intros d; simpl; [done|].
  destruct (JS.get d k); [apply IH | by rewrite Hsame].
Qed.

Lemma constructor_loaded (world : Instances.World) (net : Network) :
  Instances.constructor world Instances.initialised net
  = (Normal tt, Instances.loaded, net).
Proof. reflexivity. Qed.

(** One adapter call over the fields: the request is built from the
    [baseURL] the field holds, the vendor answers it as it does after what
    was sent before, and the fields are handed on as they were. *)
Lemma makeRequest_run (v : Vendor) prompt provider world fields net :
  Instances.Adapter.makeRequest v prompt provider world fields net =
  (Normal (settle v (Instances.host world net)
             (Instances.respond world net
                (Instances.requestTo v (Instances.baseURL fields v) prompt provider))),
   fields,
   net ++ [Instances.requestTo v (Instances.baseURL fields v) prompt provider]).
Proof.
  destruct v; unfold Instances.Adapter.makeRequest, Instances.try_catch, settle;
    unfold Instances.bind at 1; unfold Instances.this_baseURL;
    unfold Instances.bind at 1; unfold Instances.post;
    destruct (Instances.respond world net _) as [d|e]; try done;
    simpl walk;
    repeat (unfold Instances.bind at 1; unfold Instances.read at 1;
            match goal with
            | |- context [JS.get ?x ?k] => destruct (JS.get x k) eqn:?; [|reflexivity]
            end);
    reflexivity.
Qed.

Lemma dispatch_run task provider world fields net :
  Instances.dispatch task provider world fields net =
  match Instances.providers fields !! type provider with
  | None => (Normal AIService.notSupported, fields, net)
  | Some v =>
      (Normal (settle v (Instances.host world net)
                 (Instances.respond world net
                    (Instances.requestTo v (Instances.baseURL fields v)
                       (promptOf task) provider))),
       fields,
       net ++ [Instances.requestTo v (Instances.baseURL fields v) (promptOf task) provider])
  end.
Proof.
  destruct task; simpl;
    [unfold Instances.Facade.simplifyText, Instances.Adapter.simplifyText
    | unfold Instances.Facade.findSimilarWords, Instances.Adapter.findSimilarWords
    | unfold Instances.Facade.analyzeHardWords, Instances.Adapter.analyzeHardWords];
    unfold Instances.bind, Instances.this_providers;
    (destruct (Instances.providers fields !! type provider) as [v|];
     [apply makeRequest_run | done]).
Qed.

Lemma loaded_lookup (v : Vendor) :
  Instances.providers Instances.loaded !! tagOf v = Some v.
Proof.
  unfold Instances.loaded; simpl.
  destruct v; simpl; by repeat (rewrite lookup_insert_ne; [|done]); rewrite ?lookup_insert_eq.
Qed.

Lemma loaded_lookup_None (tag : AIProviderType) :
  AIService.providers !! tag = None -> Instances.providers Instances.loaded !! tag = None.
Proof.
  intros (? & ? & ?)%providers_lookup_None. unfold Instances.loaded; simpl.
  rewrite !lookup_insert_None, lookup_empty. intuition congruence.
Qed.

Lemma requestTo_loaded (v : Vendor) prompt provider :
  Instances.requestTo v (Instances.baseURL Instances.loaded v) prompt provider
  = requestOf v prompt provider.
Proof. by destruct v. Qed.

Lemma dispatch_frame task provider world fields net :
  exists r issued,
    Instances.dispatch task provider world fields net = (Normal r, fields, net ++ issued).
Proof.
  rewrite dispatch_run. destruct (Instances.providers fields !! type provider) as [w|].
  - by eexists _, [_].
  - exists AIService.notSupported, []. by rewrite app_nil_r.
Qed.

Lemma sequence_frame calls world fields net :
  exists rs issued,
    Instances.sequence calls world fields net = (Normal rs, fields, net ++ issued).
Proof.
  revert net. induction calls as [|[task provider] rest IH]; intros net; simpl.
  - exists [], []. by rewrite app_nil_r.
  - destruct (dispatch_frame task provider world fields net) as (r & issued & Hfirst).
    destruct (IH (net ++ issued)) as (rs & issued' & Hrest).
    exists (r :: rs), (issued ++ issued').
    unfold Instances.bind. rewrite Hfirst, Hrest. by rewrite app_assoc.
Qed.

(** C8: a call of the facade or of an adapter hands the fields of the
    instances on exactly as it found them, whatever they hold and whatever
    was sent before, and adds to the log only the requests it issued.  So
    after any calls made earlier the fields are what they were, and a call
    made then returns what it would have returned as the first call,
    provided the vendor settles its request the way it would have then; in
    particular the same call repeated returns the same response.  Nothing
    a call reads was left by a call before it.  With the fields as the
    loaded modules have them, the call is the [dispatch] of the facade
    against the host the vendors are at that moment. *)
Theorem C8_calls_keep_no_state (v : Vendor) task prompt provider earlier
    world fields net :
  (exists r issued,
     Instances.dispatch task provider world fields net = (Normal r, fields, net ++ issued))
  /\ (exists r issued,
        Instances.Adapter.makeRequest v prompt provider world fields net
        = (Normal r, fields, net ++ issued))
  /\ Instances.fieldsAfter (Instances.sequence earlier world fields net) = fields
  /\ ((forall request,
         Instances.respond world
           (Instances.sentAfter (Instances.sequence earlier world fields net)) request
         = Instances.respond world net request) ->
      Instances.response
        (Instances.dispatch task provider world
           (Instances.fieldsAfter (Instances.sequence earlier world fields net))
           (Instances.sentAfter (Instances.sequence earlier world fields net)))
      = Instances.response (Instances.dispatch task provider world fields net))
  /\ ((forall request,
         Instances.respond world (net ++ [request]) request
         = Instances.respond world net request) ->
      Instances.response
        (Instances.Adapter.makeRequest v prompt provider world
           (Instances.fieldsAfter
              (Instances.Adapter.makeRequest v prompt provider world fields net))
           (Instances.sentAfter
              (Instances.Adapter.makeRequest v prompt provider world fields net)))
      = Instances.response
          (Instances.Adapter.makeRequest v prompt provider world fields net))
  /\ Instances.dispatch task provider world Instances.loaded net
     = (fst (dispatch task provider (Instances.host world net) net),
        Instances.loaded,
        snd (dispatch task provider (Instances.host world net) net)).
Proof.
  destruct (sequence_frame earlier world fields net) as (rs & sent & Hearlier).
  split; [apply dispatch_frame|]. split; [|split; [|split; [|split]]].
  - rewrite makeRequest_run. by eexists _, [_].
  - by rewrite Hearlier.
  - rewrite Hearlier. unfold Instances.response, Instances.fieldsAfter, Instances.sentAfter.
    simpl. intros Hsame. rewrite !dispatch_run.
    destruct (Instances.providers fields !! type provider) as [w|]; [|done].
    simpl. rewrite Hsame. f_equal. by apply settle_host.
  - intros Hsame. rewrite !makeRequest_run.
    unfold Instances.response, Instances.fieldsAfter, Instances.sentAfter. simpl.
    rewrite Hsame. f_equal. by apply settle_host.
  - rewrite dispatch_run.
    destruct (registered_or_not (type provider)) as [[w Hw]|Hnone].
    + rewrite Hw, loaded_lookup, requestTo_loaded.
      by rewrite (dispatch_registered w), makeRequestOf_settle.
    + by rewrite (loaded_lookup_None _ Hnone), dispatch_unregistered.
Qed.

End Calls.

Lemma C8_calls_keep_no_state_witness :
  Instances.response
    (Instances.dispatch (Simplify "hi") (sampleProvider AIProviderType.OPENAI "sk-1" "gpt-4")
       (steadyWorld (openaiReply "hello"))
       (Instances.fieldsAfter
          (Instances.sequence
             [(Simplify "hi", sampleProvider AIProviderType.OPENAI "sk-1" "gpt-4");
              (AnalyzeHardWords "hi", sampleProvider "mistral" "k" "m")]
             (steadyWorld (openaiReply "hello")) Instances.loaded []))
       (Instances.sentAfter
          (Instances.sequence
             [(Simplify "hi", sampleProvider AIProviderType.OPENAI "sk-1" "gpt-4");
              (AnalyzeHardWords "hi", sampleProvider "mistral" "k" "m")]
             (steadyWorld (openaiReply "hello")) Instances.loaded [])))
  = Instances.response
      (Instances.dispatch (Simplify "hi")
         (sampleProvider AIProviderType.OPENAI "sk-1" "gpt-4")
         (steadyWorld (openaiReply "hello")) Instances.loaded []).
Proof.
  exact (proj1 (proj2 (proj2 (proj2
           (C8_calls_keep_no_state VendorOpenAI (Simplify "hi") "hi"
              (sampleProvider AIProviderType.OPENAI "sk-1" "gpt-4")
              [(Simplify "hi", sampleProvider AIProviderType.OPENAI "sk-1" "gpt-4");
               (AnalyzeHardWords "hi", sampleProvider "mistral" "k" "m")]
              (steadyWorld (openaiReply "hello")) Instances.loaded []))))
           (fun _ => eq_refl)).
Defined.

(** Against vendors that settle the second request differently, the second
    response differs while the fields are still handed on as they were. *)
Example second_answer_may_differ :
  let first :=
    Instances.dispatch (Simplify "hi") (sampleProvider AIProviderType.OPENAI "sk-1" "gpt-4")
      (fickleWorld (openaiReply "hello")) Instances.loaded [] in
  let second :=
    Instances.dispatch (Simplify "hi") (sampleProvider AIProviderType.OPENAI "sk-1" "gpt-4")
      (fickleWorld (openaiReply "hello"))
      (Instances.fieldsAfter first) (Instances.sentAfter first) in
  Instances.response first
  = Normal {| success := true; data := Some (VStr "hello"); error := None |}
  /\ Instances.response second
     = Normal {| success := false; data := None;
                 error := Some "Request failed with status code 429" |}
  /\ Instances.fieldsAfter second = Instances.loaded.
Proof. by repeat split. Qed.

(** The constructor, unlike a call, does assign a field. *)
Example constructor_assigns :
  Instances.providers Instances.initialised !! AIProviderType.OPENAI = None
  /\ Instances.providers
       (Instances.fieldsAfter
          (Instances.constructor (steadyWorld VNull) Instances.initialised []))
       !! AIProviderType.OPENAI
     = Some VendorOpenAI.
Proof. split; [done|]. apply (loaded_lookup VendorOpenAI). Qed.

(** The map a call consults is the one the constructor filled: before the
    constructor has run, the facade knows no provider. *)
Example fields_are_read :
  Instances.response
    (Instances.dispatch (Simplify "hi") (sampleProvider AIProviderType.OPENAI "sk-1" "gpt-4")
       (steadyWorld (openaiReply "hello")) Instances.initialised [])
  = Normal AIService.notSupported.
Proof. reflexivity. Qed.

(** ** Splitting and trimming *)

Lemma append_cons (x : ascii) (a b : string) : String x a +:+ b = String x (a +:+ b).
Proof. reflexivity. Qed.

Lemma append_nil (b : string) : EmptyString +:+ b = b.
Proof. reflexivity. Qed.

Section Strings.

Variable sep : ascii.

Lemma split_nonempty (s : string) : JS.split sep s ≠ [].
Proof.
  destruct s as [|c rest]; simpl; [done|].
  destruct (Ascii.eqb c sep); [done|]. by destruct (JS.split sep rest).
Qed.

Lemma join_split (s : string) : JS.join sep (JS.split sep s) = s.
Proof.
  induction s as [|c rest IH]; simpl; [done|].
  pose proof (split_nonempty rest) as Hne.
  destruct (Ascii.eqb_spec c sep) as [->|Hc];
    destruct (JS.split sep rest) as [|piece pieces]; try done.
  - simpl in *. by rewrite append_nil, IH.
  - destruct pieces as [|next pieces]; simpl in *; by rewrite <- IH.
Qed.

Lemma split_free (s : string) :
  Forall (fun piece => occurs sep piece = false) (JS.split sep s).
Proof.
  induction s as [|c rest IH]; simpl; [by constructor|].
  destruct (Ascii.eqb_spec c sep) as [->|Hc].
  - by constructor.
  - destruct (JS.split sep rest) as [|piece pieces]; simpl.
    + constructor; [|done]. simpl. by destruct (Ascii.eqb_spec c sep).
    + inversion_clear IH as [|? ? Hpiece Hpieces]. constructor; [|done].
      simpl. by destruct (Ascii.eqb_spec c sep).
Qed.

End Strings.

Lemma trimStart_spec (s : string) :
  exists before,
    s = before +:+ JS.trimStart s
    /\ allWhiteSpace before = true
    /\ forall c, firstUnit (JS.trimStart s) = Some c -> JS.isWhiteSpace c = false.
Proof.
  induction s as [|c rest (before & Heq & Hws & Hfirst)]; simpl.
  - exists EmptyString. by repeat split.
  - destruct (JS.isWhiteSpace c) eqn:Hc.
    + exists (String c before). split; [|split].
      * by rewrite append_cons, <- Heq.
      * simpl. by rewrite Hc, Hws.
      * exact Hfirst.
    + exists EmptyString. repeat split. simpl. by intros ? [= <-].
Qed.

Lemma trimEnd_spec (s : string) :
  exists after,
    s = JS.trimEnd s +:+ after
    /\ allWhiteSpace after = true
    /\ forall c, lastUnit (JS.trimEnd s) = Some c -> JS.isWhiteSpace c = false.
Proof.
  induction s as [|c rest (after & Heq & Hws & Hlast)]; simpl.
  - exists EmptyString. by repeat split.
  - destruct (JS.trimEnd rest) as [|k kept] eqn:Hrest.
    + rewrite append_nil in Heq. subst after. destruct (JS.isWhiteSpace c) eqn:Hc.
      * exists (String c rest). simpl. by rewrite Hc, Hws.
      * exists rest. repeat split; [done|]. simpl. by intros ? [= <-].
    + exists after. repeat split; [|done|exact Hlast].
      by rewrite append_cons, <- Heq.
Qed.

(** [trimEnd] keeps the first unit. *)
Lemma trimEnd_first (s : string) (c : ascii) :
  firstUnit (JS.trimEnd s) = Some c -> firstUnit s = Some c.
Proof.
  destruct s as [|x rest]; simpl; [done|].
  destruct (JS.trimEnd rest); [destruct (JS.isWhiteSpace x)|]; simpl; done.
Qed.

Lemma trim_spec (p : string) : trimOf p.
Proof.
  unfold trimOf, JS.trim.
  destruct (trimStart_spec p) as (before & Hbefore & Hws1 & Hfirst).
  destruct (trimEnd_spec (JS.trimStart p)) as (after & Hafter & Hws2 & Hlast).
  exists before, after. repeat split; try done.
  - by rewrite <- Hafter.
  - intros c Hc. apply Hfirst. by apply trimEnd_first.
Qed.

Lemma occurs_app (c : ascii) (a b : string) :
  occurs c (a +:+ b) = occurs c a || occurs c b.
Proof.
  induction a as [|x a IH]; [done|].
  rewrite append_cons. simpl. by rewrite IH, orb_assoc.
Qed.

Lemma trim_free (c : ascii) (p : string) :
  occurs c p = false -> occurs c (JS.trim p) = false.
Proof.
  destruct (trim_spec p) as (before & after & Heq & _).
  intros Hfree. rewrite Heq, !occurs_app in Hfree.
  by apply orb_false_elim in Hfree as [_ [? _]%orb_false_elim].
Qed.

(** ** The suggestion list *)

(** C6: [fetchSuggestions] turns a successful reply into the suggestion
    list by splitting it at the commas (the pieces, joined by commas, are
    the reply, and none holds a comma), trimming the white space around each
    piece, and dropping the pieces that are then empty; so every suggestion
    is non-empty, has no white space at either end and no comma.  The reply
    [calm, quiet, peaceful] gives [calm], [quiet], [peaceful]. *)
Theorem C6_suggestions_are_parsed reply word context provider st host net net' :
  WordSuggestions.parseWords "calm, quiet, peaceful" = ["calm"; "quiet"; "peaceful"]
  /\ (exists pieces,
        reply = JS.join "," pieces
        /\ Forall (fun piece => occurs "," piece = false) pieces
        /\ Forall trimOf pieces
        /\ WordSuggestions.parseWords reply
           = filter (fun w => w ≠ EmptyString) (JS.trim <$> pieces))
  /\ Forall (fun w => w ≠ EmptyString /\ trimmed w /\ occurs "," w = false)
            (WordSuggestions.parseWords reply)
  /\ (AIService.findSimilarWords word context provider host net =
        (Normal {| success := true; data := Some (VStr reply); error := None |}, net') ->
      reply ≠ EmptyString ->
      WordSuggestions.fetchSuggestions word context (Some provider) st host net =
        ({| WordSuggestions.suggestions := WordSuggestions.parseWords reply;
            WordSuggestions.loading := false;
            WordSuggestions.error := None |}, net')).
Proof.
  split; [reflexivity|]. split; [|split].
  - exists (JS.split "," reply). repeat split.
    + by rewrite join_split.
    + apply split_free.
    + apply Forall_forall. intros piece _. apply trim_spec.
  - unfold WordSuggestions.parseWords.
    apply Forall_forall. intros w [Hw Hin]%list_elem_of_filter.
    apply list_elem_of_fmap in Hin as (piece & -> & Hpiece).
    split; [done|]. split.
    + by destruct (trim_spec piece) as (? & ? & _ & _ & _ & ?).
    + apply trim_free.
      by apply (proj1 (Forall_forall _ _) (split_free "," reply)).
  - intros Hcall Hreply. unfold WordSuggestions.fetchSuggestions.
    rewrite Hcall. simpl.
    by destruct (String.eqb_spec reply EmptyString).
Qed.

Lemma C6_suggestions_are_parsed_witness :
  WordSuggestions.fetchSuggestions "serene" "a serene lake"
    (Some (sampleProvider AIProviderType.OPENAI "sk-1" "gpt-4"))
    {| WordSuggestions.suggestions := []; WordSuggestions.loading := true;
       WordSuggestions.error := None |}
    (respondingHost (openaiReply "calm, quiet, peaceful")) [] =
  ({| WordSuggestions.suggestions := WordSuggestions.parseWords "calm, quiet, peaceful";
      WordSuggestions.loading := false;
      WordSuggestions.error := None |},
   [requestOf VendorOpenAI (similarWordsPrompt "serene" "a serene lake")
              (sampleProvider AIProviderType.OPENAI "sk-1" "gpt-4")]).
Proof.
  refine (proj2 (proj2 (proj2
            (C6_suggestions_are_parsed "calm, quiet, peaceful" "serene" "a serene lake"
               (sampleProvider AIProviderType.OPENAI "sk-1" "gpt-4")
               {| WordSuggestions.suggestions := []; WordSuggestions.loading := true;
                  WordSuggestions.error := None |}
               (respondingHost (openaiReply "calm, quiet, peaceful")) []
               [requestOf VendorOpenAI (similarWordsPrompt "serene" "a serene lake")
                          (sampleProvider AIProviderType.OPENAI "sk-1" "gpt-4")])))
            eq_refl _).
  discriminate.
Defined.

(** ** Where the key is checked: the settings screen *)

Section Settings.

Import AISettingsScreen.

Lemma fmap_tag_inj (l : list AIProvider) (p q : AIProvider) :
  NoDup (type <$> l) -> p ∈ l -> q ∈ l -> type p = type q -> p = q.
Proof.
  induction l as [|a l IH]; intros Hnd Hp Hq Htag; [by apply elem_of_nil in Hp|].
  rewrite fmap_cons in Hnd. apply NoDup_cons in Hnd as [Hfresh Hnd].
  apply elem_of_cons in Hp as [->|Hp]; apply elem_of_cons in Hq as [->|Hq]; auto.
  - destruct Hfresh. rewrite Htag. by apply list_elem_of_fmap_2.
  - destruct Hfresh. rewrite <- Htag. by apply list_elem_of_fmap_2.
Qed.

Lemma find_elem_of (f : AIProvider -> bool) (l : list AIProvider) (p : AIProvider) :
  List.find f l = Some p -> p ∈ l /\ f p = true.
Proof.
  intros Hfind. apply List.find_some in Hfind as [Hin Hf].
  split; [by apply list_elem_of_In | done].
Qed.

(** A map that keeps every tag keeps the list of tags. *)
Lemma fmap_keeps_tags (g : AIProvider -> AIProvider) (l : list AIProvider) :
  (forall p, type (g p) = type p) -> type <$> (g <$> l) = type <$> l.
Proof.
  intros Hg. induction l as [|a l IH]; [done|].
  rewrite !fmap_cons, Hg. by f_equal.
Qed.

Lemma consistent_activate (tag : AIProviderType) (l : list AIProvider) (q : AIProvider) :
  consistent l ->
  List.find (fun p => String.eqb (type p) tag) l = Some q ->
  blank (apiKey q) = false ->
  consistent ((fun p => {| type := type p; apiKey := apiKey p; model := model p;
                           isActive := String.eqb (type p) tag |}) <$> l).
Proof.
  intros [Hnd Hactive] Hfind Hkey. split.
  - by rewrite fmap_keeps_tags.
  - intros p' (p & -> & Hp)%list_elem_of_fmap; simpl. intros Htag%String.eqb_eq.
    apply find_elem_of in Hfind as [Hq Hqtag%String.eqb_eq].
    by rewrite (fmap_tag_inj l p q Hnd Hp Hq) by congruence.
Qed.

Lemma consistent_replace (edited : AIProvider) (l : list AIProvider) :
  consistent l ->
  blank (apiKey edited) = false ->
  consistent ((fun p => if String.eqb (type p) (type edited) then edited else p) <$> l).
Proof.
  intros [Hnd Hactive] Hkey. split.
  - rewrite fmap_keeps_tags; [done|].
    intros p. by destruct (String.eqb_spec (type p) (type edited)).
  - intros p' (p & -> & Hp)%list_elem_of_fmap.
    destruct (String.eqb (type p) (type edited)); [done | by apply Hactive].
Qed.

(** The invariant reads three of the six cells only. *)
Lemma invariant_cells (st st' : State) :
  providers st' = providers st ->
  aiProviders st' = aiProviders st ->
  activeAIProvider st' = activeAIProvider st ->
  invariant st -> invariant st'.
Proof. unfold invariant. by intros -> -> ->. Qed.

Lemma saveProviders_invariant (updated : list AIProvider) (listStored activeStored : bool)
    (st : State) :
  invariant st -> consistent updated ->
  invariant (saveProviders updated listStored activeStored st).
Proof.
  intros Hinv Hupdated. unfold saveProviders.
  destruct listStored; [|done].
  destruct Hinv as (_ & _ & Hstored). unfold invariant; simpl.
  split; [done|]. split.
  - by intros saved [= <-].
  - intros p. destruct (List.find isActive updated) as [a|] eqn:Hfind; [|apply Hstored].
    destruct activeStored; [|apply Hstored].
    intros [= <-]. apply find_elem_of in Hfind as [Ha Hon].
    by apply Hupdated.
Qed.

Lemma defaultProviders_NoDup : NoDup (type <$> defaultProviders).
Proof.
  repeat (apply NoDup_cons; split; [rewrite ?elem_of_cons, elem_of_nil; intuition discriminate|]).
  apply NoDup_nil_2.
Qed.

Lemma defaultProviders_inactive (p : AIProvider) :
  p ∈ defaultProviders -> isActive p = false.
Proof.
  intros Hp. repeat (apply elem_of_cons in Hp as [->|Hp]; [done|]).
  by apply elem_of_nil in Hp.
Qed.

Lemma defaultProviders_consistent : consistent defaultProviders.
Proof.
  split; [apply defaultProviders_NoDup|].
  intros p Hp Hon. by rewrite (defaultProviders_inactive p Hp) in Hon.
Qed.

Lemma initialState_invariant : invariant initialState.
Proof.
  unfold invariant; simpl. split; [apply defaultProviders_consistent|]. by split.
Qed.

Lemma created_invariant (st : State) : invariant st -> invariant (created st).
Proof.
  intros (_ & Hsaved & Hstored). unfold invariant; simpl.
  split; [apply defaultProviders_consistent|]. by split.
Qed.

Lemma loadProviders_invariant (got : bool) (st : State) :
  invariant st -> invariant (loadProviders got st).
Proof.
  intros Hinv. unfold loadProviders. destruct got; [|done].
  destruct (aiProviders st) as [saved|] eqn:Hsaved; [|done].
  destruct Hinv as (_ & Hsave & Hstored).
  unfold invariant; simpl. split; [by apply Hsave|]. split; [|done].
  intros saved' Hsaved'. apply Hsave. by rewrite <- Hsaved'.
Qed.

Lemma handle_invariant (st : State) (ev : Event) :
  invariant st -> invariant (handle st ev).
Proof.
  intros Hinv. destruct ev; simpl.
  - by apply loadProviders_invariant, created_invariant.
  - by apply (invariant_cells st).
  - by apply (invariant_cells st).
  - by apply (invariant_cells st).
  - by apply (invariant_cells st).
  - unfold handleProviderSave.
    destruct (editingProvider st) as [edited|]; [|done].
    destruct (blank (apiKey edited)) eqn:Hkey; [by apply (invariant_cells st)|].
    set (updated := (fun p => if String.eqb (type p) (type edited) then edited else p)
                      <$> providers st).
    assert (Hsaved : invariant (saveProviders updated listStored activeStored st)).
    { apply saveProviders_invariant; [exact Hinv|].
      apply consistent_replace; [exact (proj1 Hinv) | done]. }
    by apply (invariant_cells (saveProviders updated listStored activeStored st)).
  - unfold handleSetActive.
    destruct (List.find _ (providers st)) as [q|] eqn:Hfind;
      [|by apply (invariant_cells st)].
    destruct (blank (apiKey q)) eqn:Hkey; [by apply (invariant_cells st)|].
    apply saveProviders_invariant; [done|].
    apply (consistent_activate tag _ q); [exact (proj1 Hinv) | done | done].
  - destruct Hinv as (Hlist & _ & _). unfold invariant; simpl.
    split; [done|]. split; intros ? [=].
Qed.

Lemma fold_invariant (events : list Event) (st : State) :
  invariant st -> invariant (fold_left handle events st).
Proof.
  revert st. induction events as [|ev events IH]; intros st Hinv; simpl; [done|].
  by apply IH, handle_invariant.
Qed.

(** Whatever is done on the screen, however often it is left and entered
    again, and whichever storage calls are rejected, the provider it stores
    as active (the one the consumers later hand to the facade) has an
    apiKey that is not blank, hence not the empty string. *)
Theorem stored_active_provider_has_key (events : list Event) (p : AIProvider) :
  activeAIProvider (run events) = Some p ->
  JS.trim (apiKey p) ≠ EmptyString /\ apiKey p ≠ EmptyString.
Proof.
  intros Hstored.
  destruct (fold_invariant events initialState initialState_invariant)
    as (_ & _ & Hkey).
  specialize (Hkey p Hstored). unfold blank in Hkey.
  apply String.eqb_neq in Hkey. split; [done|].
  intros Hempty. by rewrite Hempty in Hkey.
Qed.

Lemma stored_active_provider_has_key_witness :
  JS.trim "key-1" ≠ EmptyString /\ "key-1" ≠ EmptyString.
Proof.
  exact (stored_active_provider_has_key
           [Mounted true;
            ConfigurePressed {| type := AIProviderType.GEMINI; apiKey := EmptyString;
                                model := "gemini-pro"; isActive := false |};
            ApiKeyTyped "key-1"; SavePressed true true;
            ActivatePressed AIProviderType.GEMINI true true]
           {| type := AIProviderType.GEMINI; apiKey := "key-1";
              model := "gemini-pro"; isActive := true |}
           eq_refl).
Defined.

(** Activating a provider whose key is blank only raises the alert. *)
Example activate_without_key :
  run [Mounted true; ActivatePressed AIProviderType.OPENAI true true] =
  alert "Error" "Please configure the API key first" initialState.
Proof. reflexivity. Qed.

Example configure_then_activate :
  activeAIProvider
    (run [Mounted true;
          ConfigurePressed {| type := AIProviderType.GEMINI; apiKey := EmptyString;
                              model := "gemini-pro"; isActive := false |};
          ApiKeyTyped "key-1"; SavePressed true true;
          ActivatePressed AIProviderType.GEMINI true true]) =
  Some {| type := AIProviderType.GEMINI; apiKey := "key-1";
          model := "gemini-pro"; isActive := true |}.
Proof. reflexivity. Qed.

(** A screen entered again after the storage was cleared starts from the
    initial list: saving a key for one provider then stores no active
    provider, and the key of the provider active before is gone. *)
Example cleared_storage_stays_cleared :
  let after :=
    run [Mounted true;
         ConfigurePressed {| type := AIProviderType.GEMINI; apiKey := EmptyString;
                             model := "gemini-pro"; isActive := false |};
         ApiKeyTyped "key-1"; SavePressed true true;
         ActivatePressed AIProviderType.GEMINI true true;
         StorageCleared; Mounted true;
         ConfigurePressed {| type := AIProviderType.OPENAI; apiKey := EmptyString;
                             model := "gpt-3.5-turbo"; isActive := false |};
         ApiKeyTyped "sk-2"; SavePressed true true] in
  activeAIProvider after = None
  /\ aiProviders after
     = Some [ {| type := AIProviderType.OPENAI; apiKey := "sk-2";
                 model := "gpt-3.5-turbo"; isActive := false |};
              {| type := AIProviderType.GEMINI; apiKey := EmptyString;
                 model := "gemini-pro"; isActive := false |};
              {| type := AIProviderType.ANTHROPIC; apiKey := EmptyString;
                 model := "claude-3-sonnet-20240229"; isActive := false |} ].
Proof. by split. Qed.

(** When the second write is rejected the list is stored and shown with
    its new active entry while the stored active provider stays the old
    one. *)
Example rejected_second_write :
  let after :=
    run [Mounted true;
         ConfigurePressed {| type := AIProviderType.GEMINI; apiKey := EmptyString;
                             model := "gemini-pro"; isActive := false |};
         ApiKeyTyped "key-1"; SavePressed true true;
         ActivatePressed AIProviderType.GEMINI true false] in
  activeAIProvider after = None
  /\ providers after
     = [ {| type := AIProviderType.OPENAI; apiKey := EmptyString;
            model := "gpt-3.5-turbo"; isActive := false |};
         {| type := AIProviderType.GEMINI; apiKey := "key-1";
            model := "gemini-pro"; isActive := true |};
         {| type := AIProviderType.ANTHROPIC; apiKey := EmptyString;
            model := "claude-3-sonnet-20240229"; isActive := false |} ]
  /\ aiProviders after = Some (providers after).
Proof. by repeat split. Qed.

End Settings.

(** ** Further properties of the facade and its consumer *)

(** One lookup, one call: a dispatch to a tag without a service issues no
    request, and a dispatch to a registered tag issues exactly one. *)
Theorem one_request_per_dispatch task provider host net :
  (AIService.providers !! type provider = None
   /\ snd (dispatch task provider host net) = net)
  \/ (is_Some (AIService.providers !! type provider)
      /\ exists r, snd (dispatch task provider host net) = net ++ [r]).
Proof.
  destruct (dispatch_cases task provider host net) as [[Hnone ->]|(v & Htag & ->)].
  - by left.
  - right. split; [|by eexists]. rewrite Htag, providers_lookup. by eexists.
Qed.

(** For a registered tag each facade method is the method of the same name
    of the vendor's service, applied to the same arguments. *)
Theorem facade_delegates (v : Vendor) provider :
  type provider = tagOf v ->
  (forall text,
     AIService.simplifyText text provider
     = Service.simplifyText (serviceOf v) text provider)
  /\ (forall word context,
        AIService.findSimilarWords word context provider
        = Service.findSimilarWords (serviceOf v) word context provider)
  /\ (forall text,
        AIService.analyzeHardWords text provider
        = Service.analyzeHardWords (serviceOf v) text provider).
Proof.
  intros Htag.
  unfold AIService.simplifyText, AIService.findSimilarWords, AIService.analyzeHardWords.
  by rewrite Htag, providers_lookup.
Qed.

Lemma facade_delegates_witness :
  AIService.simplifyText "hi" (sampleProvider AIProviderType.ANTHROPIC "sk-ant-1" "claude-3")
  = AnthropicService.simplifyText "hi"
      (sampleProvider AIProviderType.ANTHROPIC "sk-ant-1" "claude-3").
Proof.
  exact (proj1 (facade_delegates VendorAnthropic
                  (sampleProvider AIProviderType.ANTHROPIC "sk-ant-1" "claude-3") eq_refl)
               "hi").
Defined.

(** [fetchSuggestions] always ends with [loading] cleared, and when it ends
    with an error message the suggestions are those it started with. *)
Theorem fetchSuggestions_settles word context provider st host net :
  WordSuggestions.loading
    (fst (WordSuggestions.fetchSuggestions word context provider st host net)) = false
  /\ (WordSuggestions.error
        (fst (WordSuggestions.fetchSuggestions word context provider st host net)) = None
      \/ WordSuggestions.suggestions
           (fst (WordSuggestions.fetchSuggestions word context provider st host net))
         = WordSuggestions.suggestions st).
Proof.
  unfold WordSuggestions.fetchSuggestions.
  destruct provider as [provider|]; [|by split; [|right]].
  destruct (AIService.findSimilarWords word context provider host net) as [[r|e] n];
    [|by split; [|right]].
  destruct (success r && JS.truthy (default VUndefined (data r)));
    [|by split; [|right]].
  destruct (data r) as [[]|]; simpl; split; auto.
Qed.

(** ** Substrings *)

Lemma length_append (a b : string) :
  String.length (a +:+ b) = String.length a + String.length b.
Proof.
  induction a as [|c a IH]; [done|].
  rewrite append_cons. simpl. by rewrite IH.
Qed.

Lemma headTo_length (n : nat) (s : string) :
  String.length (JS.headTo n s) = Nat.min n (String.length s).
Proof.
  revert s. induction n as [|n IH]; intros [|c s]; simpl; try done.
  by rewrite IH.
Qed.

Lemma tailFrom_length (n : nat) (s : string) :
  String.length (JS.tailFrom n s) = String.length s - n.
Proof.
  revert s. induction n as [|n IH]; intros [|c s]; simpl; done.
Qed.

Lemma headTo_tailFrom (n : nat) (s : string) : JS.headTo n s +:+ JS.tailFrom n s = s.
Proof.
  revert s. induction n as [|n IH]; intros [|c s]; simpl; try done.
  by rewrite append_cons, IH.
Qed.

Lemma headTo_all (n : nat) (s : string) : String.length s <= n -> JS.headTo n s = s.
Proof.
  revert s. induction n as [|n IH]; intros [|c s]; simpl; try done; try lia.
  intros Hlen. f_equal. apply IH. lia.
Qed.

Lemma tailFrom_add (a b : nat) (s : string) :
  JS.tailFrom (a + b) s = JS.tailFrom b (JS.tailFrom a s).
Proof.
  revert s. induction a as [|a IH]; intros [|c s]; simpl; try done.
  by destruct b.
Qed.

(** For [start <= finish], [substring] cuts [s] in three. *)
Lemma substring_cut (s : string) (start finish : nat) :
  start <= finish ->
  s = JS.headTo start s +:+ JS.substring s start finish +:+ JS.tailFrom finish s.
Proof.
  intros Hle. unfold JS.substring.
  rewrite Nat.max_r, Nat.min_l by lia.
  replace (JS.tailFrom finish s)
    with (JS.tailFrom (finish - start) (JS.tailFrom start s))
    by (rewrite <- tailFrom_add; f_equal; lia).
  by rewrite !headTo_tailFrom.
Qed.

Lemma substring_upto (s : string) (n : nat) : JS.substring s 0 n = JS.headTo n s.
Proof. unfold JS.substring. simpl. by rewrite Nat.sub_0_r. Qed.

(** ** The note card's preview *)

(** [getPreviewText] returns the content itself when that has at most
    [maxLength] units, and otherwise its first [maxLength] units followed
    by three dots: the preview never has more than [maxLength + 3] units
    and is cut only from content that had more to show. *)
Theorem preview_is_bounded_prefix (content : string) (maxLength : nat) :
  (String.length content <= maxLength
   /\ NoteCard.getPreviewText content maxLength = content)
  \/ (exists kept rest,
        content = kept +:+ rest
        /\ String.length kept = maxLength
        /\ rest ≠ EmptyString
        /\ NoteCard.getPreviewText content maxLength = kept +:+ "..."
        /\ String.length (NoteCard.getPreviewText content maxLength) = maxLength + 3).
Proof.
  unfold NoteCard.getPreviewText.
  destruct (Nat.leb_spec (String.length content) maxLength) as [Hshort|Hlong].
  - by left.
  - right. exists (JS.headTo maxLength content), (JS.tailFrom maxLength content).
    rewrite substring_upto, length_append, headTo_length, headTo_tailFrom.
    repeat split; try done; try (simpl; lia).
    intros Hrest.
    pose proof (tailFrom_length maxLength content) as Hlen.
    rewrite Hrest in Hlen. simpl in Hlen. lia.
Qed.

(** ** The note editor *)

Lemma split_single (sep : ascii) (s : string) :
  length (JS.split sep s) = 1 <-> occurs sep s = false.
Proof.
  induction s as [|c rest IH]; simpl; [done|].
  pose proof (split_nonempty sep rest) as Hne.
  destruct (Ascii.eqb_spec c sep) as [->|Hc]; simpl.
  - split; [|done]. destruct (JS.split sep rest); simpl; [done | lia].
  - destruct (JS.split sep rest) as [|piece pieces]; [done|]. exact IH.
Qed.

(** [handleSave] either raises the title alert, exactly when the title is
    blank, or hands [onSave] a note whose title is the trimmed, non-empty
    title, whose content is the editor's content unchanged, whose hard words
    are the words of the editor's list in order, and, when an existing note
    with a non-empty id is edited, whose id, creation date and tags are
    those of that note. *)
Theorem save_keeps_identity note generatedId firstDate secondDate (st : NoteEditor.State) :
  match NoteEditor.handleSave note generatedId firstDate secondDate st with
  | NoteEditor.Alerted heading message =>
      JS.trim (NoteEditor.title st) = EmptyString
      /\ heading = "Error" /\ message = "Please enter a title"
  | NoteEditor.Saved saved =>
      JS.trim (NoteEditor.title st) ≠ EmptyString
      /\ Note.title saved = JS.trim (NoteEditor.title st)
      /\ trimmed (Note.title saved)
      /\ Note.content saved = NoteEditor.content st
      /\ Note.hardWords saved = HardWord.word <$> NoteEditor.hardWords st
      /\ (forall old,
            note = Some old -> Note.id old ≠ EmptyString ->
            Note.id saved = Note.id old
            /\ Note.createdAt saved = Note.createdAt old
            /\ Note.tags saved = Note.tags old)
      /\ (note = None -> Note.id saved = generatedId /\ Note.tags saved = [])
  end.
Proof.
  unfold NoteEditor.handleSave.
  destruct (String.eqb_spec (JS.trim (NoteEditor.title st)) EmptyString) as [Hblank|Hkept].
  - done.
  - assert (Htrim : trimmed (JS.trim (NoteEditor.title st)))
      by (by destruct (trim_spec (NoteEditor.title st)) as (? & ? & _ & _ & _ & ?)).
    destruct note as [old|]; simpl;
      do 2 (split; [done|]); (split; [exact Htrim|]); do 2 (split; [done|]); split.
    + intros ? [= <-] Hid. split; [|done]. unfold JS.or_else.
      by destruct (String.eqb_spec (Note.id old) EmptyString).
    + intros [=].
    + intros ? [=].
    + done.
Qed.

(** Selecting [start, finish) with [start <= finish] inside the content and
    then picking a replacement puts the replacement exactly where the
    selection was: what came before and after the selection is kept, and
    picking the selected text itself gives the content back. *)
Theorem replace_selection (st : NoteEditor.State) (start finish : nat) (newText : string) :
  start <= finish ->
  finish <= String.length (NoteEditor.content st) ->
  exists before after,
    NoteEditor.content st
      = before +:+ NoteEditor.selectedText (NoteEditor.handleTextSelection start finish st)
          +:+ after
    /\ String.length before = start
    /\ String.length
         (NoteEditor.selectedText (NoteEditor.handleTextSelection start finish st))
       = finish - start
    /\ NoteEditor.content
         (NoteEditor.replaceSelectedText newText
            (NoteEditor.handleTextSelection start finish st))
       = before +:+ newText +:+ after
    /\ NoteEditor.content
         (NoteEditor.replaceSelectedText
            (NoteEditor.selectedText (NoteEditor.handleTextSelection start finish st))
            (NoteEditor.handleTextSelection start finish st))
       = NoteEditor.content st.
Proof.
  intros Hle Hin.
  set (s := NoteEditor.content st) in *.
  assert (Hsel : NoteEditor.selectedText (NoteEditor.handleTextSelection start finish st)
                 = JS.substring s start finish).
  { unfold NoteEditor.handleTextSelection.
    destruct (Nat.eqb_spec start finish) as [->|?]; simpl; [|done].
    unfold JS.substring. by rewrite Nat.max_id, Nat.min_id, Nat.sub_diag. }
  assert (Hcontent : forall new,
             NoteEditor.content
               (NoteEditor.replaceSelectedText new
                  (NoteEditor.handleTextSelection start finish st))
             = JS.headTo start s +:+ new +:+ JS.tailFrom finish s).
  { intros new. unfold NoteEditor.replaceSelectedText, NoteEditor.handleTextSelection.
    destruct (Nat.eqb_spec start finish); simpl; by rewrite substring_upto. }
  exists (JS.headTo start s), (JS.tailFrom finish s).
  rewrite Hsel, !Hcontent. repeat split.
  - by apply substring_cut.
  - rewrite headTo_length. lia.
  - unfold JS.substring. rewrite Nat.max_r, Nat.min_l by lia.
    rewrite headTo_length, tailFrom_length. lia.
  - symmetry. by apply substring_cut.
Qed.

Lemma replace_selection_witness :
  NoteEditor.content
    (NoteEditor.replaceSelectedText "hard"
       (NoteEditor.handleTextSelection 3 10
          {| NoteEditor.title := "t"; NoteEditor.content := "an arduous climb";
             NoteEditor.selectedText := EmptyString;
             NoteEditor.selectionStart := 0; NoteEditor.selectionEnd := 0;
             NoteEditor.showWordSuggestions := false; NoteEditor.hardWords := [];
             NoteEditor.showHardWordsAnalysis := false |}))
  = "an hard climb".
Proof.
  destruct (replace_selection
              {| NoteEditor.title := "t"; NoteEditor.content := "an arduous climb";
                 NoteEditor.selectedText := EmptyString;
                 NoteEditor.selectionStart := 0; NoteEditor.selectionEnd := 0;
                 NoteEditor.showWordSuggestions := false; NoteEditor.hardWords := [];
                 NoteEditor.showHardWordsAnalysis := false |}
              3 10 "hard" ltac:(lia) ltac:(simpl; lia))
    as (before & after & _ & _ & _ & _ & _).
  reflexivity.
Defined.

(** A selection change records the range; an empty range clears the
    selected text and closes the suggestions; a non-empty range opens them
    when the trimmed selection holds no space and otherwise leaves them as
    they were, so it never closes them. *)
Theorem selection_opens_suggestions (st : NoteEditor.State) (start finish : nat) :
  NoteEditor.selectionStart (NoteEditor.handleTextSelection start finish st) = start
  /\ NoteEditor.selectionEnd (NoteEditor.handleTextSelection start finish st) = finish
  /\ NoteEditor.content (NoteEditor.handleTextSelection start finish st)
     = NoteEditor.content st
  /\ (start = finish ->
      NoteEditor.selectedText (NoteEditor.handleTextSelection start finish st) = EmptyString
      /\ NoteEditor.showWordSuggestions (NoteEditor.handleTextSelection start finish st)
         = false)
  /\ (start ≠ finish ->
      NoteEditor.selectedText (NoteEditor.handleTextSelection start finish st)
      = JS.substring (NoteEditor.content st) start finish
      /\ NoteEditor.showWordSuggestions (NoteEditor.handleTextSelection start finish st)
         = (if occurs " " (JS.trim (JS.substring (NoteEditor.content st) start finish))
            then NoteEditor.showWordSuggestions st else true)
      /\ (NoteEditor.showWordSuggestions st = true ->
          NoteEditor.showWordSuggestions (NoteEditor.handleTextSelection start finish st)
          = true)).
Proof.
  unfold NoteEditor.handleTextSelection.
  destruct (Nat.eqb_spec start finish) as [Heq|Hne]; simpl; repeat split; try done.
  - destruct (Nat.eqb_spec
                (length (JS.split " " (JS.trim (JS.substring (NoteEditor.content st)
                                                  start finish)))) 1) as [H1|H1].
    + apply split_single in H1. by rewrite H1.
    + destruct (occurs " " _) eqn:Hocc; [done|].
      by apply split_single in Hocc.
  - intros Hshown. rewrite Hshown. by destruct (_ =? _)%nat.
Qed.

(** ** The settings screen under the events it offers *)

Section Gated.

Import AISettingsScreen.


















End Gated.

(** ** The database service *)

Section Database.

Import DatabaseService.

Variable device : Device.

Lemma executeSql_unopened (log : list Statement) (statement : Statement) :
  executeSql statement device {| db := None; executed := log |} =
  (Throw (ErrorInstance (typeErrorText device VNull (KName "executeSql"))),
   {| db := None; executed := log |}).
Proof. reflexivity. Qed.

(** On an opened service a statement reaches SQLite and is logged. *)
Lemma executeSql_opened (connection : SQLiteDatabase) (log : list Statement)
    (statement : Statement) :
  executeSql statement device {| db := Some connection; executed := log |} =
  (SQLite_executeSql device log statement,
   {| db := Some connection; executed := log ++ [statement] |}).
Proof. reflexivity. Qed.

(** What a statement leaves behind, whatever the state. *)
Lemma executeSql_log (statement : Statement) (st : State) :
  (db st = None /\ snd (executeSql statement device st) = st
   /\ exists e, fst (executeSql statement device st) = Throw e)
  \/ (is_Some (db st)
      /\ snd (executeSql statement device st)
         = {| db := db st; executed := executed st ++ [statement] |}).
Proof.
  unfold executeSql. destruct (db st) eqn:Hdb.
  - right. by split.
  - left. split; [done|]. split; [done | by eexists].
Qed.

(** [executeEach] on an opened service: the statements executed are a
    prefix of the queries, all of them when it returns. *)
Lemma executeEach_opened (queries : list string) (connection : SQLiteDatabase)
    (log : list Statement) :
  exists issued,
    snd (executeEach queries device {| db := Some connection; executed := log |})
    = {| db := Some connection; executed := log ++ issued |}
    /\ issued `prefix_of` ((fun q => {| sql := q; params := [] |}) <$> queries)
    /\ (forall r,
          fst (executeEach queries device {| db := Some connection; executed := log |})
          = Normal r ->
          issued = (fun q => {| sql := q; params := [] |}) <$> queries).
Proof.
  revert log. induction queries as [|query rest IH]; intros log; simpl.
  - exists []. unfold pure; simpl. by rewrite app_nil_r.
  - unfold andThen. rewrite executeSql_opened.
    destruct (SQLite_executeSql device log _) as [rows|e].
    + destruct (IH (log ++ [ {| sql := query; params := [] |} ]))
        as (issued & Hsnd & Hprefix & Hall).
      exists ({| sql := query; params := [] |} :: issued).
      rewrite Hsnd, <- app_assoc. split; [done|]. split.
      * apply prefix_cons. exact Hprefix.
      * intros r Hr. f_equal. by apply (Hall r).
    + exists [ {| sql := query; params := [] |} ].
      simpl. split; [done|]. split.
      * apply prefix_cons, prefix_nil.
      * done.
Qed.

Lemma initializeDatabase_eq (st : State) :
  initializeDatabase device st =
  match SQLite_openDatabase device (executed st) with
  | Normal connection =>
      createTables device {| db := Some connection; executed := executed st |}
  | Throw e => (Throw e, st)
  end.
Proof.
  unfold initializeDatabase, tryCatch. unfold andThen at 1. unfold openDatabase, raise.
  destruct (SQLite_openDatabase device (executed st)) as [connection|e]; [|done].
  by destruct (createTables device _) as [[|] ?].
Qed.

(** [initializeDatabase] hands SQLite nothing but the statements of
    [createTables], in their order and stopping at the first that fails;
    when it returns, all three ran and [db] holds the connection; when the
    database does not open, nothing ran and the service is as before. *)
Theorem initialize_only_creates (st : State) :
  exists issued,
    executed (snd (initializeDatabase device st)) = executed st ++ issued
    /\ issued `prefix_of` creates
    /\ (fst (initializeDatabase device st) = Normal tt ->
        issued = creates /\ is_Some (db (snd (initializeDatabase device st))))
    /\ (forall e,
          SQLite_openDatabase device (executed st) = Throw e ->
          initializeDatabase device st = (Throw e, st)).
Proof.
  rewrite initializeDatabase_eq.
  destruct (SQLite_openDatabase device (executed st)) as [connection|e] eqn:Hopen.
  - destruct (executeEach_opened
                [createNotes; createHardWordsHistory; createAIProviders]
                connection (executed st)) as (issued & Hsnd & Hprefix & Hall).
    fold createTables in Hsnd, Hall. exists issued. rewrite Hsnd. simpl.
    split; [done|]. split; [done|]. split; [|done].
    intros Hok. split; [by apply (Hall tt) | by eexists].
  - exists []. simpl. rewrite app_nil_r.
    split; [done|]. split; [apply prefix_nil|]. split; [done|].
    by intros ? [= <-].
Qed.

Local Abbreviation stateless := (DatabaseService.stateless device).

Lemma stateless_pure {A : Type} (a : A) : stateless (pure a).
Proof. by exists (Normal a). Qed.

Lemma stateless_lift {A : Type} (c : Device -> completion A) : stateless (lift c).
Proof. by exists (c device). Qed.

Lemma stateless_andThen {A B : Type} (m : Sql A) (k : A -> Sql B) :
  stateless m -> (forall a, stateless (k a)) -> stateless (andThen m k).
Proof.
  intros [[a|e] Hm] Hk.
  - destruct (Hk a) as [c Hc]. exists c. intros st. unfold andThen. by rewrite Hm, Hc.
  - exists (Throw e). intros st. unfold andThen. by rewrite Hm.
Qed.

Lemma stateless_noteOfRow (row : value) : stateless (noteOfRow row).
Proof.
  unfold noteOfRow, field.
  repeat (apply stateless_andThen; [apply stateless_lift | intros ?]).
  apply stateless_pure.
Qed.

Lemma stateless_eachRow {A : Type} (build : value -> Sql A) (rows : list value) :
  (forall row, stateless (build row)) -> stateless (eachRow build rows).
Proof.
  intros Hbuild. induction rows as [|row rest IH]; simpl.
  - apply stateless_pure.
  - apply stateless_andThen; [apply Hbuild | intros ?].
    apply stateless_andThen; [apply IH | intros ?]. apply stateless_pure.
Qed.

(** One row that cannot be built makes the whole loop throw. *)
Lemma eachRow_throws {A : Type} (build : value -> Sql A) (rows : list value) (bad : value) :
  (forall row, stateless (build row)) ->
  bad ∈ rows ->
  (exists e, forall st, build bad device st = (Throw e, st)) ->
  exists e, forall st, eachRow build rows device st = (Throw e, st).
Proof.
  intros Hbuild Hbad [e He]. induction rows as [|row rest IH]; [by apply elem_of_nil in Hbad|].
  simpl. destruct (Hbuild row) as [[built|e'] Hrow].
  - apply elem_of_cons in Hbad as [->|Hbad].
    + exists e. intros st. unfold andThen. by rewrite He.
    + destruct (IH Hbad) as [e'' Hrest]. exists e''. intros st.
      unfold andThen. by rewrite Hrow, Hrest.
  - exists e'. intros st. unfold andThen. by rewrite Hrow.
Qed.

(** A row whose [hard_words] column holds something truthy that
    [JSON.parse] rejects cannot be built. *)
Lemma noteOfRow_bad_hard_words (row text : value) (e : thrown) :
  JS.get row (KName "hard_words") = Some text ->
  JS.truthy text = true ->
  JSON_parse device text = Throw e ->
  forall st, noteOfRow row device st = (Throw e, st).
Proof.
  intros Hget Htruthy Hparse st.
  assert (Hread : forall name, exists v, readOn device row (KName name) = Normal v).
  { intros name. unfold readOn. destruct row; simpl in *; try done; by eexists. }
  unfold noteOfRow, field, lift, andThen.
  destruct (Hread "id") as [? ->]. destruct (Hread "title") as [? ->].
  destruct (Hread "content") as [? ->]. destruct (Hread "created_at") as [? ->].
  destruct (Hread "updated_at") as [? ->].
  unfold readOn at 1. rewrite Hget. unfold valueOr. by rewrite Htruthy, Hparse.
Qed.

End Database.

(** ** The home screen *)

Section Home.

Variable device : Device.

Lemma getAllNotes_unopened (log : list Statement) :
  DatabaseService.getAllNotes device {| DatabaseService.db := None;
                                        DatabaseService.executed := log |} =
  (Throw (ErrorInstance (typeErrorText device VNull (KName "executeSql"))),
   {| DatabaseService.db := None; DatabaseService.executed := log |}).
Proof. reflexivity. Qed.

(** The mount effect on a service that has not been opened yet (as the
    module creates it): the load fails before anything reaches SQLite, so
    the notes stay as they were, [loading] is cleared and the first alert
    is the one of the failed load; the database is initialized only after
    that, and all the mount hands to SQLite are statements of
    [createTables]. *)
Theorem first_mount_fails_to_load (st : HomeScreen.State) (log : list Statement) :
  HomeScreen.notes
    (fst (HomeScreen.mount device st
            {| DatabaseService.db := None; DatabaseService.executed := log |}))
  = HomeScreen.notes st
  /\ HomeScreen.loading
       (fst (HomeScreen.mount device st
               {| DatabaseService.db := None; DatabaseService.executed := log |}))
     = false
  /\ (exists later,
        HomeScreen.alerts
          (fst (HomeScreen.mount device st
                  {| DatabaseService.db := None; DatabaseService.executed := log |}))
        = HomeScreen.alerts st ++ ("Error", "Failed to load notes") :: later)
  /\ (exists issued,
        DatabaseService.executed
          (snd (HomeScreen.mount device st
                  {| DatabaseService.db := None; DatabaseService.executed := log |}))
        = log ++ issued
        /\ issued `prefix_of` creates).
Proof.
  unfold HomeScreen.mount, HomeScreen.loadNotes. rewrite getAllNotes_unopened.
  unfold HomeScreen.initializeDatabase.
  destruct (initialize_only_creates device
              {| DatabaseService.db := None; DatabaseService.executed := log |})
    as (issued & Hlog & Hprefix & _).
  destruct (DatabaseService.initializeDatabase device _) as [[[]|e] service'];
    simpl in *.
  - split; [done|]. split; [done|]. split; [by exists [] | by exists issued].
  - split; [done|]. split; [done|]. split; [|by exists issued].
    rewrite <- app_assoc. by eexists.
Qed.

(** A load changes the notes only when it succeeds, and then raises no
    alert; a load that fails keeps the notes and raises the alert.  Either
    way [loading] ends cleared. *)
Lemma loadNotes_cases (st : HomeScreen.State) (service : DatabaseService.State) :
  HomeScreen.loading (fst (HomeScreen.loadNotes device st service)) = false
  /\ ((exists loaded,
         fst (DatabaseService.getAllNotes device service) = Normal loaded
         /\ HomeScreen.notes (fst (HomeScreen.loadNotes device st service)) = loaded
         /\ HomeScreen.alerts (fst (HomeScreen.loadNotes device st service))
            = HomeScreen.alerts st)
      \/ (HomeScreen.notes (fst (HomeScreen.loadNotes device st service))
          = HomeScreen.notes st
          /\ HomeScreen.alerts (fst (HomeScreen.loadNotes device st service))
             = HomeScreen.alerts st ++ [("Error", "Failed to load notes")])).
Proof.
  unfold HomeScreen.loadNotes.
  destruct (DatabaseService.getAllNotes device service) as [[loaded|e] service']; simpl.
  - split; [done|]. left. by exists loaded.
  - split; [done|]. by right.
Qed.

(** Loading is all or nothing: when one of the returned rows has a
    [hard_words] column that [JSON.parse] rejects, no note of that load is
    shown; the notes stay as they were and the load alert is raised. *)
Theorem load_is_all_or_nothing (st : HomeScreen.State) (connection : SQLiteDatabase)
    (log : list Statement) (rows : list value) (bad text : value) (e : thrown) :
  SQLite_executeSql device log DatabaseService.selectNotes = Normal rows ->
  bad ∈ rows ->
  JS.get bad (KName "hard_words") = Some text ->
  JS.truthy text = true ->
  JSON_parse device text = Throw e ->
  HomeScreen.loadNotes device st
    {| DatabaseService.db := Some connection; DatabaseService.executed := log |}
  = ({| HomeScreen.notes := HomeScreen.notes st;
        HomeScreen.loading := false;
        HomeScreen.alerts := HomeScreen.alerts st ++ [("Error", "Failed to load notes")] |},
     {| DatabaseService.db := Some connection;
        DatabaseService.executed := log ++ [DatabaseService.selectNotes] |}).
Proof.
  intros Hrows Hbad Hget Htruthy Hparse.
  destruct (eachRow_throws device DatabaseService.noteOfRow rows bad
              (stateless_noteOfRow device) Hbad) as [e' Hthrow].
  { exists e. by apply (noteOfRow_bad_hard_words device bad text). }
  unfold HomeScreen.loadNotes, DatabaseService.getAllNotes.
  unfold DatabaseService.andThen at 1.
  by rewrite executeSql_opened, Hrows, Hthrow.
Qed.

Lemma deleteNote_opened (noteId : value) (connection : SQLiteDatabase)
    (log : list Statement) :
  DatabaseService.deleteNote noteId device
    {| DatabaseService.db := Some connection; DatabaseService.executed := log |}
  = (match SQLite_executeSql device log
             {| sql := "DELETE FROM notes WHERE id = ?"; params := [noteId] |} with
     | Normal _ => Normal tt
     | Throw e => Throw e
     end,
     {| DatabaseService.db := Some connection;
        DatabaseService.executed :=
          log ++ [ {| sql := "DELETE FROM notes WHERE id = ?"; params := [noteId] |} ] |}).
Proof.
  unfold DatabaseService.deleteNote, DatabaseService.andThen.
  rewrite executeSql_opened. by destruct (SQLite_executeSql device log _).
Qed.

Lemma getAllNotes_opened_log (connection : SQLiteDatabase) (log : list Statement) :
  snd (DatabaseService.getAllNotes device
         {| DatabaseService.db := Some connection; DatabaseService.executed := log |})
  = {| DatabaseService.db := Some connection;
       DatabaseService.executed := log ++ [DatabaseService.selectNotes] |}.
Proof.
  unfold DatabaseService.getAllNotes. unfold DatabaseService.andThen at 1.
  rewrite executeSql_opened.
  destruct (SQLite_executeSql device log DatabaseService.selectNotes) as [rows|e]; [|done].
  destruct (stateless_eachRow device DatabaseService.noteOfRow rows
              (stateless_noteOfRow device)) as [c Hrows].
  by rewrite Hrows.
Qed.

Lemma loadNotes_log (st : HomeScreen.State) (service : DatabaseService.State) :
  snd (HomeScreen.loadNotes device st service)
  = snd (DatabaseService.getAllNotes device service).
Proof.
  unfold HomeScreen.loadNotes.
  by destruct (DatabaseService.getAllNotes device service) as [[|] ?].
Qed.

(** The Delete button reloads only after the delete went through.  A
    delete that throws (the service is not opened, or SQLite rejects the
    statement) raises the delete alert, leaves notes and [loading] as they
    were, and nothing follows it.  After a delete that returns, exactly one
    more statement is executed, the query of the reload, so the reload sees
    the delete, and the screen ends as that load leaves it. *)
Theorem delete_then_reload (noteId : value) (st : HomeScreen.State)
    (service : DatabaseService.State) :
  (forall e,
     fst (DatabaseService.deleteNote noteId device service) = Throw e ->
     HomeScreen.confirmDelete noteId device st service
     = ({| HomeScreen.notes := HomeScreen.notes st;
           HomeScreen.loading := HomeScreen.loading st;
           HomeScreen.alerts :=
             HomeScreen.alerts st ++ [("Error", "Failed to delete note")] |},
        snd (DatabaseService.deleteNote noteId device service)))
  /\ (fst (DatabaseService.deleteNote noteId device service) = Normal tt ->
      HomeScreen.confirmDelete noteId device st service
      = HomeScreen.loadNotes device st
          (snd (DatabaseService.deleteNote noteId device service))
      /\ DatabaseService.executed
           (snd (HomeScreen.confirmDelete noteId device st service))
         = DatabaseService.executed service
           ++ [ {| sql := "DELETE FROM notes WHERE id = ?"; params := [noteId] |};
                DatabaseService.selectNotes ]).
Proof.
  unfold HomeScreen.confirmDelete.
  destruct service as [[connection|] log].
  - rewrite deleteNote_opened.
    destruct (SQLite_executeSql device log _) as [rows|e]; simpl.
    + split; [done|]. intros _. split; [done|].
      by rewrite loadNotes_log, getAllNotes_opened_log, <- app_assoc.
    + split; [|done]. by intros ? [= <-].
  - split; [|done]. by intros ? [= <-].
Qed.

End Home.

(** ** Delete All in the settings *)

(** The Delete All button hands SQLite nothing but statements of
    [createTables]: no statement that deletes a note or drops a table.  It
    calls [AsyncStorage.clear()] only after the database initialization
    returned, and reports success and navigates back only when the clearing
    returned as well; in every other case it raises the error alert. *)
Theorem clear_all_data_keeps_notes (device : Device) (st : SettingsScreen.State)
    (service : DatabaseService.State) :
  (exists issued,
     DatabaseService.executed (snd (SettingsScreen.confirmClearAllData device st service))
     = DatabaseService.executed service ++ issued
     /\ issued `prefix_of` creates)
  /\ (SettingsScreen.clearCalled st = false ->
      SettingsScreen.clearCalled
        (fst (SettingsScreen.confirmClearAllData device st service)) = true ->
      fst (DatabaseService.initializeDatabase device service) = Normal tt)
  /\ ((fst (DatabaseService.initializeDatabase device service) = Normal tt
       /\ AsyncStorage_clear device = Normal tt
       /\ SettingsScreen.alerts (fst (SettingsScreen.confirmClearAllData device st service))
          = SettingsScreen.alerts st ++ [("Success", "All data has been cleared")]
       /\ SettingsScreen.wentBack
            (fst (SettingsScreen.confirmClearAllData device st service)) = true)
      \/ (SettingsScreen.alerts (fst (SettingsScreen.confirmClearAllData device st service))
          = SettingsScreen.alerts st ++ [("Error", "Failed to clear data")]
          /\ SettingsScreen.wentBack
               (fst (SettingsScreen.confirmClearAllData device st service))
             = SettingsScreen.wentBack st)).
Proof.
  destruct (initialize_only_creates device service) as (issued & Hlog & Hprefix & _).
  unfold SettingsScreen.confirmClearAllData.
  destruct (DatabaseService.initializeDatabase device service) as [[[]|e] service'];
    simpl in *.
  - destruct (AsyncStorage_clear device) as [[]|e]; simpl.
    + split; [by exists issued|]. split; [done|]. by left.
    + split; [by exists issued|]. split; [done|]. by right.
  - split; [by exists issued|]. split; [congruence|]. by right.
Qed.

Lemma load_is_all_or_nothing_witness :
  HomeScreen.loadNotes
    (sampleDevice [VObj [("id", VStr "1"); ("hard_words", VStr "[]")];
                   VObj [("id", VStr "2"); ("hard_words", VStr "oops")]])
    HomeScreen.initialState
    {| DatabaseService.db := Some Connection; DatabaseService.executed := [] |}
  = ({| HomeScreen.notes := []; HomeScreen.loading := false;
        HomeScreen.alerts := [("Error", "Failed to load notes")] |},
     {| DatabaseService.db := Some Connection;
        DatabaseService.executed := [DatabaseService.selectNotes] |}).
Proof.
  refine (load_is_all_or_nothing
            (sampleDevice [VObj [("id", VStr "1"); ("hard_words", VStr "[]")];
                           VObj [("id", VStr "2"); ("hard_words", VStr "oops")]])
            HomeScreen.initialState Connection []
            [VObj [("id", VStr "1"); ("hard_words", VStr "[]")];
             VObj [("id", VStr "2"); ("hard_words", VStr "oops")]]
            (VObj [("id", VStr "2"); ("hard_words", VStr "oops")])
            (VStr "oops") (ErrorInstance "Unexpected token")
            eq_refl _ eq_refl eq_refl eq_refl).
  apply elem_of_cons. right. apply elem_of_cons. by left.
Defined.

(** ** Searching a string *)

Lemma prefix_append (needle t : string) :
  String.prefix needle t = true <-> exists after, t = needle +:+ after.
Proof.
  revert t. induction needle as [|c needle IH]; intros t.
  - split; [by exists t | by destruct t].
  - destruct t as [|d t]; simpl.
    + split; [done | by intros [? ?]].
    + destruct (ascii_dec c d) as [->|Hcd].
      * rewrite IH. split; intros [after Hafter]; exists after.
        -- by rewrite append_cons, Hafter.
        -- rewrite append_cons in Hafter. by injection Hafter.
      * split; [done|]. intros [after Hafter].
        rewrite append_cons in Hafter. by injection Hafter.
Qed.

Lemma tailFrom_app_length (before rest : string) :
  JS.tailFrom (String.length before) (before +:+ rest) = rest.
Proof. induction before as [|c before IH]; [by destruct rest | done]. Qed.

Lemma occursAt_prefix (needle s : string) (i : nat) :
  occursAt needle s i <->
  i <= String.length s /\ String.prefix needle (JS.tailFrom i s) = true.
Proof.
  split.
  - intros (before & after & -> & <-). split.
    + rewrite length_append. lia.
    + rewrite tailFrom_app_length. apply prefix_append. by exists after.
  - intros [Hle [after Hafter]%prefix_append].
    exists (JS.headTo i s), after. split.
    + by rewrite <- Hafter, headTo_tailFrom.
    + rewrite headTo_length. lia.
Qed.

Lemma occursAt_cons (needle : string) (c : ascii) (s : string) (i : nat) :
  occursAt needle (String c s) (S i) <-> occursAt needle s i.
Proof. rewrite !occursAt_prefix. simpl. split; intros [? ?]; split; auto with lia. Qed.

Lemma indexOfFrom_eq (needle s : string) (from : nat) :
  JS.indexOfFrom needle s from =
  if String.prefix needle s then Z.of_nat from
  else match s with
       | EmptyString => (-1)%Z
       | String _ rest => JS.indexOfFrom needle rest (S from)
       end.
Proof. by destruct s. Qed.

Lemma indexOfFrom_spec (needle s : string) (from : nat) :
  (JS.indexOfFrom needle s from = (-1)%Z /\ forall i, ~ occursAt needle s i)
  \/ (exists i, JS.indexOfFrom needle s from = Z.of_nat (from + i)
                 /\ occursAt needle s i
                 /\ forall j, j < i -> ~ occursAt needle s j).
Proof.
  revert from. induction s as [|c s IH]; intros from; rewrite indexOfFrom_eq.
  - destruct (String.prefix needle EmptyString) eqn:Hp.
    + right. exists 0. rewrite Nat.add_0_r. split; [done|]. split; [|intros j Hj; lia].
      apply occursAt_prefix. split; [simpl; lia | done].
    + left. split; [done|]. intros i [Hle Hi]%occursAt_prefix.
      simpl in Hle. assert (i = 0) as -> by lia.
      change (String.prefix needle EmptyString = true) in Hi. congruence.
  - destruct (String.prefix needle (String c s)) eqn:Hp.
    + right. exists 0. rewrite Nat.add_0_r. split; [done|]. split; [|intros j Hj; lia].
      apply occursAt_prefix. split; [simpl; lia | done].
    + assert (H0 : ~ occursAt needle (String c s) 0).
      { intros [_ H0]%occursAt_prefix.
        change (String.prefix needle (String c s) = true) in H0. congruence. }
      destruct (IH (S from)) as [[Hnone Hno]|(i & Hi & Hocc & Hfirst)].
      * left. split; [done|]. intros [|i]; [done|]. rewrite occursAt_cons. apply Hno.
      * right. exists (S i). split; [rewrite Hi; f_equal; lia|]. split.
        -- by apply occursAt_cons.
        -- intros [|j] Hj; [done|]. rewrite occursAt_cons. apply Hfirst. lia.
Qed.

Lemma indexOf_spec (text w : string) : firstOccurrence w text (JS.indexOf text w).
Proof.
  unfold firstOccurrence, JS.indexOf.
  destruct (indexOfFrom_spec w text 0) as [?|(i & Hi & ?)]; [by left|].
  right. by exists i.
Qed.

(** ** The hard words analyzer *)

Section Analyzer.

Variable device : Device.

Lemma hardWordsOf_spec (text : string) (words : list value) (hardWords : list HardWord.t) :
  HardWordsAnalyzer.hardWordsOf device text words = Some hardWords ->
  length hardWords = length words
  /\ Forall (fun h =>
               HardWord.difficulty h = 1%Z
               /\ forall w, HardWord.word h = VStr w ->
                            firstOccurrence w text (HardWord.position h))
            hardWords.
Proof.
  revert hardWords. induction words as [|word rest IH]; intros hardWords; simpl.
  - intros [= <-]. by split.
  - unfold HardWordsAnalyzer.hardWordOf.
    destruct (JS.get word (KName "word")) as [w|]; [|done].
    destruct (toString device w) as [searchString|] eqn:Hstring; [|done].
    destruct (HardWordsAnalyzer.hardWordsOf device text rest) as [others|]; [|done].
    intros [= <-]. destruct (IH others eq_refl) as [Hlen Hall]. split; [simpl; lia|].
    constructor; [|done]. simpl. split; [done|].
    intros w' ->. simpl in Hstring. injection Hstring as <-. apply indexOf_spec.
Qed.

(** A word that cannot be converted to a string stops the conversion of
    the whole list. *)
Lemma hardWordsOf_unconvertible (text : string) (words : list value) (word w : value) :
  word ∈ words ->
  JS.get word (KName "word") = Some w ->
  toString device w = None ->
  HardWordsAnalyzer.hardWordsOf device text words = None.
Proof.
  intros Hin Hget Hstring. induction words as [|first rest IH]; [by apply elem_of_nil in Hin|].
  simpl. apply elem_of_cons in Hin as [<-|Hin].
  - unfold HardWordsAnalyzer.hardWordOf. by rewrite Hget, Hstring.
  - rewrite (IH Hin). by destruct (HardWordsAnalyzer.hardWordOf device text first).
Qed.

(** Then the inner [catch] reports it as a parse failure; the analyzed
    words were set before. *)
Lemma useReply_unconvertible (text : string) (reply parsed : value) (words : list value)
    (word w : value) (st : HardWordsAnalyzer.State) :
  JSON_parse device reply = Normal parsed ->
  JS.get parsed (KName "hardWords") = Some (VArr words) ->
  word ∈ words ->
  JS.get word (KName "word") = Some w ->
  toString device w = None ->
  HardWordsAnalyzer.useReply device text reply st
  = {| HardWordsAnalyzer.loading := false;
       HardWordsAnalyzer.error := Some "Failed to parse AI response";
       HardWordsAnalyzer.analyzedWords := words;
       HardWordsAnalyzer.found := HardWordsAnalyzer.found st;
       HardWordsAnalyzer.replaced := HardWordsAnalyzer.replaced st;
       HardWordsAnalyzer.alerts := HardWordsAnalyzer.alerts st;
       HardWordsAnalyzer.faulted := HardWordsAnalyzer.faulted st |}.
Proof.
  intros Hparse Hwords Hin Hget Hstring. unfold HardWordsAnalyzer.useReply.
  by rewrite Hparse, Hwords, (hardWordsOf_unconvertible text words word w).
Qed.

(** How the inner [try] ends. *)
Lemma useReply_outcomes (text : string) (reply : value) (st : HardWordsAnalyzer.State) :
  HardWordsAnalyzer.loading (HardWordsAnalyzer.useReply device text reply st) = false
  /\ HardWordsAnalyzer.replaced (HardWordsAnalyzer.useReply device text reply st)
     = HardWordsAnalyzer.replaced st
  /\ HardWordsAnalyzer.alerts (HardWordsAnalyzer.useReply device text reply st)
     = HardWordsAnalyzer.alerts st
  /\ HardWordsAnalyzer.faulted (HardWordsAnalyzer.useReply device text reply st)
     = HardWordsAnalyzer.faulted st
  /\ ((HardWordsAnalyzer.error (HardWordsAnalyzer.useReply device text reply st)
       = Some "Failed to parse AI response"
       /\ HardWordsAnalyzer.found (HardWordsAnalyzer.useReply device text reply st)
          = HardWordsAnalyzer.found st)
      \/ (HardWordsAnalyzer.error (HardWordsAnalyzer.useReply device text reply st) = None
          /\ HardWordsAnalyzer.found (HardWordsAnalyzer.useReply device text reply st)
             = HardWordsAnalyzer.found st
          /\ HardWordsAnalyzer.analyzedWords (HardWordsAnalyzer.useReply device text reply st)
             = HardWordsAnalyzer.analyzedWords st)
      \/ (HardWordsAnalyzer.error (HardWordsAnalyzer.useReply device text reply st) = None
          /\ exists hardWords,
               HardWordsAnalyzer.found (HardWordsAnalyzer.useReply device text reply st)
               = HardWordsAnalyzer.found st ++ [hardWords]
               /\ HardWordsAnalyzer.hardWordsOf device text
                    (HardWordsAnalyzer.analyzedWords
                       (HardWordsAnalyzer.useReply device text reply st))
                  = Some hardWords)).
Proof.
  unfold HardWordsAnalyzer.useReply, HardWordsAnalyzer.withError.
  destruct (JSON_parse device reply) as [parsed|e]; [|simpl; by auto 10].
  destruct (JS.get parsed (KName "hardWords")) as [[| | | | |words|]|];
    simpl; try by auto 10.
  destruct (HardWordsAnalyzer.hardWordsOf device text words) as [hardWords|] eqn:Hwords;
    simpl; [|by auto 10].
  do 4 (split; [done|]). right. right. split; [done|]. by exists hardWords.
Qed.

(** However [analyzeText] ends, [loading] is cleared and nothing but
    [error], [analyzedWords] and the report to the parent has changed, and
    it ends in one of three ways.  With an error message, and then nothing
    was reported to the parent.  Without a message and without a report,
    the analyzed words left as they were: the reply parsed as JSON but held
    no [hardWords] array.  Or without a message and with one report, which
    has one hard word per analyzed word, each of difficulty 1 and, when its
    word is a string, positioned at the first occurrence of that string in
    the text, or at -1 when the text does not contain it. *)
Theorem analyzeText_outcomes (text : string) (provider : option AIProvider)
    (st : HardWordsAnalyzer.State) (host : Host) (net : Network) :
  HardWordsAnalyzer.loading
    (fst (HardWordsAnalyzer.analyzeText text provider device st host net)) = false
  /\ HardWordsAnalyzer.replaced
       (fst (HardWordsAnalyzer.analyzeText text provider device st host net))
     = HardWordsAnalyzer.replaced st
  /\ HardWordsAnalyzer.alerts
       (fst (HardWordsAnalyzer.analyzeText text provider device st host net))
     = HardWordsAnalyzer.alerts st
  /\ ((exists message,
         HardWordsAnalyzer.error
           (fst (HardWordsAnalyzer.analyzeText text provider device st host net))
         = Some message
         /\ HardWordsAnalyzer.found
              (fst (HardWordsAnalyzer.analyzeText text provider device st host net))
            = HardWordsAnalyzer.found st)
      \/ (HardWordsAnalyzer.error
            (fst (HardWordsAnalyzer.analyzeText text provider device st host net)) = None
          /\ HardWordsAnalyzer.found
               (fst (HardWordsAnalyzer.analyzeText text provider device st host net))
             = HardWordsAnalyzer.found st
          /\ HardWordsAnalyzer.analyzedWords
               (fst (HardWordsAnalyzer.analyzeText text provider device st host net))
             = HardWordsAnalyzer.analyzedWords st)
      \/ (HardWordsAnalyzer.error
            (fst (HardWordsAnalyzer.analyzeText text provider device st host net)) = None
          /\ exists hardWords,
               HardWordsAnalyzer.found
                 (fst (HardWordsAnalyzer.analyzeText text provider device st host net))
               = HardWordsAnalyzer.found st ++ [hardWords]
               /\ length hardWords
                  = length (HardWordsAnalyzer.analyzedWords
                              (fst (HardWordsAnalyzer.analyzeText text provider device
                                      st host net)))
               /\ Forall (fun h =>
                            HardWord.difficulty h = 1%Z
                            /\ forall w, HardWord.word h = VStr w ->
                                         firstOccurrence w text (HardWord.position h))
                         hardWords)).
Proof.
  unfold HardWordsAnalyzer.analyzeText.
  destruct provider as [provider|]; [|simpl; by eauto 10].
  destruct (AIService.analyzeHardWords text provider host net) as [[response|e] net'];
    [|simpl; by eauto 10].
  destruct (success response && JS.truthy (default VUndefined (data response)));
    [|simpl; by eauto 10].
  simpl.
  destruct (useReply_outcomes text (default VUndefined (data response)) st)
    as (Hloading & Hreplaced & Halerts & _ & Hcases).
  do 3 (split; [done|]).
  destruct Hcases as [[Herr Hfound]|[(Herr & Hfound & Hwords)|(Herr & hardWords & Hfound & Hof)]].
  - left. by eexists.
  - right. by left.
  - right. right. split; [done|]. exists hardWords. split; [done|].
    by apply hardWordsOf_spec.
Qed.

(** A vendor reply that is not JSON ends as a message on the screen: when
    the vendor's body carries the non-empty text [reply] at the vendor's
    path and [JSON.parse] rejects it, [analyzeText] ends with the error
    [Failed to parse AI response], the analyzed words as they were and
    nothing reported to the parent. *)
Theorem unparsable_reply_is_reported (v : Vendor) (text : string) (provider : AIProvider)
    (st : HardWordsAnalyzer.State) (host : Host) (net : Network)
    (response_data : value) (reply : string) (e : thrown) :
  type provider = tagOf v ->
  axios_post host (requestOf v (analyzePrompt text) provider) = Normal response_data ->
  follow response_data (textPath v) = Some (VStr reply) ->
  reply ≠ EmptyString ->
  JSON_parse device (VStr reply) = Throw e ->
  HardWordsAnalyzer.analyzeText text (Some provider) device st host net
  = ({| HardWordsAnalyzer.loading := false;
        HardWordsAnalyzer.error := Some "Failed to parse AI response";
        HardWordsAnalyzer.analyzedWords := HardWordsAnalyzer.analyzedWords st;
        HardWordsAnalyzer.found := HardWordsAnalyzer.found st;
        HardWordsAnalyzer.replaced := HardWordsAnalyzer.replaced st;
        HardWordsAnalyzer.alerts := HardWordsAnalyzer.alerts st;
        HardWordsAnalyzer.faulted := HardWordsAnalyzer.faulted st |},
     net ++ [requestOf v (analyzePrompt text) provider]).
Proof.
  intros Htag Hpost Hpath Hreply Hparse.
  unfold HardWordsAnalyzer.analyzeText.
  change (AIService.analyzeHardWords text provider)
    with (dispatch (AnalyzeHardWords text) provider).
  rewrite (dispatch_registered v), makeRequestOf_settle by done.
  simpl promptOf. rewrite Hpost. unfold settle.
  rewrite (walk_follow host _ _ _ Hpath). simpl.
  destruct (String.eqb_spec reply EmptyString); [done|]. simpl.
  unfold HardWordsAnalyzer.useReply. by rewrite Hparse.
Qed.

End Analyzer.

Lemma unparsable_reply_is_reported_witness :
  HardWordsAnalyzer.error
    (fst (HardWordsAnalyzer.analyzeText "a perspicacious reader"
            (Some (sampleProvider AIProviderType.OPENAI "sk-1" "gpt-4"))
            (sampleDevice [])
            {| HardWordsAnalyzer.loading := true; HardWordsAnalyzer.error := None;
               HardWordsAnalyzer.analyzedWords := []; HardWordsAnalyzer.found := [];
               HardWordsAnalyzer.replaced := []; HardWordsAnalyzer.alerts := [];
               HardWordsAnalyzer.faulted := false |}
            (respondingHost (openaiReply "Sure! Here are the hard words.")) []))
  = Some "Failed to parse AI response".
Proof.
  rewrite (unparsable_reply_is_reported (sampleDevice []) VendorOpenAI
             "a perspicacious reader"
             (sampleProvider AIProviderType.OPENAI "sk-1" "gpt-4") _
             (respondingHost (openaiReply "Sure! Here are the hard words.")) []
             (openaiReply "Sure! Here are the hard words.")
             "Sure! Here are the hard words." (ErrorInstance "Unexpected token")
             eq_refl eq_refl eq_refl ltac:(discriminate) eq_refl).
  reflexivity.
Defined.

(** A reply that parses to [{hardWords: [{word: {toString: 1}}]}]: the
    word cannot be converted to the string [indexOf] needs, the inner
    [catch] reports a parse failure, nothing is told to the parent, and the
    analyzed words are those that were set before the conversion. *)
Example word_with_own_toString :
  HardWordsAnalyzer.useReply
    {| SQLite_openDatabase := fun _ => Normal Connection;
       SQLite_executeSql := fun _ _ => Normal [];
       AsyncStorage_clear := Normal tt;
       JSON_parse := fun _ =>
         Normal (VObj [("hardWords",
                        VArr [VObj [("word", VObj [("toString", VNum 1 0)])]])]);
       JSON_stringify := fun _ => "[]";
       Number_toString := fun mantissa _ => pretty mantissa;
       typeErrorText := v8Message |}
    "a perspicacious reader" (VStr "the reply")
    {| HardWordsAnalyzer.loading := true; HardWordsAnalyzer.error := None;
       HardWordsAnalyzer.analyzedWords := []; HardWordsAnalyzer.found := [];
       HardWordsAnalyzer.replaced := []; HardWordsAnalyzer.alerts := [];
       HardWordsAnalyzer.faulted := false |}
  = {| HardWordsAnalyzer.loading := false;
       HardWordsAnalyzer.error := Some "Failed to parse AI response";
       HardWordsAnalyzer.analyzedWords :=
         [VObj [("word", VObj [("toString", VNum 1 0)])]];
       HardWordsAnalyzer.found := [];
       HardWordsAnalyzer.replaced := []; HardWordsAnalyzer.alerts := [];
       HardWordsAnalyzer.faulted := false |}.
Proof. reflexivity. Qed.

Lemma withoutWord_filter (original : string) (words : list value) :
  Forall (fun word => is_Some (JS.get word (KName "word"))) words ->
  HardWordsAnalyzer.withoutWord original words
  = Some (List.filter
            (fun word =>
               negb (HardWordsAnalyzer.isString
                       (default VUndefined (JS.get word (KName "word"))) original))
            words).
Proof.
  induction 1 as [|word rest [w Hw] _ IH]; simpl; [done|].
  rewrite Hw, IH. simpl. by destruct (HardWordsAnalyzer.isString w original).
Qed.

Lemma saveHardWordReplacement_log (device : Device) (word replacement context : string)
    (now : Z) (service : DatabaseService.State) :
  fst (DatabaseService.saveHardWordReplacement word replacement context now device service)
  = Normal tt ->
  DatabaseService.executed
    (snd (DatabaseService.saveHardWordReplacement word replacement context now
            device service))
  = DatabaseService.executed service
    ++ [ {| sql := DatabaseService.insertReplacement;
            params := [VStr word; VStr replacement; VStr context; VNum now 0] |} ].
Proof.
  unfold DatabaseService.saveHardWordReplacement, DatabaseService.andThen,
    DatabaseService.executeSql.
  destruct (DatabaseService.db service); [|done].
  by destruct (SQLite_executeSql device _ _).
Qed.

(** Picking an alternative changes the text only after the replacement was
    recorded.  When the insert into the history throws, the parent is not
    told to replace anything, the analyzed words stay, and the failure alert
    is raised.  When it returns, that one insert (word, replacement,
    context, time) is what reached SQLite, the parent is told once to
    replace the word, and, the words of all entries being readable, the
    entries whose word is the replaced string leave the list while the
    others stay in their order. *)
Theorem replace_after_recording (original replacement context : string) (now : Z)
    (device : Device) (st : HardWordsAnalyzer.State) (service : DatabaseService.State) :
  (forall e,
     fst (DatabaseService.saveHardWordReplacement original replacement context now
            device service) = Throw e ->
     HardWordsAnalyzer.replaced
       (fst (HardWordsAnalyzer.handleWordReplace original replacement context now
               device st service))
     = HardWordsAnalyzer.replaced st
     /\ HardWordsAnalyzer.analyzedWords
          (fst (HardWordsAnalyzer.handleWordReplace original replacement context now
                  device st service))
        = HardWordsAnalyzer.analyzedWords st
     /\ HardWordsAnalyzer.alerts
          (fst (HardWordsAnalyzer.handleWordReplace original replacement context now
                  device st service))
        = HardWordsAnalyzer.alerts st ++ [("Error", "Failed to save word replacement")])
  /\ (fst (DatabaseService.saveHardWordReplacement original replacement context now
             device service) = Normal tt ->
      HardWordsAnalyzer.replaced
        (fst (HardWordsAnalyzer.handleWordReplace original replacement context now
                device st service))
      = HardWordsAnalyzer.replaced st ++ [(original, replacement)]
      /\ DatabaseService.executed
           (snd (HardWordsAnalyzer.handleWordReplace original replacement context now
                   device st service))
         = DatabaseService.executed service
           ++ [ {| sql := DatabaseService.insertReplacement;
                   params := [VStr original; VStr replacement; VStr context;
                              VNum now 0] |} ]
      /\ (Forall (fun word => is_Some (JS.get word (KName "word")))
                 (HardWordsAnalyzer.analyzedWords st) ->
          HardWordsAnalyzer.analyzedWords
            (fst (HardWordsAnalyzer.handleWordReplace original replacement context now
                    device st service))
          = List.filter
              (fun word =>
                 negb (HardWordsAnalyzer.isString
                         (default VUndefined (JS.get word (KName "word"))) original))
              (HardWordsAnalyzer.analyzedWords st)
          /\ HardWordsAnalyzer.faulted
               (fst (HardWordsAnalyzer.handleWordReplace original replacement context now
                       device st service))
             = HardWordsAnalyzer.faulted st)).
Proof.
  pose proof (saveHardWordReplacement_log device original replacement context now service)
    as Hlog.
  unfold HardWordsAnalyzer.handleWordReplace.
  destruct (DatabaseService.saveHardWordReplacement original replacement context now
              device service) as [[[]|e] service']; simpl in *.
  - split; [done|]. intros _. split; [done|]. split; [by apply Hlog|].
    intros Hreadable. by rewrite (withoutWord_filter original _ Hreadable).
  - split; [|done]. by intros ? _.
Qed.

(** ** Replacing a word everywhere *)

Section ReplaceAll.

Variables search replacement : string.

Lemma getSubstitution_plain (matched before after template : string) :
  occurs "$" template = false ->
  JS.getSubstitution matched before after template = template.
Proof.
  induction template as [|c rest IH]; simpl; [done|].
  destruct (Ascii.eqb c "$"); simpl; [done|].
  intros Hrest. by rewrite IH.
Qed.

Lemma replaceAllFrom_here (whole s : string) (pos : nat) :
  JS.replaceAllFrom search replacement whole s pos 0 =
  if String.prefix search s then
    JS.getSubstitution search (JS.headTo pos whole)
      (JS.tailFrom (pos + String.length search) whole) replacement
    +:+ match s with
        | EmptyString => EmptyString
        | String c rest =>
            match String.length search with
            | 0 => String c (JS.replaceAllFrom search replacement whole rest (S pos) 0)
            | S inside => JS.replaceAllFrom search replacement whole rest (S pos) inside
            end
        end
  else
    match s with
    | EmptyString => EmptyString
    | String c rest => String c (JS.replaceAllFrom search replacement whole rest (S pos) 0)
    end.
Proof. by destruct s. Qed.

(** Units that belong to the last match are passed over. *)
Lemma replaceAllFrom_skip (whole s : string) (pos skip : nat) :
  skip <= String.length s ->
  JS.replaceAllFrom search replacement whole s pos skip
  = JS.replaceAllFrom search replacement whole (JS.tailFrom skip s) (pos + skip) 0.
Proof.
  revert s pos. induction skip as [|skip IH]; intros s pos Hlen.
  - by rewrite Nat.add_0_r.
  - destruct s as [|c s]; simpl in Hlen; [lia|].
    simpl. rewrite IH by lia. f_equal. lia.
Qed.

(** Where the search occurs nowhere, nothing changes. *)
Lemma replaceAllFrom_absent (whole s : string) (pos : nat) :
  (forall i, ~ occursAt search s i) ->
  JS.replaceAllFrom search replacement whole s pos 0 = s.
Proof.
  revert pos. induction s as [|c s IH]; intros pos Habsent; rewrite replaceAllFrom_here.
  - destruct (String.prefix search EmptyString) eqn:Hp; [|done].
    destruct (Habsent 0). apply occursAt_prefix. split; [simpl; lia | done].
  - destruct (String.prefix search (String c s)) eqn:Hp.
    + destruct (Habsent 0). apply occursAt_prefix. split; [simpl; lia | done].
    + f_equal. apply IH. intros i Hi. apply (Habsent (S i)). by apply occursAt_cons.
Qed.

End ReplaceAll.

(** Replacing a word by itself, wherever it starts. *)
Lemma replaceAllFrom_same (search whole : string) (n : nat) :
  search ≠ EmptyString ->
  occurs "$" search = false ->
  forall s pos, String.length s <= n ->
                JS.replaceAllFrom search search whole s pos 0 = s.
Proof.
  intros Hsearch Hplain. induction n as [|n IH]; intros s pos Hlen;
    rewrite replaceAllFrom_here, getSubstitution_plain by done.
  - destruct s; simpl in Hlen; [|lia].
    destruct (String.prefix search EmptyString) eqn:Hp; [|done].
    apply prefix_append in Hp as [after Hafter]. by destruct search.
  - destruct (String.prefix search s) eqn:Hp.
    + apply prefix_append in Hp as [after ->].
      destruct search as [|c search']; [done|].
      rewrite !append_cons. cbn [String.length]. cbv iota.
      rewrite length_append in Hlen. cbn [String.length] in Hlen.
      rewrite replaceAllFrom_skip by (rewrite length_append; lia).
      rewrite tailFrom_app_length, IH; [done | lia].
    + destruct s as [|c s]; [done|]. f_equal. apply IH. simpl in Hlen. lia.
Qed.


(** [replaceAll] leaves a note alone when there is nothing to replace: a
    word that occurs nowhere in the content (one that [indexOf] places at
    -1, as the analyzer reports a word that is not in the text) is replaced
    nowhere, whatever the replacement; and replacing a non-empty word free
    of dollar signs by itself gives the content back. *)
Theorem replace_leaves_untouched (st : NoteEditor.State) (original replacement : string) :
  (JS.indexOf (NoteEditor.content st) original = (-1)%Z ->
   NoteEditor.content (NoteEditor.onWordReplace original replacement st)
   = NoteEditor.content st)
  /\ (original ≠ EmptyString -> occurs "$" original = false ->
      NoteEditor.content (NoteEditor.onWordReplace original original st)
      = NoteEditor.content st)
  /\ NoteEditor.title (NoteEditor.onWordReplace original replacement st)
     = NoteEditor.title st
  /\ NoteEditor.hardWords (NoteEditor.onWordReplace original replacement st)
     = NoteEditor.hardWords st.
Proof.
  split; [|split; [|done]]; simpl; unfold JS.replaceAll.
  - intros Hindex. apply replaceAllFrom_absent.
    destruct (indexOf_spec (NoteEditor.content st) original)
      as [[_ Hnone]|(i & Hi & _)]; [done|]. lia.
  - intros Hne Hplain.
    by apply (replaceAllFrom_same original _ (String.length (NoteEditor.content st))).
Qed.

Lemma replace_leaves_untouched_witness :
  NoteEditor.content
    (NoteEditor.onWordReplace "arduous" "hard"
       {| NoteEditor.title := "t"; NoteEditor.content := "a steep climb";
          NoteEditor.selectedText := EmptyString;
          NoteEditor.selectionStart := 0; NoteEditor.selectionEnd := 0;
          NoteEditor.showWordSuggestions := false; NoteEditor.hardWords := [];
          NoteEditor.showHardWordsAnalysis := false |})
  = "a steep climb".
Proof.
  exact (proj1 (replace_leaves_untouched
                  {| NoteEditor.title := "t"; NoteEditor.content := "a steep climb";
                     NoteEditor.selectedText := EmptyString;
                     NoteEditor.selectionStart := 0; NoteEditor.selectionEnd := 0;
                     NoteEditor.showWordSuggestions := false; NoteEditor.hardWords := [];
                     NoteEditor.showHardWordsAnalysis := false |}
                  "arduous" "hard") eq_refl).
Defined.



(** ** From the settings screen to the vendor *)

Section Stored.

Import AISettingsScreen.

Lemma tagged_save (updated : list AIProvider) (listStored activeStored : bool)
    (st : State) :
  tagged st -> type <$> updated = knownTags ->
  tagged (saveProviders updated listStored activeStored st).
Proof.
  intros Ht Hupdated. unfold saveProviders. destruct listStored; [|done].
  destruct Ht as (_ & _ & Hactive). unfold tagged; simpl.
  split; [done|]. split; [by intros ? [= <-]|].
  intros a. destruct (List.find isActive updated) as [b|] eqn:Hfind; [|apply Hactive].
  destruct activeStored; [|apply Hactive].
  intros [= <-]. apply find_elem_of in Hfind as [Hb _].
  rewrite <- Hupdated. by apply list_elem_of_fmap_2.
Qed.

Lemma tagged_step (st : State) (ev : Event) : tagged st -> tagged (handle st ev).
Proof.
  intros Ht. pose proof Ht as (Hlist & Hsaved & Hactive).
  destruct ev; simpl;
    [| done | done | done | done | | | by unfold tagged; simpl; split].
  - unfold loadProviders, created; simpl.
    destruct got; [destruct (aiProviders st) as [saved|] eqn:Hs|].
    + unfold tagged; simpl. split; [by apply Hsaved|]. split; [|done].
      intros saved' Hs'. apply Hsaved. by rewrite <- Hs'.
    + unfold tagged; simpl. by split.
    + unfold tagged; simpl. by split.
  - unfold handleProviderSave. destruct (editingProvider st) as [edited|]; [|done].
    destruct (blank (apiKey edited)); [done|].
    assert (Hupdated :
      type <$> ((fun p => if String.eqb (type p) (type edited) then edited else p)
                  <$> providers st) = knownTags).
    { rewrite fmap_keeps_tags; [done|].
      intros p. by destruct (String.eqb_spec (type p) (type edited)). }
    destruct (tagged_save _ listStored activeStored st Ht Hupdated) as (Ha & Hb & Hc).
    unfold tagged. split; [exact Ha|]. split; [exact Hb | exact Hc].
  - unfold handleSetActive.
    destruct (List.find _ (providers st)) as [found|]; [|done].
    destruct (blank (apiKey found)); [done|].
    apply tagged_save; [done|]. by rewrite fmap_keeps_tags.
Qed.

Lemma run_tagged (events : list Event) : tagged (run events).
Proof.
  unfold run. assert (Hinit : tagged initialState) by (by unfold tagged).
  revert Hinit. generalize initialState.
  induction events as [|ev events IH]; intros st Hst; simpl; [done|].
  by apply IH, tagged_step.
Qed.

(** Whatever was done on the settings screen, however often it was left
    and entered again and whichever storage calls were rejected,
    dispatching any task with the provider it stored as active never ends
    in [Provider not supported]:
    the tag is one of the three registered ones, exactly one request goes
    out, built by that vendor's adapter, and the apiKey it carries is not
    blank. *)
Theorem stored_provider_is_dispatched (events : list Event) (a : AIProvider)
    (task : Task) (host : Host) (net : Network) :
  activeAIProvider (run events) = Some a ->
  exists v,
    type a = tagOf v
    /\ dispatch task a host net
       = (Normal (settle v host (axios_post host (requestOf v (promptOf task) a))),
          net ++ [requestOf v (promptOf task) a])
    /\ JS.trim (apiKey a) ≠ EmptyString.
Proof.
  intros Hstored.
  destruct (run_tagged events) as (_ & _ & Htag).
  destruct (fold_invariant events initialState initialState_invariant) as (_ & _ & Hkey).
  specialize (Htag a Hstored). specialize (Hkey a Hstored).
  assert (Hv : exists v, type a = tagOf v).
  { unfold knownTags in Htag.
    apply elem_of_cons in Htag as [->|Htag]; [by exists VendorOpenAI|].
    apply elem_of_cons in Htag as [->|Htag]; [by exists VendorGemini|].
    apply elem_of_cons in Htag as [->|Htag]; [by exists VendorAnthropic|].
    by apply elem_of_nil in Htag. }
  destruct Hv as [v Hv]. exists v. split; [done|]. split.
  - by rewrite (dispatch_registered v), makeRequestOf_settle.
  - unfold blank in Hkey. by apply String.eqb_neq in Hkey.
Qed.

Lemma stored_provider_is_dispatched_witness :
  exists v,
    AIProviderType.GEMINI = tagOf v
    /\ dispatch (Simplify "hi")
         {| type := AIProviderType.GEMINI; apiKey := "key-1";
            model := "gemini-pro"; isActive := true |}
         (respondingHost (geminiReply "ok")) []
       = (Normal (settle v (respondingHost (geminiReply "ok"))
                    (axios_post (respondingHost (geminiReply "ok"))
                       (requestOf v (promptOf (Simplify "hi"))
                          {| type := AIProviderType.GEMINI; apiKey := "key-1";
                             model := "gemini-pro"; isActive := true |}))),
          [] ++ [requestOf v (promptOf (Simplify "hi"))
                   {| type := AIProviderType.GEMINI; apiKey := "key-1";
                      model := "gemini-pro"; isActive := true |}])
    /\ JS.trim "key-1" ≠ EmptyString.
Proof.
  exact (stored_provider_is_dispatched
           [Mounted true;
            ConfigurePressed {| type := AIProviderType.GEMINI; apiKey := EmptyString;
                                model := "gemini-pro"; isActive := false |};
            ApiKeyTyped "key-1"; SavePressed true true;
            ActivatePressed AIProviderType.GEMINI true true]
           {| type := AIProviderType.GEMINI; apiKey := "key-1";
              model := "gemini-pro"; isActive := true |}
           (Simplify "hi") (respondingHost (geminiReply "ok")) [] eq_refl).
Defined.

End Stored.

(** ** Saving a note *)

(** Pressing Save with a blank title raises the alert [Please enter a
    title] and nothing else: the database is left as it was, and the screen
    neither starts saving nor goes back.  Otherwise [saving] ends false and either the database was
    never opened, nothing reaches SQLite and the failure is alerted, or
    exactly one statement is executed: the insert into [notes], with seven
    parameters of which the title is the trimmed title and the content the
    text as typed; the screen goes back when SQLite accepts it and alerts
    the failure, staying, when it does not. *)
Theorem save_is_one_insert (note : option Note.t) (generatedId : string)
    (firstDate secondDate : Z) (editor : NoteEditor.State) (device : Device)
    (st : NoteEditorScreen.State) (service : DatabaseService.State) :
  (JS.trim (NoteEditor.title editor) = EmptyString ->
   NoteEditorScreen.pressSave note generatedId firstDate secondDate editor device st service
   = ({| NoteEditorScreen.saving := NoteEditorScreen.saving st;
         NoteEditorScreen.alerts :=
           NoteEditorScreen.alerts st ++ [("Error", "Please enter a title")];
         NoteEditorScreen.wentBack := NoteEditorScreen.wentBack st |},
      service))
  /\ (JS.trim (NoteEditor.title editor) ≠ EmptyString ->
      NoteEditorScreen.saving
        (fst (NoteEditorScreen.pressSave note generatedId firstDate secondDate editor
                device st service)) = false
      /\ ((DatabaseService.db service = None
           /\ NoteEditorScreen.pressSave note generatedId firstDate secondDate editor
                device st service
              = ({| NoteEditorScreen.saving := false;
                    NoteEditorScreen.alerts :=
                      NoteEditorScreen.alerts st ++ [("Error", "Failed to save note")];
                    NoteEditorScreen.wentBack := NoteEditorScreen.wentBack st |},
                 service))
          \/ (exists statement,
                DatabaseService.executed
                  (snd (NoteEditorScreen.pressSave note generatedId firstDate secondDate
                          editor device st service))
                = DatabaseService.executed service ++ [statement]
                /\ sql statement = DatabaseService.insertNote
                /\ length (params statement) = 7
                /\ params statement !! 1 = Some (VStr (JS.trim (NoteEditor.title editor)))
                /\ params statement !! 2 = Some (VStr (NoteEditor.content editor))
                /\ match SQLite_executeSql device (DatabaseService.executed service)
                            statement with
                   | Normal _ =>
                       NoteEditorScreen.wentBack
                         (fst (NoteEditorScreen.pressSave note generatedId firstDate
                                 secondDate editor device st service)) = true
                       /\ NoteEditorScreen.alerts
                            (fst (NoteEditorScreen.pressSave note generatedId firstDate
                                    secondDate editor device st service))
                          = NoteEditorScreen.alerts st
                   | Throw _ =>
                       NoteEditorScreen.wentBack
                         (fst (NoteEditorScreen.pressSave note generatedId firstDate
                                 secondDate editor device st service))
                       = NoteEditorScreen.wentBack st
                       /\ NoteEditorScreen.alerts
                            (fst (NoteEditorScreen.pressSave note generatedId firstDate
                                    secondDate editor device st service))
                          = NoteEditorScreen.alerts st
                            ++ [("Error", "Failed to save note")]
                   end))).
Proof.
  unfold NoteEditorScreen.pressSave, NoteEditor.handleSave.
  destruct (String.eqb_spec (JS.trim (NoteEditor.title editor)) EmptyString) as [Hblank|Hset].
  { split; [done|]. by intros []. }
  split; [done|]. intros _.
  unfold NoteEditorScreen.handleSave, DatabaseService.saveNote, DatabaseService.andThen.
  destruct service as [[connection|] log].
  - set (saved := match note with Some _ => _ | None => _ end).
    assert (Htitle : Note.title saved = JS.trim (NoteEditor.title editor))
      by (by destruct note).
    assert (Hcontent : Note.content saved = NoteEditor.content editor)
      by (by destruct note).
    match goal with
    | |- context [DatabaseService.executeSql ?statement device _] =>
        set (inserted := statement)
    end.
    unfold DatabaseService.executeSql; simpl.
    split.
    + by destruct (SQLite_executeSql device log inserted).
    + right. exists inserted. subst inserted; simpl. rewrite Htitle, Hcontent.
      match goal with
      | |- context [SQLite_executeSql device log ?statement] =>
          destruct (SQLite_executeSql device log statement)
      end; by simpl.
  - simpl. split; [done|]. by left.
Qed.
